(** * Verification of the project consolidator ([main.py])

    The development embeds [ProjectConsolidator._process_files] and the
    helpers it calls.  Python values are rendered as follows.

    - [str] is [string]: a text is identified with the bytes it stands
      for, the UTF-8 encoding of its characters and, for each lone surrogate
      that [os.walk] makes of a byte of a file name that does not decode
      (the [surrogateescape] handler of the file system encoding), that
      byte.  The program joins such texts with ASCII text in between only
      ([/] in a path, the words around a path in a line), where this reading
      is exact.
    - The output file is opened with [errors='ignore'], which drops the
      characters that cannot be encoded, and the files are read with
      [errors='ignore'], which drops the bytes that do not decode: both
      are [PyCodec.utf8_ignore].  [String.length] of what was written is
      the size of the output file.
    - [int] is [Z]; a true division [a / b] is the rational [a / b] of [Q]
      and raises [ZeroDivisionError] when [b] is zero.  The IEEE quotient
      Python computes is the rounding of that rational: rounding is monotone
      and keeps [0] and [1], and a byte count divided by [1024] is exact.
    - The callbacks, the output file and the local counters are a state
      that is threaded through a state-and-exception monad; the state
      survives a raised exception, as in Python.
    - The file system is a [world]: the directory tree [os.walk] lists, the
      result of reading each path, and whether the output can be opened.
      Paths follow the POSIX flavour of [os.path].
    - A callback is an event sink that returns normally, a write to the
      opened output succeeds, and [os.walk] keeps silent about the
      directories it cannot list, as it does without an [onerror]
      argument. *)

From Stdlib Require Import String Ascii List ZArith QArith Lia Bool.
From Stdlib Require Import Sorted DecimalString.
Import ListNotations.

#[local] Open Scope string_scope.
#[local] Open Scope Z_scope.

(** ** Python [str] methods used by the program *)

Module PyStr.

(** [s[i:]] for [0 <= i]. *)
Fixpoint drop (i : nat) (s : string) : string :=
  match i, s with
  | O, _ => s
  | S _, EmptyString => EmptyString
  | S i', String _ s' => drop i' s'
  end.

(** [s[:i]] for [0 <= i]. *)
Fixpoint take (i : nat) (s : string) : string :=
  match i, s with
  | O, _ => EmptyString
  | S _, EmptyString => EmptyString
  | S i', String a s' => String a (take i' s')
  end.

(** [s.endswith(suffix)]: the last [len(suffix)] characters of [s] are
    compared with [suffix], character by character. *)
Definition endswith (s suffix : string) : bool :=
  (String.length suffix <=? String.length s)%nat
  && String.eqb (drop (String.length s - String.length suffix) s) suffix.

(** [s.startswith(c)] for a one-character [c]. *)
Definition startswith_char (s : string) (c : ascii) : bool :=
  match s with
  | String a _ => Ascii.eqb a c
  | EmptyString => false
  end.

(** [s.count(c)] for a one-character [c]. *)
Fixpoint count (s : string) (c : ascii) : Z :=
  match s with
  | EmptyString => 0
  | String a s' => (if Ascii.eqb a c then 1 else 0) + count s' c
  end.

(** [s.lstrip(c)] for a one-character [c]. *)
Fixpoint lstrip (s : string) (c : ascii) : string :=
  match s with
  | String a s' => if Ascii.eqb a c then lstrip s' c else s
  | EmptyString => EmptyString
  end.

(** [s * n]. *)
Fixpoint repeat (s : string) (n : nat) : string :=
  match n with
  | O => EmptyString
  | S n' => s ++ repeat s n'
  end.

(** [s.rfind(c)] for a one-character [c]: the highest index holding [c],
    or [-1]. *)
Fixpoint rfind_from (s : string) (c : ascii) (i : Z) (found : Z) : Z :=
  match s with
  | EmptyString => found
  | String a s' => rfind_from s' c (i + 1) (if Ascii.eqb a c then i else found)
  end.

Definition rfind (s : string) (c : ascii) : Z := rfind_from s c 0 (-1).

(** [x in l] for a list of strings. *)
Definition contains (l : list string) (x : string) : bool :=
  existsb (String.eqb x) l.

(** [str(n)] for an integer. *)
Definition of_int (n : Z) : string :=
  NilZero.string_of_int (Z.to_int n).

End PyStr.

(** ** [os.path], POSIX flavour *)

Module OsPath.

Definition sep : ascii := "/"%char.
Definition extsep : ascii := "."%char.

(** [posixpath.join(a, b)]. *)
Definition join (a b : string) : string :=
  if PyStr.startswith_char b sep then b
  else if String.eqb a EmptyString || PyStr.endswith a "/" then a ++ b
  else a ++ "/" ++ b.

(** [posixpath.basename(p)]: [i = p.rfind('/') + 1; return p[i:]]. *)
Definition basename (p : string) : string :=
  PyStr.drop (Z.to_nat (PyStr.rfind p sep + 1)) p.

(** The loop of [genericpath._splitext] that skips the leading dots of
      the last component: it inspects [p[filenameIndex]] for the [n]
    indices below [dotIndex] and reports whether one is not a dot. *)
Fixpoint has_non_dot (p : string) (n : nat) : bool :=
  match n, p with
  | O, _ => false
  | S _, EmptyString => false
  | S n', String a p' =>
      if Ascii.eqb a extsep then has_non_dot p' n' else true
  end.

(** [posixpath.splitext(p)]. *)
Definition splitext (p : string) : string * string :=
  let sepIndex := PyStr.rfind p sep in
  let dotIndex := PyStr.rfind p extsep in
  if sepIndex <? dotIndex then
    let filenameIndex := sepIndex + 1 in
    if has_non_dot (PyStr.drop (Z.to_nat filenameIndex) p)
                   (Z.to_nat (dotIndex - filenameIndex))
    then (PyStr.take (Z.to_nat dotIndex) p, PyStr.drop (Z.to_nat dotIndex) p)
    else (p, EmptyString)
  else (p, EmptyString).

End OsPath.

(** ** The [utf-8] codec with [errors='ignore'] *)

Module PyCodec.

Definition between (lo hi : nat) (c : ascii) : bool :=
  ((lo <=? nat_of_ascii c) && (nat_of_ascii c <=? hi))%nat.

Definition continuation (c : ascii) : bool := between 128 191 c.

(** The well-formed byte sequences of UTF-8 (the Unicode Standard, table
    3-7): no overlong form, no surrogate, nothing above [U+10FFFF]. *)
Definition two_bytes (b0 b1 : ascii) : bool :=
  between 194 223 b0 && continuation b1.

Definition three_bytes (b0 b1 b2 : ascii) : bool :=
  (between 224 224 b0 && between 160 191 b1
   || between 225 236 b0 && continuation b1
   || between 237 237 b0 && between 128 159 b1
   || between 238 239 b0 && continuation b1)
  && continuation b2.

Definition four_bytes (b0 b1 b2 b3 : ascii) : bool :=
  (between 240 240 b0 && between 144 191 b1
   || between 241 243 b0 && continuation b1
   || between 244 244 b0 && between 128 143 b1)
  && continuation b2 && continuation b3.

(** The length of the well-formed sequence [s] starts with, [0] when it
    starts with none. *)
Definition sequence_length (s : string) : nat :=
  match s with
  | EmptyString => 0
  | String b0 s1 =>
      if between 0 127 b0 then 1
      else
        match s1 with
        | EmptyString => 0
        | String b1 s2 =>
            if two_bytes b0 b1 then 2
            else
              match s2 with
              | EmptyString => 0
              | String b2 s3 =>
                  if three_bytes b0 b1 b2 then 3
                  else
                    match s3 with
                    | EmptyString => 0
                    | String b3 _ => if four_bytes b0 b1 b2 b3 then 4 else 0
                    end
              end
        end
  end.

(** One pass over the bytes: a well-formed sequence is kept, its
    [pending] bytes after the first without another look; a byte that
    starts none is dropped. *)
Fixpoint scan (pending : nat) (s : string) : string :=
  match s with
  | EmptyString => EmptyString
  | String b s' =>
      match pending with
      | S k => String b (scan k s')
      | O =>
          match sequence_length s with
          | O => scan 0 s'
          | S k => String b (scan k s')
          end
      end
  end.

(** What is left of a text that goes through the codec with
    [errors='ignore']: of a [str] that is encoded, its characters without
    the lone surrogates; of the bytes of a file that are decoded, those
    that decode. *)
Definition utf8_ignore (s : string) : string := scan 0 s.

Fixpoint ascii_only (s : string) : bool :=
  match s with
  | EmptyString => true
  | String c s' => between 0 127 c && ascii_only s'
  end.

(** Universal newlines, the default of [open] in text mode: a carriage
    return, with the line feed that follows it if there is one, is read
    as one line feed. *)
Fixpoint universal_newlines (s : string) : string :=
  match s with
  | EmptyString => EmptyString
  | String c s' =>
      if Ascii.eqb c "013"%char then
        match s' with
        | String c' s'' =>
            if Ascii.eqb c' "010"%char
            then String "010"%char (universal_newlines s'')
            else String "010"%char (universal_newlines s')
        | EmptyString => String "010"%char EmptyString
        end
      else String c (universal_newlines s')
  end.

(** [open(path, 'r', encoding='utf-8', errors='ignore').read()] of a file
    that holds the bytes [raw]. *)
Definition decode_file (raw : string) : string :=
  universal_newlines (utf8_ignore raw).

(** Well-formed UTF-8: a sequence of well-formed byte sequences. *)
Inductive well_formed : string -> Prop :=
| wf_nil : well_formed EmptyString
| wf_one b0 s :
    between 0 127 b0 = true -> well_formed s -> well_formed (String b0 s)
| wf_two b0 b1 s :
    two_bytes b0 b1 = true -> well_formed s ->
    well_formed (String b0 (String b1 s))
| wf_three b0 b1 b2 s :
    three_bytes b0 b1 b2 = true -> well_formed s ->
    well_formed (String b0 (String b1 (String b2 s)))
| wf_four b0 b1 b2 b3 s :
    four_bytes b0 b1 b2 b3 = true -> well_formed s ->
    well_formed (String b0 (String b1 (String b2 (String b3 s)))).

End PyCodec.

(** ** The file system seen by one run *)

(** A directory as [os.walk] lists it: the names of its non-directory
    entries and its sub-directories, both in the order of the listing. *)
Inductive tree : Type :=
| Dir (filenames : list string) (subdirs : forest)
with forest : Type :=
| NoDirs
| SubDir (name : string) (sub : tree) (rest : forest).

Scheme tree_forest_ind := Induction for tree Sort Prop
  with forest_tree_ind := Induction for forest Sort Prop.

(** Exceptions.  [OSError] stands for any exception raised by opening or
    reading a file; [str e] is the text of [str(e)]. *)
Inductive exn : Type :=
| OSError (strerror : string)
| ZeroDivisionError.

Definition str (e : exn) : string :=
  match e with
  | OSError strerror => strerror
  | ZeroDivisionError => "division by zero"
  end.

Inductive result (A : Type) : Type :=
| Ok (a : A)
| Raise (e : exn).

Arguments Ok {A} a.
Arguments Raise {A} e.

Record world : Type := mkWorld {
  (* what os.walk(root_dir) finds below the root directory *)
  listing : tree;
  (* open(path, 'r', encoding='utf-8', errors='ignore').read(): for a file
     that holds the bytes raw, Ok (PyCodec.decode_file raw) *)
  read_text : string -> result string;
  (* the text of the OSError raised by open(path, 'w', ...), if any *)
  open_w : string -> option string;
  (* os.path.relpath(path, start), which depends on the working directory
     of the process *)
  relpath : string -> string -> string
}.

(** [os.walk(top, topdown=True)] together with the in-place pruning of
    [dirnames] done by the caller after each directory is yielded: [keep]
    is the test of the list comprehension assigned to [dirnames[:]].  The
    result is the sequence of yielded [(dirpath, filenames)]. *)
Fixpoint os_walk (keep : string -> bool) (top : string) (t : tree)
  : list (string * list string) :=
  match t with
  | Dir filenames subdirs => (top, filenames) :: descend keep top subdirs
  end
with descend (keep : string -> bool) (top : string) (dirs : forest)
  : list (string * list string) :=
  match dirs with
  | NoDirs => []
  | SubDir d sub rest =>
      if keep d
      then (os_walk keep (OsPath.join top d) sub ++ descend keep top rest)%list
      else descend keep top rest
  end.

(** ** The run summary, the observable events and the monad *)

(** The dictionary passed to [finished_callback]. *)
Inductive summary : Type :=
| Success (files_processed : Z) (total_lines : Z) (output_size_kb : Q)
| Error (message : string).

Inductive event : Type :=
| Status (message : string)      (* status_callback(message) *)
| Progress (value : Q)           (* progress_callback(value) *)
| Opened                         (* the output file is opened and truncated *)
| Write (data : string)          (* outfile.write(text) puts the bytes data *)
| Closed                         (* the output file is closed *)
| Finished (s : summary).        (* finished_callback(summary) *)

(** The mutable part of a run: what has happened so far and the two
    counters of [_process_files]. *)
Record state : Type := mkState {
  events : list event;
  processed_files : Z;
  total_lines : Z
}.

Definition M (A : Type) : Type := state -> result A * state.

Definition ret {A} (a : A) : M A := fun s => (Ok a, s).

Definition bind {A B} (m : M A) (k : A -> M B) : M B :=
  fun s =>
    match m s with
    | (Ok a, s') => k a s'
    | (Raise e, s') => (Raise e, s')
    end.

Definition raise {A} (e : exn) : M A := fun s => (Raise e, s).

(** [try: body  except Exception as e: handler(e)]. *)
Definition try_except {A} (body : M A) (handler : exn -> M A) : M A :=
  fun s =>
    match body s with
    | (Ok a, s') => (Ok a, s')
    | (Raise e, s') => handler e s'
    end.

Declare Scope py_scope.
Delimit Scope py_scope with py.
Notation "x <- m ;; k" := (bind m (fun x => k))
  (at level 61, m at next level, right associativity) : py_scope.
Notation "m ;; k" := (bind m (fun _ => k))
  (at level 61, right associativity) : py_scope.
#[local] Open Scope py_scope.

Definition log (e : event) (s : state) : state :=
  mkState (events s ++ [e])%list (processed_files s) (total_lines s).

Definition emit (e : event) : M unit := fun s => (Ok tt, log e s).

Definition get_processed_files : M Z := fun s => (Ok (processed_files s), s).
Definition get_total_lines : M Z := fun s => (Ok (total_lines s), s).

Definition set_processed_files (v : Z) : M unit :=
  fun s => (Ok tt, mkState (events s) v (total_lines s)).

Definition set_total_lines (v : Z) : M unit :=
  fun s => (Ok tt, mkState (events s) (processed_files s) v).

(** [for x in l: body(x)]. *)
Fixpoint for_each {A} (l : list A) (body : A -> M unit) : M unit :=
  match l with
  | [] => ret tt
  | x :: l' => body x ;; for_each l' body
  end.

(** [a / b] on integers. *)
Definition truediv (a b : Z) : M Q :=
  if b =? 0 then raise ZeroDivisionError
  else ret (inject_Z a / inject_Z b)%Q.

(** The content of the output file after a sequence of events: opening
    with mode ['w'] truncates, a write appends its bytes. *)
Definition apply_event (content : string) (e : event) : string :=
  match e with
  | Opened => EmptyString
  | Write data => content ++ data
  | _ => content
  end.

Definition written (evs : list event) : string :=
  fold_left apply_event evs EmptyString.

(** [os.path.getsize] of the output file. *)
Definition getsize : M Z :=
  fun s => (Ok (Z.of_nat (String.length (written (events s)))), s).

(** [with open(path, 'w', ...) as outfile: body]: the file is closed when
    the block is left, also by an exception. *)
Definition with_open_w {A} (w : world) (path : string) (body : M A) : M A :=
  fun s =>
    match open_w w path with
    | Some strerror => (Raise (OSError strerror), s)
    | None => let (r, s') := body (log Opened s) in (r, log Closed s')
    end.

(** [open(path, 'r', ...).read()]. *)
Definition read (w : world) (path : string) : M string :=
  fun s => (read_text w path, s).

(** ** [ProjectConsolidator] *)

(** The object's fields.  A callback is an event sink; its field records
    whether it was given ([true]) or left [None] ([false]). *)
Record ProjectConsolidator : Type := mkConsolidator {
  root_dir : string;
  output_file : string;
  include_ext : list string;
  exclude_patterns : list string;
  progress_callback : bool;
  status_callback : bool;
  finished_callback : bool
}.

(** The line break ["\n"]. *)
Definition newline : ascii := "010"%char.
Definition nl : string := String newline EmptyString.

Section Consolidator.

Variable self : ProjectConsolidator.
Variable w : world.

Definition _update_status (message : string) : M unit :=
  if status_callback self then emit (Status message) else ret tt.

Definition _update_progress (value : Q) : M unit :=
  if progress_callback self then emit (Progress value) else ret tt.

(** [d not in self.exclude_patterns]: the test that prunes [dirnames]. *)
Definition keep_dir (d : string) : bool :=
  negb (PyStr.contains (exclude_patterns self) d).

(** The condition of line 69 on a file name. *)
Definition is_candidate (filename : string) : bool :=
  existsb (fun ext => PyStr.endswith filename ext) (include_ext self)
  && negb (PyStr.contains (exclude_patterns self) filename).

(** The inner loop of the first pass, over the [filenames] of one
    directory; [acc] is [(total_files_to_process, files_to_process_list)]. *)
Definition count_files (acc : Z * list string) (entry : string * list string)
  : Z * list string :=
  let (dirpath, filenames) := entry in
  fold_left
    (fun (acc : Z * list string) filename =>
       let (total_files_to_process, files_to_process_list) := acc in
       if is_candidate filename
       then (total_files_to_process + 1,
             (files_to_process_list ++ [OsPath.join dirpath filename])%list)
       else acc)
    filenames acc.

(** The first pass: the walk that counts and collects the candidates. *)
Definition first_pass : Z * list string :=
  fold_left count_files
    (os_walk keep_dir (root_dir self) (listing w)) (0, []).

(** [outfile.write(data)] on the file of line 79, opened with
    [encoding='utf-8', errors='ignore']: the bytes that reach the file are
    the encoding of [data] without what cannot be encoded.  The line
    break is written as it is ([os.linesep] of POSIX). *)
Definition write (data : string) : M unit :=
  emit (Write (PyCodec.utf8_ignore data)).

(** The body of the loop over [files_to_process_list]. *)
Definition process_file (total_files_to_process : Z) (file_path : string)
  : M unit :=
  let relative_path := relpath w file_path (root_dir self) in
  _update_status ("Processing: " ++ relative_path) ;;
  try_except
    (content <- read w file_path ;;
     let lines := PyStr.count content newline + 1 in
     t <- get_total_lines ;;
     set_total_lines (t + lines) ;;
     write (PyStr.repeat "=" 80 ++ nl) ;;
     write ("### FILE: " ++ relative_path ++ nl) ;;
     write (PyStr.repeat "=" 80 ++ nl) ;;
     let lang := PyStr.lstrip (snd (OsPath.splitext file_path)) "."%char in
     write ("```" ++ lang ++ nl) ;;
     write content ;;
     write (nl ++ "```" ++ nl ++ nl))
    (fun e =>
       write ("--- ERROR reading " ++ relative_path ++ ": " ++ str e
              ++ " ---" ++ nl ++ nl)) ;;
  p <- get_processed_files ;;
  set_processed_files (p + 1) ;;
  p <- get_processed_files ;;
  value <- truediv p total_files_to_process ;;
  _update_progress value.

(** The body of the outer [try], lines 79 to 115. *)
Definition write_output (total_files_to_process : Z)
           (files_to_process_list : list string) : M summary :=
  with_open_w w (output_file self)
    (let project_name := OsPath.basename (root_dir self) in
     write ("--- Project Context for: " ++ project_name ++ " ---"
            ++ nl ++ nl) ;;
     for_each files_to_process_list
              (process_file total_files_to_process)) ;;
  size <- getsize ;;
  let output_size_kb := (inject_Z size / inject_Z 1024)%Q in
  p <- get_processed_files ;;
  t <- get_total_lines ;;
  ret (Success p t output_size_kb).

(** Lines 59 to 118: everything up to the assignment of [summary]. *)
Definition make_summary : M summary :=
  _update_status "Starting scan..." ;;
  let (total_files_to_process, files_to_process_list) := first_pass in
  _update_status ("Found " ++ PyStr.of_int total_files_to_process
                  ++ " files to process.") ;;
  set_processed_files 0 ;;
  set_total_lines 0 ;;
  try_except
    (write_output total_files_to_process files_to_process_list)
    (fun e => ret (Error (str e))).

Definition _process_files : M unit :=
  summary <- make_summary ;;
  if finished_callback self then emit (Finished summary) else ret tt.

End Consolidator.

(** A run starts with nothing observed yet. *)
Definition initial : state := mkState [] 0 0.

(** The events of one run, in the order in which they happen. *)
Definition run (self : ProjectConsolidator) (w : world) : list event :=
  events (snd (_process_files self w initial)).

(** The summary that the run computes (delivered to [finished_callback]
    when there is one). *)
Definition summary_of (self : ProjectConsolidator) (w : world)
  : result summary :=
  fst (make_summary self w initial).

(** What the observer sees in a sequence of events. *)
Definition progress_values (evs : list event) : list Q :=
  flat_map (fun e => match e with Progress v => [v] | _ => [] end) evs.

Definition summaries (evs : list event) : list summary :=
  flat_map (fun e => match e with Finished s => [s] | _ => [] end) evs.

(** The candidates of a run: [files_to_process_list] after the first pass. *)
Definition candidates (self : ProjectConsolidator) (w : world) : list string :=
  snd (first_pass self w).

(** ** What the specification says, in its own words *)

(** The separator line: 80 times [=]. *)
Definition separator : string :=
  "================================================================================".

(** The block of a file that was read, as it stands in the output file:
    of the path, the tag and the content, what the codec of the output
    keeps. *)
Definition block (relative_path lang content : string) : string :=
  separator ++ nl ++
  "### FILE: " ++ PyCodec.utf8_ignore relative_path ++ nl ++
  separator ++ nl ++
  "```" ++ PyCodec.utf8_ignore lang ++ nl ++
  PyCodec.utf8_ignore content ++ nl ++
  "```" ++ nl ++
  nl.

(** The inline annotation of a file that could not be read, as it stands
    in the output file. *)
Definition annotation (relative_path message : string) : string :=
  "--- ERROR reading " ++ PyCodec.utf8_ignore relative_path ++ ": "
  ++ PyCodec.utf8_ignore message ++ " ---" ++ nl ++ nl.

(** The header of the artifact, as it stands in the output file: one line
    and the blank line after it. *)
Definition header (project_name : string) : string :=
  "--- Project Context for: " ++ PyCodec.utf8_ignore project_name
  ++ " ---" ++ nl ++ nl.

(** The block as the specification words it, byte for byte, for a file
    whose bytes are [raw]. *)
Definition stated_block (relative_path tag raw : string) : string :=
  separator ++ nl ++
  "### FILE: " ++ relative_path ++ nl ++
  separator ++ nl ++
  "```" ++ tag ++ nl ++
  raw ++ nl ++
  "```" ++ nl ++
  nl.

(** [name] is the last component of [path]: what follows its last [/]. *)
Definition last_component (path name : string) : Prop :=
  (path = name \/ exists dir, path = dir ++ "/" ++ name)
  /\ forall a b, name <> a ++ "/" ++ b.

(** [name] has the extension [.tag]: [tag] follows the last dot of [name],
    and a character other than a dot comes before that dot. *)
Definition has_extension (name tag : string) : Prop :=
  exists front,
    name = front ++ "." ++ tag
    /\ (forall a b, tag <> a ++ "." ++ b)
    /\ exists a c b, front = a ++ String c b /\ c <> "."%char.

(** The fence tag of a path as the specification words it: the extension
    of the file without the leading dot, empty when the file has none. *)
Definition extension_tag (path tag : string) : Prop :=
  exists name,
    last_component path name
    /\ (has_extension name tag
        \/ tag = EmptyString /\ forall t, ~ has_extension name t).

(** The fence tag of a path. *)
Definition lang_of (file_path : string) : string :=
  PyStr.lstrip (snd (OsPath.splitext file_path)) "."%char.

(** The text that stands for one candidate in the artifact. *)
Definition entry (self : ProjectConsolidator) (w : world) (file_path : string)
  : string :=
  let relative_path := relpath w file_path (root_dir self) in
  match read_text w file_path with
  | Ok content => block relative_path (lang_of file_path) content
  | Raise e => annotation relative_path (str e)
  end.

(** The lines a candidate adds to the total: none when it cannot be read. *)
Definition lines_of (w : world) (file_path : string) : Z :=
  match read_text w file_path with
  | Ok content => PyStr.count content newline + 1
  | Raise _ => 0
  end.

(** Whether a candidate can be read. *)
Definition readable (w : world) (file_path : string) : bool :=
  match read_text w file_path with
  | Ok _ => true
  | Raise _ => false
  end.

(** [s] ends with [suffix]. *)
Definition ends_with (s suffix : string) : Prop :=
  exists front, s = front ++ suffix.

(** A file name is selected: it ends with an included suffix and is not
    itself an exclude pattern. *)
Definition selected (self : ProjectConsolidator) (filename : string) : Prop :=
  (exists ext, In ext (include_ext self) /\ ends_with filename ext)
  /\ ~ In filename (exclude_patterns self).

Inductive has_subdir : forest -> string -> tree -> Prop :=
| subdir_first d sub rest : has_subdir (SubDir d sub rest) d sub
| subdir_later d' sub' rest d sub :
    has_subdir rest d sub -> has_subdir (SubDir d' sub' rest) d sub.

(** [dir_at t ds filenames]: going down from [t] through the directories
    named [ds], in this order, reaches a directory that lists [filenames]. *)
Inductive dir_at : tree -> list string -> list string -> Prop :=
| dir_here filenames subdirs : dir_at (Dir filenames subdirs) [] filenames
| dir_below filenames subdirs d sub ds filenames' :
    has_subdir subdirs d sub ->
    dir_at sub ds filenames' ->
    dir_at (Dir filenames subdirs) (d :: ds) filenames'.

(** The file named [f] lies in the directory reached through [ds]. *)
Definition file_in (t : tree) (ds : list string) (f : string) : Prop :=
  exists filenames, dir_at t ds filenames /\ In f filenames.

(** The path [os.walk] and [os.path.join] build for that file. *)
Definition path_of (top : string) (ds : list string) (f : string) : string :=
  OsPath.join (fold_left OsPath.join ds top) f.

(** ** The events a run is expected to produce *)

(** Concatenation of a list of texts. *)
Definition concat_all (l : list string) : string :=
  fold_right String.append EmptyString l.

(** The text a sequence of events appends to an open file. *)
Definition output_text (evs : list event) : string :=
  fold_right (fun e acc =>
                match e with Write data => data ++ acc | _ => acc end)
             EmptyString evs.

Definition sum_lines (w : world) (l : list string) : Z :=
  fold_right (fun p acc => lines_of w p + acc) 0 l.

(** The progress values of a loop that has already processed [k] of [n]
    files and goes over [l]. *)
Fixpoint fractions {A} (n k : Z) (l : list A) : list Q :=
  match l with
  | [] => []
  | _ :: l' => (inject_Z (k + 1) / inject_Z n)%Q :: fractions n (k + 1) l'
  end.

Definition is_opened (e : event) : bool :=
  match e with Opened => true | _ => false end.

(** The candidates that one yielded directory contributes. *)
Definition found_in (self : ProjectConsolidator)
         (entry : string * list string) : list string :=
  map (OsPath.join (fst entry)) (filter (is_candidate self) (snd entry)).

Section Expected.

Variable self : ProjectConsolidator.
Variable w : world.

Definition status_events (message : string) : list event :=
  if status_callback self then [Status message] else [].

Definition progress_events (value : Q) : list event :=
  if progress_callback self then [Progress value] else [].

(** The writes of one iteration. *)
Definition file_writes (file_path : string) : list event :=
  let relative_path := relpath w file_path (root_dir self) in
  match read_text w file_path with
  | Ok content =>
      [Write (PyCodec.utf8_ignore (PyStr.repeat "=" 80 ++ nl));
       Write (PyCodec.utf8_ignore ("### FILE: " ++ relative_path ++ nl));
       Write (PyCodec.utf8_ignore (PyStr.repeat "=" 80 ++ nl));
       Write (PyCodec.utf8_ignore ("```" ++ lang_of file_path ++ nl));
       Write (PyCodec.utf8_ignore content);
       Write (PyCodec.utf8_ignore (nl ++ "```" ++ nl ++ nl))]
  | Raise e =>
      [Write (PyCodec.utf8_ignore
                ("--- ERROR reading " ++ relative_path ++ ": " ++ str e
                 ++ " ---" ++ nl ++ nl))]
  end.

(** The events of the iteration that makes [file_path] the [k]-th
    processed file of [n]. *)
Definition file_events (n k : Z) (file_path : string) : list event :=
  (status_events ("Processing: " ++ relpath w file_path (root_dir self))
   ++ file_writes file_path
   ++ progress_events (inject_Z k / inject_Z n)%Q)%list.

Fixpoint loop_events (n k : Z) (l : list string) : list event :=
  match l with
  | [] => []
  | p :: l' => (file_events n (k + 1) p ++ loop_events n (k + 1) l')%list
  end.


(** The status updates of the first pass. *)
Definition scan_events : list event :=
  (status_events "Starting scan..."
   ++ status_events
        ("Found " ++ PyStr.of_int (Z.of_nat (length (candidates self w)))
         ++ " files to process."))%list.

(** The events between opening and closing the output file. *)
Definition file_phase_events : list event :=
  Opened
  :: Write (header (OsPath.basename (root_dir self)))
  :: (loop_events (Z.of_nat (length (candidates self w))) 0
                  (candidates self w)
      ++ [Closed])%list.

(** The artifact of a run that could open its output. *)
Definition artifact : string :=
  header (OsPath.basename (root_dir self))
  ++ concat_all (map (entry self w) (candidates self w)).

End Expected.

(** The delivery of the summary. *)
Definition finished_events (self : ProjectConsolidator) (sm : summary)
  : list event :=
  if finished_callback self then [Finished sm] else [].

(** The summary of a run that could open its output. *)
Definition success_summary (self : ProjectConsolidator) (w : world) : summary :=
  Success (Z.of_nat (length (candidates self w)))
          (sum_lines w (candidates self w))
          (inject_Z (Z.of_nat (String.length (artifact self w)))
           / inject_Z 1024)%Q.

(** The world in which reading [file_path] fails with [e] and everything
    else is as in [w]. *)
Definition inject_read_failure (w : world) (file_path : string) (e : exn)
  : world :=
  mkWorld (listing w)
          (fun p => if String.eqb p file_path then Raise e else read_text w p)
          (open_w w)
          (relpath w).

(** The candidates whose read succeeds, in the order of the first pass. *)
Definition readable_candidates (self : ProjectConsolidator) (w : world)
  : list string :=
  filter (readable w) (candidates self w).

(** The contents of the candidates whose read succeeds. *)
Definition read_contents (self : ProjectConsolidator) (w : world)
  : list string :=
  flat_map (fun p => match read_text w p with
                      | Ok content => [content]
                      | Raise _ => []
                      end)
           (candidates self w).

(** The lines of one content, as the specification counts them. *)
Definition line_count (content : string) : Z :=
  PyStr.count content newline + 1.

(** Sum of a list of integers. *)
Definition total (l : list Z) : Z := fold_right Z.add 0 l.

(** ** Sample runs *)

(** [relpath] for a path below [start], both absolute and normalised. *)
Definition relpath_below (path start : string) : string :=
  PyStr.drop (String.length start + 1) path.

Definition sample_tree : tree :=
  Dir ["README.md"; "empty.py"]
      (SubDir "src" (Dir ["app.py"; "notes.tmp"] NoDirs)
      (SubDir "build" (Dir ["out.tmp"; "gen.py"] NoDirs)
      (SubDir ".git" (Dir ["config"] NoDirs) NoDirs))).

Definition sample_read (path : string) : result string :=
  if String.eqb path "/home/u/build/src/app.py" then Ok ("a" ++ nl ++ "b" ++ nl)
  else if String.eqb path "/home/u/build/empty.py" then Ok EmptyString
  else Raise (OSError "[Errno 13] Permission denied").

Definition sample_world : world :=
  mkWorld sample_tree sample_read (fun _ => None) relpath_below.

(** The same file system with an output path that cannot be opened. *)
Definition readonly_world : world :=
  mkWorld sample_tree sample_read
          (fun _ => Some "[Errno 30] Read-only file system")
          relpath_below.

(** The root directory is itself called [build], an exclude pattern. *)
Definition sample_consolidator : ProjectConsolidator :=
  mkConsolidator "/home/u/build" "/tmp/context.txt"
                 [".py"; ".md"] ["build"; ".git"] true true true.

(** A directory of two files: one with DOS line ends, one whose name is,
    as bytes, not UTF-8 (the byte [0xFF] before [.py]). *)
Definition carriage_return : ascii := "013"%char.

Definition dos_tree : tree :=
  Dir ["run.py"; String "255"%char ".py"] NoDirs.

Definition dos_bytes (path : string) : string :=
  if String.eqb path "/home/u/build/run.py"
  then "a" ++ String carriage_return nl ++ "b"
  else "x".

Definition dos_world : world :=
  mkWorld dos_tree (fun path => Ok (PyCodec.decode_file (dos_bytes path)))
          (fun _ => None) relpath_below.

(** Nothing in the tree ends with [.kt]. *)
Definition kotlin_consolidator : ProjectConsolidator :=
  mkConsolidator "/home/u/build" "/tmp/context.txt"
                 [".kt"] ["build"; ".git"] true true true.

(** ** More of Python's [str]: what the entry fields go through *)

Module PyText.

(** [c.isspace()] for a character of the ASCII range: tab to carriage
    return, the four separators [0x1c] to [0x1f], and the space. *)
Definition isspace (c : ascii) : bool :=
  let n := nat_of_ascii c in
  ((9 <=? n) && (n <=? 13) || (28 <=? n) && (n <=? 32))%nat.

(** [s.isascii()]. *)
Fixpoint isascii (s : string) : bool :=
  match s with
  | EmptyString => true
  | String c s' => (nat_of_ascii c <? 128)%nat && isascii s'
  end.

(** [s.lstrip()]. *)
Fixpoint lstrip (s : string) : string :=
  match s with
  | EmptyString => EmptyString
  | String c s' => if isspace c then lstrip s' else s
  end.

(** [s.rstrip()]. *)
Fixpoint rstrip (s : string) : string :=
  match s with
  | EmptyString => EmptyString
  | String c s' =>
      match rstrip s' with
      | EmptyString => if isspace c then EmptyString else String c EmptyString
      | String c' t => String c (String c' t)
      end
  end.

(** [s.strip()], on a text of the ASCII range (Python also strips the
    white space beyond it; the statements about entry fields assume
    [isascii]). *)
Definition strip (s : string) : string := rstrip (lstrip s).

(** [s.split(sep)] for a one-character [sep]. *)
Fixpoint split (s : string) (sep : ascii) : list string :=
  match s with
  | EmptyString => [EmptyString]
  | String c s' =>
      if Ascii.eqb c sep then EmptyString :: split s' sep
      else match split s' sep with
           | piece :: pieces => String c piece :: pieces
           | [] => [String c EmptyString]
           end
  end.

(** [sep.join(l)]. *)
Definition join (sep : string) (l : list string) : string :=
  String.concat sep l.

(** Truth value of a text: it is not empty. *)
Definition truthy (s : string) : bool :=
  match s with
  | EmptyString => false
  | String _ _ => true
  end.

(** The digits of [s] with a comma before every group of three, [lead]
    being the number of digits left in the first group. *)
Fixpoint group_digits (s : string) (lead : nat) : string :=
  match s with
  | EmptyString => EmptyString
  | String c s' =>
      match lead with
      | O => String ","%char (String c (group_digits s' 2))
      | S k => String c (group_digits s' k)
      end
  end.

(** [format(n, ',')]: the decimal digits in groups of three. *)
Definition format_thousands (n : Z) : string :=
  let digits := PyStr.of_int (Z.abs n) in
  let lead := ((String.length digits - 1) mod 3 + 1)%nat in
  (if n <? 0 then "-" else EmptyString) ++ group_digits digits lead.

(** The integer nearest to [num / den], the even one on a tie. *)
Definition round_half_even (num : Z) (den : positive) : Z :=
  let q := num / Z.pos den in
  let r := num mod Z.pos den in
  if 2 * r <? Z.pos den then q
  else if Z.pos den <? 2 * r then q + 1
  else if Z.even q then q else q + 1.

(** [format(x, '.2f')] for the exact value [x] of a float. *)
Definition format_2f (x : Q) : string :=
  let hundredths := round_half_even (Z.abs (Qnum x) * 100) (Qden x) in
  let cents := hundredths mod 100 in
  (if Qnum x <? 0 then "-" else EmptyString)
  ++ PyStr.of_int (hundredths / 100) ++ "."
  ++ (if cents <? 10 then "0" else EmptyString) ++ PyStr.of_int cents.

End PyText.

(** ** The desktop application ([App]) *)

(** The defaults of lines 19 to 26. *)
Definition DEFAULT_INCLUDE_EXTENSIONS : list string :=
  [".kt"; ".java"; ".xml"; ".gradle"; ".kts"; ".pro"; ".md";
   ".json"; ".yml"; ".yaml"; ".py"; ".js"; ".html"; ".css"].

Definition DEFAULT_EXCLUDE_PATTERNS : list string :=
  [".git"; ".idea"; "build"; ".gradle"; "gradle"; "captures";
   "local.properties"; ".DS_Store"; "__pycache__"; "node_modules"].

(** The comprehension of lines 232 and 233:
    [[item.strip() for item in text.split(',') if item.strip()]]. *)
Definition parse_items (text : string) : list string :=
  map PyText.strip
      (filter (fun item => PyText.truthy (PyText.strip item))
              (PyText.split text ","%char)).

(** The [state] option of a widget. *)
Inductive widget_state : Type := normal | disabled.

(** The widgets of the window that the handlers read or change, the
    clipboard, and the error boxes shown so far (title and message). *)
Record App : Type := mkApp {
  project_dir_entry : string;
  output_file_entry : string;
  include_entry : string;
  exclude_entry : string;
  generate_button : widget_state * string;
  copy_button : widget_state;
  open_button : widget_state;
  status_label : string;
  progress_bar : Q;
  summary_textbox : widget_state * string;
  clipboard : string;
  errors_shown : list (string * string)
}.

(** What the application needs from the machine it runs on. *)
Record desktop : Type := mkDesktop {
  (* the file system of the run *)
  files : world;
  (* os.path.isdir(path) *)
  isdir : string -> bool;
  (* open(path, 'r', encoding='utf-8').read() *)
  read_strict : string -> result string
}.

(** The text of the generate button (line 178), byte by byte. *)
Definition generate_label : string :=
  String "195" (String "176" (String "197" (String "184" (String "197"
  (String "161" (String "226" (String "130" (String "172"
  " Generate Context File")))))))).

(** The value a progress bar keeps when it is set to [value]: it stays
    within 0 and 1. *)
Definition shown_value (value : Q) : Q :=
  if negb (Qle_bool value 1) then 1%Q
  else if negb (Qle_bool 0 value) then 0%Q
  else value.

Section Widgets.

Variable app : App.

(** [generate_button.configure(state=..., text=...)]. *)
Definition configure_generate (s : widget_state) (text : string) : App :=
  mkApp (project_dir_entry app) (output_file_entry app) (include_entry app)
        (exclude_entry app) (s, text) (copy_button app) (open_button app)
        (status_label app) (progress_bar app) (summary_textbox app)
        (clipboard app) (errors_shown app).

(** [copy_button.configure(state=...)]. *)
Definition configure_copy (s : widget_state) : App :=
  mkApp (project_dir_entry app) (output_file_entry app) (include_entry app)
        (exclude_entry app) (generate_button app) s (open_button app)
        (status_label app) (progress_bar app) (summary_textbox app)
        (clipboard app) (errors_shown app).

(** [open_button.configure(state=...)]. *)
Definition configure_open (s : widget_state) : App :=
  mkApp (project_dir_entry app) (output_file_entry app) (include_entry app)
        (exclude_entry app) (generate_button app) (copy_button app) s
        (status_label app) (progress_bar app) (summary_textbox app)
        (clipboard app) (errors_shown app).

(** [status_label.configure(text=...)]. *)
Definition configure_status (text : string) : App :=
  mkApp (project_dir_entry app) (output_file_entry app) (include_entry app)
        (exclude_entry app) (generate_button app) (copy_button app)
        (open_button app) text (progress_bar app) (summary_textbox app)
        (clipboard app) (errors_shown app).

(** [progress_bar.set(value)]. *)
Definition progress_bar_set (value : Q) : App :=
  mkApp (project_dir_entry app) (output_file_entry app) (include_entry app)
        (exclude_entry app) (generate_button app) (copy_button app)
        (open_button app) (status_label app) (shown_value value)
        (summary_textbox app) (clipboard app) (errors_shown app).

Definition with_textbox (box : widget_state * string) : App :=
  mkApp (project_dir_entry app) (output_file_entry app) (include_entry app)
        (exclude_entry app) (generate_button app) (copy_button app)
        (open_button app) (status_label app) (progress_bar app) box
        (clipboard app) (errors_shown app).

(** [summary_textbox.configure(state=...)]. *)
Definition textbox_configure (s : widget_state) : App :=
  with_textbox (s, snd (summary_textbox app)).

(** [summary_textbox.delete("1.0", "end")]: a disabled text widget
    ignores it. *)
Definition textbox_delete_all : App :=
  match fst (summary_textbox app) with
  | normal => with_textbox (normal, EmptyString)
  | disabled => app
  end.

(** [summary_textbox.insert("1.0", text)]: a disabled text widget
    ignores it. *)
Definition textbox_insert_first (text : string) : App :=
  match fst (summary_textbox app) with
  | normal => with_textbox (normal, text ++ snd (summary_textbox app))
  | disabled => app
  end.

Definition with_clipboard (content : string) : App :=
  mkApp (project_dir_entry app) (output_file_entry app) (include_entry app)
        (exclude_entry app) (generate_button app) (copy_button app)
        (open_button app) (status_label app) (progress_bar app)
        (summary_textbox app) content (errors_shown app).

(** [clipboard_clear()]. *)
Definition clipboard_clear : App := with_clipboard EmptyString.

(** [clipboard_append(text)]. *)
Definition clipboard_append (text : string) : App :=
  with_clipboard (clipboard app ++ text).

(** [messagebox.showerror(title, message)]. *)
Definition showerror (title message : string) : App :=
  mkApp (project_dir_entry app) (output_file_entry app) (include_entry app)
        (exclude_entry app) (generate_button app) (copy_button app)
        (open_button app) (status_label app) (progress_bar app)
        (summary_textbox app) (clipboard app)
        (errors_shown app ++ [(title, message)])%list.

End Widgets.

(** The two list fields hold text of the ASCII range, on which [strip] is
    modelled. *)
Definition ascii_fields (app : App) : Prop :=
  PyText.isascii (include_entry app) = true
  /\ PyText.isascii (exclude_entry app) = true.

(** The consolidator that [start_generation] builds from the entries. *)
Definition consolidator_of (app : App) : ProjectConsolidator :=
  mkConsolidator (project_dir_entry app) (output_file_entry app)
                 (parse_items (include_entry app))
                 (parse_items (exclude_entry app))
                 true true true.

(** [App.start_generation]: the changed window and the consolidator whose
    [run] is called, if the input was accepted. *)
Definition start_generation (d : desktop) (app : App)
  : App * option ProjectConsolidator :=
  let project_dir := project_dir_entry app in
  let output_file := output_file_entry app in
  if negb (PyText.truthy project_dir) || negb (isdir d project_dir) then
    (showerror app "Error" "Please select a valid project directory.", None)
  else if negb (PyText.truthy output_file) then
    (showerror app "Error" "Please select an output file path.", None)
  else
    let app := configure_generate app disabled "Processing..." in
    let app := configure_copy app disabled in
    let app := configure_open app disabled in
    let app := progress_bar_set app 0 in
    let app := textbox_configure app normal in
    let app := textbox_delete_all app in
    let app := textbox_configure app disabled in
    let include_ext := parse_items (include_entry app) in
    let exclude_patterns := parse_items (exclude_entry app) in
    (app,
     Some (mkConsolidator project_dir output_file include_ext exclude_patterns
                          true true true)).

(** [App.update_progress]. *)
Definition update_progress (app : App) (value : Q) : App :=
  progress_bar_set app value.

(** [App.update_status]. *)
Definition update_status (app : App) (text : string) : App :=
  configure_status app text.

(** The text of the summary box after a success (lines 260 to 266). *)
Definition summary_text (files_processed total_lines : Z) (output_size_kb : Q)
           (output_file : string) : string :=
  "--- Generation Complete ---" ++ nl ++ nl
  ++ "Files Processed: " ++ PyStr.of_int files_processed ++ nl
  ++ "Total Lines of Code: " ++ PyText.format_thousands total_lines ++ nl
  ++ "Output File Size: " ++ PyText.format_2f output_size_kb ++ " KB"
  ++ nl ++ nl
  ++ "Output saved to:" ++ nl ++ output_file.

(** [App.on_generation_complete]. *)
Definition on_generation_complete (app : App) (s : summary) : App :=
  let app := configure_generate app normal generate_label in
  let app := textbox_configure app normal in
  let app := textbox_delete_all app in
  let app :=
    match s with
    | Success files_processed total_lines output_size_kb =>
        let app :=
          configure_status app
            ("Success! Project context saved to "
             ++ OsPath.basename (output_file_entry app)) in
        let app :=
          textbox_insert_first app
            (summary_text files_processed total_lines output_size_kb
                          (output_file_entry app)) in
        let app := configure_copy app normal in
        configure_open app normal
    | Error message =>
        let app := configure_status app ("Error: " ++ message) in
        textbox_insert_first app ("An error occurred:" ++ nl ++ nl ++ message)
    end in
  textbox_configure app disabled.

(** [App.copy_to_clipboard]. *)
Definition copy_to_clipboard (d : desktop) (app : App) : App :=
  let output_file := output_file_entry app in
  match read_strict d output_file with
  | Ok content =>
      let app := clipboard_clear app in
      let app := clipboard_append app content in
      configure_status app "Content copied to clipboard!"
  | Raise e =>
      showerror app "Error" ("Could not read file to copy: " ++ str e)
  end.

(** The callbacks [start_generation] hands to the consolidator: what one
    event of the run does to the window. *)
Definition deliver (app : App) (e : event) : App :=
  match e with
  | Status message => update_status app message
  | Progress value => update_progress app value
  | Finished s => on_generation_complete app s
  | _ => app
  end.

(** A click on the generate button followed by the run it starts, if any,
    with every callback of the run delivered in order. *)
Definition generate (d : desktop) (app : App) : App :=
  match start_generation d app with
  | (app', Some consolidator) =>
      fold_left deliver (run consolidator (files d)) app'
  | (app', None) => app'
  end.

(** The window with another progress value and status text. *)
Definition with_feedback (app : App) (value : Q) (text : string) : App :=
  mkApp (project_dir_entry app) (output_file_entry app) (include_entry app)
        (exclude_entry app) (generate_button app) (copy_button app)
        (open_button app) text value (summary_textbox app)
        (clipboard app) (errors_shown app).

(** The value of the progress bar after some events, from [value]. *)
Definition last_progress (evs : list event) (value : Q) : Q :=
  fold_left (fun q e => match e with Progress v => shown_value v | _ => q end)
            evs value.

(** The text of the status label after some events, from [text]. *)
Definition last_status (evs : list event) (text : string) : string :=
  fold_left (fun s e => match e with Status m => m | _ => s end) evs text.

(** The window is idle: a run can be started and the summary is read-only. *)
Definition idle (app : App) : Prop :=
  fst (generate_button app) = normal /\ fst (summary_textbox app) = disabled.

(** ** More observations of a run *)

(** The status messages among some events. *)
Definition statuses (evs : list event) : list string :=
  flat_map (fun e => match e with Status m => [m] | _ => [] end) evs.

(** The discipline of the output file: it is opened only when closed,
    written and closed only when open, the summary is delivered when it
    is closed, and it is closed in the end. *)
Fixpoint file_discipline (is_open : bool) (evs : list event) : bool :=
  match evs with
  | [] => negb is_open
  | Opened :: evs' => negb is_open && file_discipline true evs'
  | Write _ :: evs' => is_open && file_discipline true evs'
  | Closed :: evs' => is_open && file_discipline false evs'
  | Finished _ :: evs' => negb is_open && file_discipline is_open evs'
  | _ :: evs' => file_discipline is_open evs'
  end.

(** The consolidator that has gone down into the sub-directory [d]. *)
Definition enter (self : ProjectConsolidator) (d : string)
  : ProjectConsolidator :=
  mkConsolidator (OsPath.join (root_dir self) d) (output_file self)
                 (include_ext self) (exclude_patterns self)
                 (progress_callback self) (status_callback self)
                 (finished_callback self).

(** The world whose listing is [t]. *)
Definition inside (w : world) (t : tree) : world :=
  mkWorld t (read_text w) (open_w w) (relpath w).

(** The candidates found below the sub-directories [dirs] that are kept,
    each as a first pass of its own. *)
Fixpoint candidates_below (self : ProjectConsolidator) (w : world)
         (dirs : forest) : list string :=
  match dirs with
  | NoDirs => []
  | SubDir d sub rest =>
      ((if keep_dir self d then candidates (enter self d) (inside w sub)
        else [])
       ++ candidates_below self w rest)%list
  end.

(** A well-formed list item: not empty, without a comma, without white
    space at either end. *)
Definition head_is_space (s : string) : bool :=
  match s with
  | EmptyString => false
  | String c _ => PyText.isspace c
  end.

Fixpoint last_is_space (s : string) : bool :=
  match s with
  | EmptyString => false
  | String c EmptyString => PyText.isspace c
  | String _ s' => last_is_space s'
  end.

Definition clean_item (s : string) : Prop :=
  s <> EmptyString
  /\ PyStr.count s ","%char = 0
  /\ head_is_space s = false
  /\ last_is_space s = false.

(** A text of white space and commas only. *)
Fixpoint blank (s : string) : bool :=
  match s with
  | EmptyString => true
  | String c s' => (PyText.isspace c || Ascii.eqb c ","%char) && blank s'
  end.

(** A name as a directory listing gives it: not empty, without a slash. *)
Definition plain_name (s : string) : Prop :=
  s <> EmptyString /\ PyStr.count s OsPath.sep = 0.

Fixpoint subdir_names (dirs : forest) : list string :=
  match dirs with
  | NoDirs => []
  | SubDir d _ rest => d :: subdir_names rest
  end.

(** A listing as a file system gives it: in every directory the names are
    plain, no two files have the same name and no two sub-directories
    have. *)
Fixpoint tidy (t : tree) : Prop :=
  match t with
  | Dir filenames subdirs =>
      NoDup filenames /\ Forall plain_name filenames /\ tidy_forest subdirs
  end
with tidy_forest (dirs : forest) : Prop :=
  match dirs with
  | NoDirs => True
  | SubDir d sub rest =>
      plain_name d /\ ~ In d (subdir_names rest)
      /\ tidy sub /\ tidy_forest rest
  end.

(** What [join] puts in front of a plain name. *)
Definition stem (top : string) : string :=
  if String.eqb top EmptyString || PyStr.endswith top "/" then top
  else top ++ "/".

(** ** A sample window *)

Definition sample_desktop : desktop :=
  mkDesktop sample_world
            (fun path => String.eqb path "/home/u/build")
            (fun path => Raise (OSError "[Errno 2] No such file or directory")).

(** The window as [create_widgets] leaves it, with both paths chosen. *)
Definition sample_app : App :=
  mkApp "/home/u/build" "/tmp/context.txt"
        (PyText.join ", " DEFAULT_INCLUDE_EXTENSIONS)
        (PyText.join ", " DEFAULT_EXCLUDE_PATTERNS)
        (normal, generate_label) disabled disabled
        "Ready." 0 (disabled, EmptyString) "kept" [].

(** A window whose project entry names no directory and whose output
    entry is empty. *)
Definition stray_app : App :=
  mkApp "/home/u/nowhere" EmptyString ".py" "build"
        (normal, generate_label) disabled disabled
        "Ready." 0 (disabled, EmptyString) "kept" [].

(** * Proofs *)

(** ** The library functions on examples *)

Example endswith_py : PyStr.endswith "app.py" ".py" = true.
Proof. reflexivity. Qed.

Example endswith_case : PyStr.endswith "APP.PY" ".py" = false.
Proof. reflexivity. Qed.

Example splitext_py : OsPath.splitext "/r/src/app.py" = ("/r/src/app", ".py").
Proof. reflexivity. Qed.

Example splitext_hidden :
  OsPath.splitext "/r/.bashrc" = ("/r/.bashrc", EmptyString).
Proof. reflexivity. Qed.

Example splitext_dotdir :
  OsPath.splitext "/r.d/Makefile" = ("/r.d/Makefile", EmptyString).
Proof. reflexivity. Qed.

Example splitext_tar : OsPath.splitext "a.tar.gz" = ("a.tar", ".gz").
Proof. reflexivity. Qed.

Example basename_root : OsPath.basename "/home/u/proj" = "proj".
Proof. reflexivity. Qed.

Example join_plain : OsPath.join "/r/src" "app.py" = "/r/src/app.py".
Proof. reflexivity. Qed.

Example of_int_12 : PyStr.of_int 12 = "12".
Proof. reflexivity. Qed.

(** [caf\xc3\xa9.py] is UTF-8 and passes the codec. *)
Example utf8_ignore_keeps_two_bytes :
  PyCodec.utf8_ignore ("caf" ++ String "195" (String "169" ".py"))
  = "caf" ++ String "195" (String "169" ".py").
Proof. reflexivity. Qed.

Example utf8_ignore_keeps_four_bytes :
  PyCodec.utf8_ignore
    (String "240" (String "159" (String "154" (String "128" "!"))))
  = String "240" (String "159" (String "154" (String "128" "!"))).
Proof. reflexivity. Qed.

(** The bytes [0xFF 0xFE] start no sequence. *)
Example utf8_ignore_drops_stray_bytes :
  PyCodec.utf8_ignore (String "255" (String "254" ".py")) = ".py".
Proof. reflexivity. Qed.

(** A sequence that is cut short: [0xE2 0x82] without its third byte. *)
Example utf8_ignore_drops_cut_sequence :
  PyCodec.utf8_ignore (String "226" (String "130" "x")) = "x".
Proof. reflexivity. Qed.

(** A surrogate in three bytes ([0xED 0xA0 0x80]) and an overlong form
    ([0xC0 0xAF]) are not UTF-8. *)
Example utf8_ignore_drops_surrogate :
  PyCodec.utf8_ignore (String "237" (String "160" (String "128" "!"))) = "!".
Proof. reflexivity. Qed.

Example utf8_ignore_drops_overlong :
  PyCodec.utf8_ignore (String "192" (String "175" "!")) = "!".
Proof. reflexivity. Qed.

Example decode_file_dos :
  PyCodec.decode_file ("a" ++ String carriage_return nl ++ "b"
                       ++ String carriage_return "c")
  = "a" ++ nl ++ "b" ++ nl ++ "c".
Proof. reflexivity. Qed.

(** ** Facts about strings *)

Section StringFacts.

Lemma append_nil_r (s : string) : s ++ EmptyString = s.
Proof. induction s as [|a s IH]; simpl; [reflexivity | now rewrite IH]. Qed.

Lemma append_assoc (s t u : string) : (s ++ t) ++ u = s ++ (t ++ u).
Proof. induction s as [|a s IH]; simpl; [reflexivity | now rewrite IH]. Qed.

Lemma length_append (s t : string) :
  String.length (s ++ t) = (String.length s + String.length t)%nat.
Proof. induction s as [|a s IH]; simpl; [reflexivity | now rewrite IH]. Qed.

Lemma take_drop (n : nat) (s : string) : PyStr.take n s ++ PyStr.drop n s = s.
Proof.
  revert s; induction n as [|n IH]; intros [|a s]; simpl; try reflexivity.
  now rewrite IH.
Qed.

Lemma drop_app (s t : string) : PyStr.drop (String.length s) (s ++ t) = t.
Proof. induction s as [|a s IH]; simpl; [now destruct t | exact IH]. Qed.

Lemma endswith_spec (s suffix : string) :
  PyStr.endswith s suffix = true <-> ends_with s suffix.
Proof.
  unfold PyStr.endswith, ends_with. rewrite andb_true_iff, Nat.leb_le, String.eqb_eq.
  split.
  - intros [_ H]. set (n := (String.length s - String.length suffix)%nat) in H.
    exists (PyStr.take n s). rewrite <- H. symmetry. apply take_drop.
  - intros [front ->]. rewrite length_append. split; [lia|].
    replace (String.length front + String.length suffix - String.length suffix)%nat
      with (String.length front) by lia.
    apply drop_app.
Qed.

Lemma contains_spec (l : list string) (x : string) :
  PyStr.contains l x = true <-> In x l.
Proof.
  unfold PyStr.contains. rewrite existsb_exists. split.
  - intros [y [Hy E]]. apply String.eqb_eq in E. now subst.
  - intros H. exists x. split; [assumption | apply String.eqb_refl].
Qed.

Lemma count_nonneg (s : string) (c : ascii) : 0 <= PyStr.count s c.
Proof.
  induction s as [|a s IH]; simpl; [lia|].
  destruct (Ascii.eqb a c); lia.
Qed.

Lemma append_inv_head (a x y : string) : a ++ x = a ++ y -> x = y.
Proof.
  induction a as [|c a IH]; simpl; intros H; [exact H|].
  injection H as H. now apply IH.
Qed.

Lemma count_append (x y : string) (c : ascii) :
  PyStr.count (x ++ y) c = PyStr.count x c + PyStr.count y c.
Proof.
  induction x as [|a x IH]; simpl; [reflexivity|].
  rewrite IH. destruct (Ascii.eqb a c); lia.
Qed.

(** [rfind] returns the position of the last occurrence: what follows it
    holds the character no more. *)
Lemma rfind_from_spec (s : string) (c : ascii) (i found : Z) :
  (PyStr.rfind_from s c i found = found /\ PyStr.count s c = 0)
  \/ (i <= PyStr.rfind_from s c i found
      /\ exists rest,
          PyStr.drop (Z.to_nat (PyStr.rfind_from s c i found - i)) s
          = String c rest
          /\ PyStr.count rest c = 0).
Proof.
  revert i found; induction s as [|a s IH]; intros i found; simpl.
  - left; split; reflexivity.
  - destruct (IH (i + 1) (if Ascii.eqb a c then i else found))
      as [[E Hc] | [Hle [rest [Hd Hc]]]].
    + rewrite E. destruct (Ascii.eqb_spec a c) as [->|Hne].
      * right. split; [lia|]. exists s. rewrite Z.sub_diag. simpl. now split.
      * left. split; [reflexivity | lia].
    + right. split; [lia|]. exists rest. split; [|assumption].
      set (r := PyStr.rfind_from s c (i + 1) _) in *.
      replace (Z.to_nat (r - i)) with (S (Z.to_nat (r - (i + 1)))) by lia.
      simpl. exact Hd.
Qed.

Lemma rfind_spec (s : string) (c : ascii) :
  PyStr.rfind s c = -1
  \/ (0 <= PyStr.rfind s c
      /\ exists rest,
          PyStr.drop (Z.to_nat (PyStr.rfind s c)) s = String c rest
          /\ PyStr.count rest c = 0).
Proof.
  unfold PyStr.rfind.
  destruct (rfind_from_spec s c 0 (-1)) as [[E _] | [Hle [rest [Hd Hc]]]].
  - now left.
  - right. split; [assumption|]. exists rest. rewrite Z.sub_0_r in Hd. now split.
Qed.

Lemma lstrip_absent (s : string) (c : ascii) :
  PyStr.count s c = 0 -> PyStr.lstrip s c = s.
Proof.
  destruct s as [|a s]; simpl; [reflexivity|].
  destruct (Ascii.eqb a c); [|reflexivity].
  intros H. pose proof (count_nonneg s c). lia.
Qed.

(** The extension is empty or a dot followed by the fence tag, and the
    two parts of [splitext] make up the path. *)
Lemma splitext_spec (p : string) :
  fst (OsPath.splitext p) ++ snd (OsPath.splitext p) = p
  /\ (snd (OsPath.splitext p) = EmptyString /\ lang_of p = EmptyString
      \/ snd (OsPath.splitext p) = "." ++ lang_of p).
Proof.
  unfold lang_of, OsPath.splitext.
  destruct (PyStr.rfind p OsPath.sep <? PyStr.rfind p OsPath.extsep) eqn:Hlt;
    [|simpl; split; [apply append_nil_r | now left]].
  destruct (OsPath.has_non_dot _ _);
    [|simpl; split; [apply append_nil_r | now left]].
  simpl. split; [apply take_drop|]. right.
  destruct (rfind_spec p OsPath.extsep) as [E | [_ [rest [Hd Hc]]]].
  - apply Z.ltb_lt in Hlt.
    destruct (rfind_spec p OsPath.sep) as [E' | [H0 _]]; lia.
  - rewrite Hd. simpl. change "."%char with OsPath.extsep.
    now rewrite (lstrip_absent _ _ Hc).
Qed.

Lemma separator_is_80_equal_signs : separator = PyStr.repeat "=" 80.
Proof. reflexivity. Qed.

End StringFacts.

(** ** The codec of the output file *)

Section Codec.

Import PyCodec.

(** An ASCII byte is no continuation byte, and none of the second bytes
    of a longer sequence. *)
Lemma between_low (c : ascii) (lo hi : nat) :
  between 0 127 c = true -> (128 <= lo)%nat -> between lo hi c = false.
Proof.
  unfold between. intros H Hlo.
  apply andb_true_iff in H. destruct H as [_ H]. apply Nat.leb_le in H.
  apply andb_false_iff. left. apply Nat.leb_gt. lia.
Qed.

Lemma sequence_length_bound (s : string) :
  (sequence_length s <= String.length s)%nat.
Proof.
  destruct s as [|b0 [|b1 [|b2 [|b3 s]]]]; simpl;
    repeat match goal with
           | |- context [if ?b then _ else _] => destruct b
           end; simpl; lia.
Qed.

(** An ASCII byte ends the look ahead: the sequence found before it does
    not depend on what follows it. *)
Lemma sequence_length_boundary (x : ascii) (a : string) (c : ascii) (b : string) :
  between 0 127 c = true ->
  sequence_length (String x a ++ String c b) = sequence_length (String x a).
Proof.
  intros Hc.
  assert (Hcont : continuation c = false) by (apply between_low; [exact Hc | lia]).
  assert (H1 : between 160 191 c = false) by (apply between_low; [exact Hc | lia]).
  assert (H2 : between 128 159 c = false) by (apply between_low; [exact Hc | lia]).
  assert (H3 : between 144 191 c = false) by (apply between_low; [exact Hc | lia]).
  assert (H4 : between 128 143 c = false) by (apply between_low; [exact Hc | lia]).
  destruct a as [|b1 [|b2 [|b3 a]]]; cbn [append sequence_length];
    destruct (between 0 127 x); try reflexivity.
  - unfold two_bytes. rewrite Hcont, andb_false_r.
    destruct b as [|b2 [|b3 b]]; try reflexivity;
      unfold three_bytes, four_bytes; unfold continuation in *;
      rewrite ?Hcont, ?H1, ?H2, ?H3, ?H4, ?andb_false_r; cbn [orb andb];
      try reflexivity.
  - destruct (two_bytes x b1); [reflexivity|].
    unfold three_bytes. rewrite Hcont, andb_false_r.
    destruct b as [|b3 b]; [reflexivity|].
    unfold four_bytes. now rewrite Hcont, andb_false_r.
  - destruct (two_bytes x b1); [reflexivity|].
    destruct (three_bytes x b1 b2); [reflexivity|].
    unfold four_bytes. now rewrite Hcont, andb_false_r.
Qed.

Lemma scan_boundary (a : string) (c : ascii) (b : string) :
  between 0 127 c = true ->
  forall k, (k <= String.length a)%nat ->
  scan k (a ++ String c b) = scan k a ++ String c (scan 0 b).
Proof.
  intros Hc. induction a as [|x a IH]; intros k Hk.
  - simpl in Hk. replace k with 0%nat by lia. cbn [append scan sequence_length].
    now rewrite Hc.
  - change (String x a ++ String c b) with (String x (a ++ String c b)).
    cbn [scan]. destruct k as [|k].
    + change (String x (a ++ String c b)) with (String x a ++ String c b).
      rewrite (sequence_length_boundary x a c b Hc).
      pose proof (sequence_length_bound (String x a)) as Hb.
      destruct (sequence_length (String x a)) as [|m].
      * apply IH. lia.
      * cbn [append]. rewrite IH by (simpl in Hb; lia). reflexivity.
    + cbn [append]. rewrite IH by (simpl in Hk; lia). reflexivity.
Qed.

(** The codec works on the two sides of an ASCII byte separately. *)
Lemma utf8_ignore_boundary (a : string) (c : ascii) (b : string) :
  between 0 127 c = true ->
  utf8_ignore (a ++ String c b) = utf8_ignore a ++ String c (utf8_ignore b).
Proof. intros Hc. apply scan_boundary; [exact Hc | lia]. Qed.

Lemma utf8_ignore_ascii (a b : string) :
  ascii_only a = true -> utf8_ignore (a ++ b) = a ++ utf8_ignore b.
Proof.
  unfold utf8_ignore. induction a as [|x a IH]; intros H; [reflexivity|].
  cbn [ascii_only] in H. apply andb_true_iff in H. destruct H as [Hx Ha].
  cbn [append scan sequence_length]. rewrite Hx. now rewrite IH.
Qed.

Lemma between_above (lo hi lo' hi' : nat) (c : ascii) :
  between lo hi c = true -> (hi' < lo)%nat -> between lo' hi' c = false.
Proof.
  unfold between. intros H Hlt.
  apply andb_true_iff in H. destruct H as [H _]. apply Nat.leb_le in H.
  apply andb_false_iff. right. apply Nat.leb_gt. lia.
Qed.

Lemma two_bytes_lead (b0 b1 : ascii) :
  two_bytes b0 b1 = true -> between 0 127 b0 = false.
Proof.
  unfold two_bytes. intros H. apply andb_true_iff in H. destruct H as [H _].
  apply (between_above _ _ _ _ _ H). lia.
Qed.

Lemma three_bytes_lead (b0 b1 b2 : ascii) :
  three_bytes b0 b1 b2 = true ->
  between 0 127 b0 = false /\ between 194 223 b0 = false.
Proof.
  unfold three_bytes. intros H. apply andb_true_iff in H. destruct H as [H _].
  repeat (apply orb_true_iff in H; destruct H as [H | H]);
    apply andb_true_iff in H; destruct H as [H _];
    split; apply (between_above _ _ _ _ _ H); lia.
Qed.

Lemma four_bytes_lead (b0 b1 b2 b3 : ascii) :
  four_bytes b0 b1 b2 b3 = true ->
  between 0 127 b0 = false /\ between 194 223 b0 = false
  /\ between 224 224 b0 = false /\ between 225 236 b0 = false
  /\ between 237 237 b0 = false /\ between 238 239 b0 = false.
Proof.
  unfold four_bytes. intros H.
  apply andb_true_iff in H. destruct H as [H _].
  apply andb_true_iff in H. destruct H as [H _].
  repeat (apply orb_true_iff in H; destruct H as [H | H]);
    apply andb_true_iff in H; destruct H as [H _];
    repeat split; apply (between_above _ _ _ _ _ H); lia.
Qed.

Lemma sequence_length_two (b0 b1 : ascii) (s : string) :
  two_bytes b0 b1 = true -> sequence_length (String b0 (String b1 s)) = 2%nat.
Proof.
  intros H. cbn [sequence_length]. now rewrite (two_bytes_lead _ _ H), H.
Qed.

Lemma sequence_length_three (b0 b1 b2 : ascii) (s : string) :
  three_bytes b0 b1 b2 = true ->
  sequence_length (String b0 (String b1 (String b2 s))) = 3%nat.
Proof.
  intros H. cbn [sequence_length].
  destruct (three_bytes_lead _ _ _ H) as [H0 H1].
  unfold two_bytes. now rewrite H0, H1, H.
Qed.

Lemma sequence_length_four (b0 b1 b2 b3 : ascii) (s : string) :
  four_bytes b0 b1 b2 b3 = true ->
  sequence_length (String b0 (String b1 (String b2 (String b3 s)))) = 4%nat.
Proof.
  intros H. cbn [sequence_length].
  destruct (four_bytes_lead _ _ _ _ H) as [H0 [H1 [H2 [H3 [H4 H5]]]]].
  unfold two_bytes, three_bytes. now rewrite H0, H1, H2, H3, H4, H5, H.
Qed.

(** A well-formed text passes the codec unchanged. *)
Lemma utf8_ignore_well_formed (s : string) :
  well_formed s -> utf8_ignore s = s.
Proof.
  unfold utf8_ignore. induction 1 as [|b0 s H0 _ IH|b0 b1 s H _ IH
                                      |b0 b1 b2 s H _ IH|b0 b1 b2 b3 s H _ IH].
  - reflexivity.
  - cbn [scan sequence_length]. now rewrite H0, IH.
  - cbn [scan]. rewrite (sequence_length_two _ _ _ H). now rewrite IH.
  - cbn [scan]. rewrite (sequence_length_three _ _ _ _ H). now rewrite IH.
  - cbn [scan]. rewrite (sequence_length_four _ _ _ _ _ H). now rewrite IH.
Qed.

(** What the codec keeps is well formed. *)
Lemma well_formed_utf8_ignore (s : string) : well_formed (utf8_ignore s).
Proof.
  unfold utf8_ignore.
  assert (H : forall n s, (String.length s <= n)%nat -> well_formed (scan 0 s)).
  { clear s. induction n as [|n IH]; intros s Hlen.
    - destruct s; [constructor | simpl in Hlen; lia].
    - destruct s as [|b0 s]; [constructor|].
      cbn [scan sequence_length]. cbn [String.length] in Hlen.
      destruct (between 0 127 b0) eqn:H0.
      { apply wf_one; [exact H0 | apply IH; lia]. }
      destruct s as [|b1 s]; [constructor|]. cbn [String.length] in Hlen.
      destruct (two_bytes b0 b1) eqn:H2.
      { cbn [scan]. apply wf_two; [exact H2 | apply IH; lia]. }
      destruct s as [|b2 s]; [apply (IH (String b1 EmptyString)); simpl; lia|].
      cbn [String.length] in Hlen.
      destruct (three_bytes b0 b1 b2) eqn:H3.
      { cbn [scan]. apply wf_three; [exact H3 | apply IH; lia]. }
      destruct s as [|b3 s];
        [apply (IH (String b1 (String b2 EmptyString))); simpl; lia|].
      cbn [String.length] in Hlen.
      destruct (four_bytes b0 b1 b2 b3) eqn:H4.
      { cbn [scan]. apply wf_four; [exact H4 | apply IH; lia]. }
      apply (IH (String b1 (String b2 (String b3 s)))). simpl. lia. }
  apply (H (String.length s)). lia.
Qed.

(** No byte of a sequence of two bytes or more is a carriage return. *)
Lemma not_return (lo hi : nat) (c : ascii) :
  between lo hi c = true -> (14 <= lo)%nat -> Ascii.eqb c "013" = false.
Proof.
  intros H Hlo. destruct (Ascii.eqb_spec c "013") as [->|]; [|reflexivity].
  unfold between in H. change (nat_of_ascii "013") with 13%nat in H.
  apply andb_true_iff in H. destruct H as [H _]. apply Nat.leb_le in H. lia.
Qed.

Lemma two_bytes_not_return (b0 b1 : ascii) :
  two_bytes b0 b1 = true ->
  Ascii.eqb b0 "013" = false /\ Ascii.eqb b1 "013" = false.
Proof.
  unfold two_bytes, continuation. intros H.
  apply andb_true_iff in H. destruct H as [H0 H1].
  split; [apply (not_return _ _ _ H0) | apply (not_return _ _ _ H1)]; lia.
Qed.

Lemma three_bytes_not_return (b0 b1 b2 : ascii) :
  three_bytes b0 b1 b2 = true ->
  Ascii.eqb b0 "013" = false /\ Ascii.eqb b1 "013" = false
  /\ Ascii.eqb b2 "013" = false.
Proof.
  unfold three_bytes, continuation. intros H.
  apply andb_true_iff in H. destruct H as [H H2].
  assert (E2 : Ascii.eqb b2 "013" = false)
    by (apply (not_return _ _ _ H2); lia).
  repeat (apply orb_true_iff in H; destruct H as [H | H]);
    apply andb_true_iff in H; destruct H as [H0 H1];
    (split; [apply (not_return _ _ _ H0); lia|]);
    (split; [apply (not_return _ _ _ H1); lia | exact E2]).
Qed.

Lemma four_bytes_not_return (b0 b1 b2 b3 : ascii) :
  four_bytes b0 b1 b2 b3 = true ->
  Ascii.eqb b0 "013" = false /\ Ascii.eqb b1 "013" = false
  /\ Ascii.eqb b2 "013" = false /\ Ascii.eqb b3 "013" = false.
Proof.
  unfold four_bytes, continuation. intros H.
  apply andb_true_iff in H. destruct H as [H H3].
  apply andb_true_iff in H. destruct H as [H H2].
  assert (E23 : Ascii.eqb b2 "013" = false /\ Ascii.eqb b3 "013" = false).
  { split; [apply (not_return _ _ _ H2) | apply (not_return _ _ _ H3)]; lia. }
  destruct E23 as [E2 E3].
  repeat (apply orb_true_iff in H; destruct H as [H | H]);
    apply andb_true_iff in H; destruct H as [H0 H1];
    (split; [apply (not_return _ _ _ H0); lia|]);
    (split; [apply (not_return _ _ _ H1); lia|]); now split.
Qed.

(** Universal newlines keep a text well formed. *)
Lemma universal_newlines_well_formed (s : string) :
  well_formed s -> well_formed (universal_newlines s).
Proof.
  induction 1 as [|b0 s H0 Hs IH|b0 b1 s H _ IH
                  |b0 b1 b2 s H _ IH|b0 b1 b2 b3 s H _ IH].
  - constructor.
  - cbn [universal_newlines]. destruct (Ascii.eqb b0 "013").
    + destruct s as [|c s]; [repeat constructor|].
      destruct (Ascii.eqb_spec c "010") as [->|Hne].
      * apply wf_one; [reflexivity|].
        inversion Hs as [|? ? _ Hs'|? ? ? Hf|? ? ? ? Hf|? ? ? ? ? Hf]; subst.
        -- cbn [universal_newlines] in IH.
           change (Ascii.eqb "010" "013") with false in IH. cbv iota in IH.
           now inversion IH.
        -- discriminate Hf.
        -- discriminate Hf.
        -- discriminate Hf.
      * apply wf_one; [reflexivity | exact IH].
    + apply wf_one; [exact H0 | exact IH].
  - destruct (two_bytes_not_return _ _ H) as [E0 E1].
    cbn [universal_newlines]. rewrite E0, E1. now apply wf_two.
  - destruct (three_bytes_not_return _ _ _ H) as [E0 [E1 E2]].
    cbn [universal_newlines]. rewrite E0, E1, E2. now apply wf_three.
  - destruct (four_bytes_not_return _ _ _ _ H) as [E0 [E1 [E2 E3]]].
    cbn [universal_newlines]. rewrite E0, E1, E2, E3. now apply wf_four.
Qed.

(** The text read from a file passes the codec of the output unchanged. *)
Lemma utf8_ignore_decode_file (raw : string) :
  utf8_ignore (decode_file raw) = decode_file raw.
Proof.
  apply utf8_ignore_well_formed, universal_newlines_well_formed,
    well_formed_utf8_ignore.
Qed.

(** A text between ASCII words: the words pass unchanged. *)
Lemma utf8_ignore_words (prefix a : string) (c : ascii) (rest : string) :
  ascii_only prefix = true -> between 0 127 c = true ->
  utf8_ignore (prefix ++ a ++ String c rest)
  = prefix ++ utf8_ignore a ++ utf8_ignore (String c rest).
Proof.
  intros Hp Hc. rewrite (utf8_ignore_ascii _ _ Hp).
  rewrite (utf8_ignore_boundary _ _ _ Hc).
  assert (E : utf8_ignore (String c rest) = String c (utf8_ignore rest)).
  { unfold utf8_ignore. cbn [scan sequence_length]. now rewrite Hc. }
  now rewrite E.
Qed.

(** The lines of the program, as they reach the output file. *)
Lemma encoded_separator :
  utf8_ignore (PyStr.repeat "=" 80 ++ nl) = separator ++ nl.
Proof. vm_compute. reflexivity. Qed.

Lemma encoded_closing_fence :
  utf8_ignore (nl ++ "```" ++ nl ++ nl) = nl ++ "```" ++ nl ++ nl.
Proof. vm_compute. reflexivity. Qed.

Lemma encoded_file_line (relative_path : string) :
  utf8_ignore ("### FILE: " ++ relative_path ++ nl)
  = "### FILE: " ++ utf8_ignore relative_path ++ nl.
Proof.
  exact (utf8_ignore_words "### FILE: " relative_path newline EmptyString
                           eq_refl eq_refl).
Qed.

Lemma encoded_opening_fence (lang : string) :
  utf8_ignore ("```" ++ lang ++ nl) = "```" ++ utf8_ignore lang ++ nl.
Proof.
  exact (utf8_ignore_words "```" lang newline EmptyString eq_refl eq_refl).
Qed.

Lemma encoded_header (project_name : string) :
  utf8_ignore ("--- Project Context for: " ++ project_name ++ " ---"
               ++ nl ++ nl)
  = header project_name.
Proof.
  exact (utf8_ignore_words "--- Project Context for: " project_name
                           " " ("---" ++ nl ++ nl) eq_refl eq_refl).
Qed.

Lemma encoded_annotation (relative_path message : string) :
  utf8_ignore ("--- ERROR reading " ++ relative_path ++ ": " ++ message
               ++ " ---" ++ nl ++ nl)
  = annotation relative_path message.
Proof.
  etransitivity.
  - exact (utf8_ignore_words "--- ERROR reading " relative_path ":"
             (" " ++ message ++ " ---" ++ nl ++ nl) eq_refl eq_refl).
  - unfold annotation. do 2 f_equal.
    exact (utf8_ignore_words ": " message " " ("---" ++ nl ++ nl)
                             eq_refl eq_refl).
Qed.

End Codec.

(** ** The fence tag *)

Section FenceTag.

Lemma length_take (n : nat) (s : string) (c : ascii) (rest : string) :
  PyStr.drop n s = String c rest -> String.length (PyStr.take n s) = n.
Proof.
  revert s; induction n as [|n IH]; intros [|a s]; simpl; intros H;
    try reflexivity; try discriminate.
  now rewrite (IH s H).
Qed.

(** [rfind] splits the text at the last occurrence of the character. *)
Lemma rfind_split (s : string) (c : ascii) :
  (PyStr.rfind s c = -1 /\ PyStr.count s c = 0)
  \/ exists a b,
      s = a ++ String c b
      /\ PyStr.count b c = 0
      /\ PyStr.rfind s c = Z.of_nat (String.length a).
Proof.
  unfold PyStr.rfind.
  destruct (rfind_from_spec s c 0 (-1)) as [[E Hc] | [Hle [rest [Hd Hc]]]].
  - now left.
  - right. rewrite Z.sub_0_r in Hd.
    exists (PyStr.take (Z.to_nat (PyStr.rfind_from s c 0 (-1))) s), rest.
    split; [|split].
    + rewrite <- Hd. symmetry. apply take_drop.
    + exact Hc.
    + rewrite (length_take _ _ _ _ Hd). lia.
Qed.

Lemma count_zero_absent (s : string) (c : ascii) :
  PyStr.count s c = 0 -> forall a b, s <> a ++ String c b.
Proof.
  intros H a b ->. rewrite count_append in H. cbn [PyStr.count] in H.
  rewrite Ascii.eqb_refl in H.
  pose proof (count_nonneg a c). pose proof (count_nonneg b c). lia.
Qed.

Lemma absent_count_zero (s : string) (c : ascii) :
  (forall a b, s <> a ++ String c b) -> PyStr.count s c = 0.
Proof.
  induction s as [|x s IH]; intros H; simpl; [reflexivity|].
  destruct (Ascii.eqb_spec x c) as [->|Hne].
  - exfalso. apply (H EmptyString s). reflexivity.
  - rewrite IH; [reflexivity|]. intros a b ->.
    apply (H (String x a) b). reflexivity.
Qed.

(** Two ways of cutting the same text: the shorter first part is a prefix
    of the longer one. *)
Lemma append_split (a b c d : string) :
  a ++ b = c ++ d -> (String.length a <= String.length c)%nat ->
  exists m, c = a ++ m /\ b = m ++ d.
Proof.
  revert c; induction a as [|x a IH]; intros c E Hlen.
  - exists c. now split.
  - destruct c as [|y c]; [simpl in Hlen; lia|].
    simpl in E. injection E as -> E. simpl in Hlen.
    destruct (IH c E) as [m [-> ->]]; [lia|]. now exists m.
Qed.

(** The last occurrence of a character is where the text can be cut with
    no occurrence behind the cut. *)
Lemma last_cut_unique (c : ascii) (a b a' b' : string) :
  a ++ String c b = a' ++ String c b' ->
  PyStr.count b c = 0 -> PyStr.count b' c = 0 ->
  a = a' /\ b = b'.
Proof.
  revert a'; induction a as [|x a IH]; intros [|y a'] E Hb Hb'; simpl in E.
  - injection E as E. now split.
  - injection E as -> E. exfalso. apply (count_zero_absent _ _ Hb a' b' E).
  - injection E as -> E. exfalso. apply (count_zero_absent _ _ Hb' a b).
    now symmetry.
  - injection E as -> E. destruct (IH a' E Hb Hb') as [-> ->]. now split.
Qed.

Lemma has_non_dot_spec (front rest : string) :
  OsPath.has_non_dot (front ++ rest) (String.length front) = true
  <-> exists a c b, front = a ++ String c b /\ c <> "."%char.
Proof.
  induction front as [|x front IH]; simpl.
  - assert (E0 : OsPath.has_non_dot rest 0 = false) by now destruct rest.
    rewrite E0. split; [discriminate|].
    intros [[|y a] [c [b [E _]]]]; simpl in E; discriminate.
  - change OsPath.extsep with "."%char.
    destruct (Ascii.eqb_spec x "."%char) as [->|Hne].
    + rewrite IH. split.
      * intros [a [c [b [-> Hc]]]]. now exists (String "."%char a), c, b.
      * intros [[|y a] [c [b [E Hc]]]]; simpl in E.
        -- exfalso. apply Hc. congruence.
        -- exists a, c, b. split; [congruence | exact Hc].
    + split; [|reflexivity]. intros _. now exists EmptyString, x, front.
Qed.

Lemma drop_past (a : string) (c : ascii) (b : string) :
  PyStr.drop (String.length a + 1) (a ++ String c b) = b.
Proof. induction a as [|x a IH]; simpl; [now destruct b | exact IH]. Qed.

(** The fence tag the code computes is the extension of the last component
    of the path without its dot, and empty when that component has no
    extension. *)
Lemma lang_of_spec (p : string) : extension_tag p (lang_of p).
Proof.
  assert (Hname : exists name,
             last_component p name
             /\ PyStr.count name OsPath.sep = 0
             /\ PyStr.drop (Z.to_nat (PyStr.rfind p OsPath.sep + 1)) p = name
             /\ (PyStr.rfind p OsPath.sep = -1 /\ p = name
                 \/ exists dir, p = dir ++ String OsPath.sep name
                                /\ PyStr.rfind p OsPath.sep
                                   = Z.of_nat (String.length dir))).
  { destruct (rfind_split p OsPath.sep) as [[E Hc] | [dir [name [Ep [Hc E]]]]].
    - exists p. rewrite E. simpl. repeat split; auto.
      apply (count_zero_absent _ _ Hc).
    - exists name. rewrite E. split; [|split; [exact Hc|split]].
      + split; [right; now exists dir | apply (count_zero_absent _ _ Hc)].
      + replace (Z.to_nat (Z.of_nat (String.length dir) + 1))
          with (String.length dir + 1)%nat by lia.
        rewrite Ep. apply drop_past.
      + right. now exists dir. }
  destruct Hname as [name [Hlast [Hsep [Hdrop Hwhere]]]].
  exists name. split; [exact Hlast|].
  unfold lang_of, OsPath.splitext.
  destruct (rfind_split p OsPath.extsep)
    as [[Edot Hnodot] | [e [tag [Ep [Htag Edot]]]]].
  - (* no dot in the path *)
    right.
    assert (Hlt : (PyStr.rfind p OsPath.sep <? PyStr.rfind p OsPath.extsep) = false).
    { apply Z.ltb_ge. rewrite Edot.
      destruct Hwhere as [[-> _] | [dir [_ ->]]]; lia. }
    rewrite Hlt. split; [reflexivity|].
    intros t [front [E _]].
    assert (Hn : PyStr.count name OsPath.extsep = 0).
    { destruct Hwhere as [[_ <-] | [dir [-> _]]]; [exact Hnodot|].
      rewrite count_append in Hnodot. cbn [PyStr.count] in Hnodot.
      pose proof (count_nonneg dir OsPath.extsep).
      pose proof (count_nonneg name OsPath.extsep).
      destruct (Ascii.eqb OsPath.sep OsPath.extsep); lia. }
    apply (count_zero_absent _ _ Hn front t E).
  - (* the last dot of the path is at [e] *)
    destruct (PyStr.rfind p OsPath.sep <? PyStr.rfind p OsPath.extsep) eqn:Hlt.
    + (* it lies in the last component *)
      apply Z.ltb_lt in Hlt.
      assert (Hfront : exists front,
                 name = front ++ String OsPath.extsep tag
                 /\ Z.to_nat (PyStr.rfind p OsPath.extsep
                              - (PyStr.rfind p OsPath.sep + 1))
                    = String.length front).
      { destruct Hwhere as [[Es <-] | [dir [Ed Es]]].
        - exists e. split; [exact Ep|]. rewrite Es, Edot. lia.
        - rewrite Es, Edot in *.
          assert (E : (dir ++ String OsPath.sep EmptyString) ++ name
                      = e ++ String OsPath.extsep tag).
          { rewrite append_assoc. simpl. now rewrite <- Ed. }
          apply append_split in E.
          2:{ rewrite length_append. simpl. lia. }
          destruct E as [front [Ee En]]. exists front. split; [exact En|].
          rewrite Ee, !length_append. simpl. lia. }
      destruct Hfront as [front [En Elen]].
      rewrite Hdrop, Elen, En.
      destruct (OsPath.has_non_dot (front ++ String OsPath.extsep tag)
                                   (String.length front)) eqn:Hnd.
      * left. apply has_non_dot_spec in Hnd. cbn [snd].
        replace (PyStr.drop (Z.to_nat (PyStr.rfind p OsPath.extsep)) p)
          with (String OsPath.extsep tag)
          by (now rewrite Edot, Nat2Z.id, Ep, drop_app).
        cbn [PyStr.lstrip]. change (Ascii.eqb OsPath.extsep ".") with true.
        cbv iota. change "."%char with OsPath.extsep.
        rewrite (lstrip_absent _ _ Htag).
        exists front. split; [reflexivity|]. split; [|exact Hnd].
        apply (count_zero_absent _ _ Htag).
      * right. split; [reflexivity|].
        intros t [front' [E [Ht Hnon]]].
        apply absent_count_zero in Ht.
        destruct (last_cut_unique OsPath.extsep front tag front' t E Htag Ht)
          as [<- _].
        apply (has_non_dot_spec front (String OsPath.extsep tag)) in Hnon.
        congruence.
    + (* it lies in a directory name *)
      apply Z.ltb_ge in Hlt. right. split; [reflexivity|].
      assert (Hn : PyStr.count name OsPath.extsep = 0).
      { destruct Hwhere as [[Es _] | [dir [Ed Es]]]; [rewrite Es, Edot in Hlt; lia|].
        rewrite Es, Edot in Hlt. rewrite Ep in Ed.
        apply append_split in Ed; [|lia].
        destruct Ed as [[|y m] [_ Em]]; simpl in Em; [discriminate|].
        injection Em as _ Em. rewrite Em, count_append in Htag.
        cbn [PyStr.count] in Htag.
        pose proof (count_nonneg m OsPath.extsep).
        pose proof (count_nonneg name OsPath.extsep).
        destruct (Ascii.eqb OsPath.sep OsPath.extsep); lia. }
      intros t [front [E _]].
      apply (count_zero_absent _ _ Hn front t E).
Qed.

(** A path has one fence tag. *)
Lemma extension_tag_unique (path tag tag' : string) :
  extension_tag path tag -> extension_tag path tag' -> tag = tag'.
Proof.
  assert (Hcomp : forall name name',
             last_component path name -> last_component path name' ->
             name = name').
  { intros name name' [Hn Hs] [Hn' Hs'].
    apply absent_count_zero in Hs, Hs'.
    destruct Hn as [-> | [dir ->]], Hn' as [E | [dir' E]].
    - now symmetry.
    - exfalso. rewrite E, count_append in Hs. cbn [PyStr.count append] in Hs.
      rewrite Ascii.eqb_refl in Hs.
      pose proof (count_nonneg dir' "/"). pose proof (count_nonneg name' "/").
      lia.
    - exfalso. rewrite <- E, count_append in Hs'. cbn [PyStr.count append] in Hs'.
      rewrite Ascii.eqb_refl in Hs'.
      pose proof (count_nonneg dir "/"). pose proof (count_nonneg name "/").
      lia.
    - now destruct (last_cut_unique "/" dir name dir' name' E Hs Hs'). }
  assert (Hext : forall name t t',
             has_extension name t -> has_extension name t' -> t = t').
  { intros name t t' [f [E [Ht _]]] [f' [E' [Ht' _]]].
    apply absent_count_zero in Ht, Ht'. rewrite E in E'.
    now destruct (last_cut_unique "." f t f' t' E' Ht Ht'). }
  intros [name [Hl H]] [name' [Hl' H']].
  rewrite <- (Hcomp name name' Hl Hl') in H'.
  destruct H as [H | [-> Hno]], H' as [H' | [-> Hno']].
  - exact (Hext name tag tag' H H').
  - now destruct (Hno' tag).
  - now destruct (Hno tag').
  - reflexivity.
Qed.

End FenceTag.

(** ** The first pass *)

Section FirstPass.

Variable self : ProjectConsolidator.
Variable w : world.

Lemma is_candidate_spec (filename : string) :
  is_candidate self filename = true <-> selected self filename.
Proof.
  unfold is_candidate, selected.
  rewrite andb_true_iff, negb_true_iff, existsb_exists.
  rewrite <- not_true_iff_false, contains_spec.
  split; intros [[ext [Hin He]] Hex]; (split; [exists ext; split; [assumption|] | assumption]);
    now apply endswith_spec.
Qed.

Lemma keep_dir_spec (d : string) :
  keep_dir self d = true <-> ~ In d (exclude_patterns self).
Proof.
  unfold keep_dir. now rewrite negb_true_iff, <- not_true_iff_false, contains_spec.
Qed.

Lemma count_files_spec (acc : Z * list string) (entry : string * list string) :
  count_files self acc entry
  = (fst acc + Z.of_nat (length (found_in self entry)),
     (snd acc ++ found_in self entry)%list).
Proof.
  destruct entry as [dirpath filenames]. unfold found_in, count_files. simpl.
  revert acc; induction filenames as [|f fs IH]; intros [n l]; simpl.
  - now rewrite Z.add_0_r, List.app_nil_r.
  - rewrite IH. destruct (is_candidate self f); simpl.
    + f_equal; [lia | now rewrite <- List.app_assoc].
    + reflexivity.
Qed.

Lemma fold_count_files (entries : list (string * list string))
      (acc : Z * list string) :
  fold_left (count_files self) entries acc
  = (fst acc + Z.of_nat (length (flat_map (found_in self) entries)),
     (snd acc ++ flat_map (found_in self) entries)%list).
Proof.
  revert acc; induction entries as [|e es IH]; intros [n l]; simpl.
  - now rewrite Z.add_0_r, List.app_nil_r.
  - rewrite IH, count_files_spec. simpl.
    rewrite List.length_app, List.app_assoc. f_equal. lia.
Qed.

(** The counter of the first pass is the length of the list it builds. *)
Lemma first_pass_spec :
  first_pass self w
  = (Z.of_nat (length (candidates self w)), candidates self w).
Proof.
  unfold candidates, first_pass. now rewrite fold_count_files.
Qed.

Lemma candidates_spec :
  candidates self w
  = flat_map (found_in self)
             (os_walk (keep_dir self) (root_dir self) (listing w)).
Proof.
  unfold candidates, first_pass. now rewrite fold_count_files.
Qed.

(** The directories [os.walk] yields are those reached through kept
    names only. *)
Lemma os_walk_spec (keep : string -> bool) (t : tree) :
  forall top dirpath filenames,
    In (dirpath, filenames) (os_walk keep top t)
    <-> exists ds, dir_at t ds filenames
                   /\ dirpath = fold_left OsPath.join ds top
                   /\ (forall d, In d ds -> keep d = true).
Proof.
  induction t as [fns subs IH | | d sub IHsub rest IHrest]
    using tree_forest_ind
    with (P0 := fun dirs => forall top dirpath filenames,
      In (dirpath, filenames) (descend keep top dirs)
      <-> exists d sub ds,
          has_subdir dirs d sub /\ keep d = true
          /\ dir_at sub ds filenames
          /\ dirpath = fold_left OsPath.join ds (OsPath.join top d)
          /\ (forall d', In d' ds -> keep d' = true));
    intros top dirpath filenames; simpl.
  - rewrite IH. split.
    + intros [E | [d [sub [ds [Hs [Hk [Hd [E Hall]]]]]]]].
      * inversion E; subst. exists []. repeat split; [constructor | contradiction].
      * exists (d :: ds). repeat split; [econstructor; eassumption | assumption |].
        intros d' [<- | Hin]; auto.
    + intros [ds [Hd [E Hall]]]. inversion Hd; subst.
      * now left.
      * right. exists d, sub, ds0. repeat split; auto using in_eq, in_cons.
  - split; [contradiction|]. intros [d [sub [ds [Hs _]]]]. inversion Hs.
  - destruct (keep d) eqn:Hk.
    + rewrite in_app_iff, IHsub, IHrest. split.
      * intros [[ds [Hd [E Hall]]] | [d' [sub' [ds [Hs [Hk' [Hd [E Hall]]]]]]]].
        -- exists d, sub, ds. repeat split; auto. constructor.
        -- exists d', sub', ds. repeat split; auto. now constructor.
      * intros [d' [sub' [ds [Hs [Hk' [Hd [E Hall]]]]]]]. inversion Hs; subst.
        -- left. exists ds. repeat split; auto.
        -- right. exists d', sub', ds. repeat split; auto.
    + rewrite IHrest. split.
      * intros [d' [sub' [ds [Hs [Hk' [Hd [E Hall]]]]]]].
        exists d', sub', ds. repeat split; auto. now constructor.
      * intros [d' [sub' [ds [Hs [Hk' [Hd [E Hall]]]]]]]. inversion Hs; subst.
        -- congruence.
        -- exists d', sub', ds. repeat split; auto.
Qed.

(** A path is a candidate exactly when it is the path of a selected file
    that is reached without passing through an excluded directory. *)
Lemma candidate_iff (p : string) :
  In p (candidates self w)
  <-> exists ds f,
      p = path_of (root_dir self) ds f
      /\ file_in (listing w) ds f
      /\ selected self f
      /\ (forall d, In d ds -> ~ In d (exclude_patterns self)).
Proof.
  rewrite candidates_spec, in_flat_map. unfold found_in, path_of, file_in. split.
  - intros [[dirpath filenames] [Hw Hp]]. simpl in Hp.
    apply in_map_iff in Hp. destruct Hp as [f [<- Hf]].
    apply filter_In in Hf. destruct Hf as [Hf Hc].
    apply os_walk_spec in Hw. destruct Hw as [ds [Hd [-> Hall]]].
    exists ds, f. repeat split.
    + exists filenames. now split.
    + apply is_candidate_spec in Hc. apply Hc.
    + apply is_candidate_spec in Hc. apply Hc.
    + intros d Hin. now apply keep_dir_spec, Hall.
  - intros [ds [f [-> [[filenames [Hd Hf]] [Hsel Hall]]]]].
    exists (fold_left OsPath.join ds (root_dir self), filenames). split.
    + apply os_walk_spec. exists ds. repeat split; [assumption|].
      intros d Hin. now apply keep_dir_spec, Hall.
    + simpl. apply in_map. apply filter_In. split; [assumption|].
      now apply is_candidate_spec.
Qed.

End FirstPass.

(** ** The second pass *)

Section SecondPass.

Variable self : ProjectConsolidator.
Variable w : world.

Lemma process_file_spec (n : Z) (p : string) (s : state) :
  n <> 0 ->
  process_file self w n p s
  = (Ok tt,
     mkState (events s ++ file_events self w n (processed_files s + 1) p)
             (processed_files s + 1)
             (total_lines s + lines_of w p)).
Proof.
  intros Hn. destruct s as [evs k t].
  cbv [process_file file_events file_writes lines_of status_events
       progress_events _update_status _update_progress truediv read write
       try_except bind emit ret raise log get_total_lines set_total_lines
       get_processed_files set_processed_files lang_of
       events processed_files total_lines].
  destruct (Z.eqb_spec n 0) as [E|_]; [contradiction|].
  destruct (status_callback self), (read_text w p), (progress_callback self);
    repeat rewrite <- List.app_assoc; cbn [app];
    rewrite ?Z.add_0_r, ?List.app_nil_r; reflexivity.
Qed.

Lemma for_each_spec (n : Z) (l : list string) (s : state) :
  l = [] \/ n <> 0 ->
  for_each l (process_file self w n) s
  = (Ok tt,
     mkState (events s ++ loop_events self w n (processed_files s) l)
             (processed_files s + Z.of_nat (length l))
             (total_lines s + sum_lines w l)).
Proof.
  intros H. assert (Hn : forall p, In p l -> n <> 0).
  { intros p Hin. destruct H as [-> | H]; [contradiction | assumption]. }
  clear H. revert s; induction l as [|p l IH]; intros [evs k t].
  - simpl. unfold ret. simpl. now rewrite List.app_nil_r, !Z.add_0_r.
  - cbn [for_each]. unfold bind at 1.
    rewrite process_file_spec by (apply (Hn p); now left).
    rewrite IH by (intros q Hq; apply (Hn q); now right).
    cbn [events processed_files total_lines loop_events sum_lines fold_right length].
    rewrite <- List.app_assoc. fold (sum_lines w l).
    f_equal. f_equal; lia.
Qed.

(** *** What the events of the loop show *)

Lemma output_text_app (a b : list event) :
  output_text (a ++ b) = output_text a ++ output_text b.
Proof.
  induction a as [|e a IH]; simpl; [reflexivity|].
  destruct e; simpl; try assumption. now rewrite IH, append_assoc.
Qed.

Lemma concat_all_app (a b : list string) :
  concat_all (a ++ b) = concat_all a ++ concat_all b.
Proof.
  induction a as [|x a IH]; simpl; [reflexivity|].
  now rewrite IH, append_assoc.
Qed.

Lemma output_text_status (m : string) :
  output_text (status_events self m) = EmptyString.
Proof. unfold status_events. now destruct (status_callback self). Qed.

Lemma output_text_progress (v : Q) :
  output_text (progress_events self v) = EmptyString.
Proof. unfold progress_events. now destruct (progress_callback self). Qed.

Lemma output_text_file (n k : Z) (p : string) :
  output_text (file_events self w n k p) = entry self w p.
Proof.
  unfold file_events. rewrite !output_text_app, output_text_status,
    output_text_progress, append_nil_r. cbn [append].
  unfold file_writes, entry.
  destruct (read_text w p); cbn [output_text fold_right].
  - rewrite encoded_separator, encoded_file_line, encoded_opening_fence,
      encoded_closing_fence, append_nil_r.
    unfold block. now rewrite !append_assoc.
  - now rewrite encoded_annotation, append_nil_r.
Qed.

Lemma output_text_loop (n k : Z) (l : list string) :
  output_text (loop_events self w n k l) = concat_all (map (entry self w) l).
Proof.
  revert k; induction l as [|p l IH]; intros k; simpl; [reflexivity|].
  now rewrite output_text_app, output_text_file, IH.
Qed.

Lemma progress_values_app (a b : list event) :
  progress_values (a ++ b) = (progress_values a ++ progress_values b)%list.
Proof. unfold progress_values. now rewrite flat_map_app. Qed.

Lemma progress_values_status (m : string) :
  progress_values (status_events self m) = [].
Proof. unfold status_events. now destruct (status_callback self). Qed.

Lemma progress_values_loop (n k : Z) (l : list string) :
  progress_values (loop_events self w n k l)
  = if progress_callback self then fractions n k l else [].
Proof.
  revert k; induction l as [|p l IH]; intros k; simpl.
  - now destruct (progress_callback self).
  - unfold file_events. rewrite !progress_values_app, progress_values_status, IH.
    unfold file_writes, progress_events.
    destruct (read_text w p), (progress_callback self); reflexivity.
Qed.

Lemma loop_never_opens (n k : Z) (l : list string) :
  forallb (fun e => negb (is_opened e)) (loop_events self w n k l) = true.
Proof.
  revert k; induction l as [|p l IH]; intros k; simpl; [reflexivity|].
  unfold file_events, file_writes, status_events, progress_events.
  rewrite !forallb_app, IH.
  destruct (status_callback self), (read_text w p), (progress_callback self);
    reflexivity.
Qed.

Lemma fold_apply_event (evs : list event) (acc : string) :
  forallb (fun e => negb (is_opened e)) evs = true ->
  fold_left apply_event evs acc = acc ++ output_text evs.
Proof.
  revert acc; induction evs as [|e evs IH]; intros acc H; simpl.
  - now rewrite append_nil_r.
  - simpl in H. apply andb_true_iff in H. destruct H as [He H].
    rewrite IH by assumption.
    destruct e; simpl in *; try reflexivity; try discriminate.
    now rewrite append_assoc.
Qed.

(** Whatever happened before, the content after opening is what was
    written since. *)
Lemma written_after_open (pre post : list event) :
  forallb (fun e => negb (is_opened e)) post = true ->
  written (pre ++ Opened :: post) = output_text post.
Proof.
  intros H. unfold written. rewrite fold_left_app. simpl.
  now rewrite fold_apply_event.
Qed.

End SecondPass.

(** ** The summary of a run *)

Section WholeRun.

Variable self : ProjectConsolidator.
Variable w : world.

Lemma written_file_phase (pre post : list event) :
  forallb (fun e => negb (is_opened e)) post = true ->
  written (pre ++ file_phase_events self w ++ post)
  = artifact self w ++ output_text post.
Proof.
  intros Hpost. unfold file_phase_events. cbn [app].
  rewrite written_after_open.
  - cbn [output_text fold_right]. fold (output_text
      ((loop_events self w (Z.of_nat (length (candidates self w))) 0
          (candidates self w) ++ [Closed]) ++ post)).
    rewrite !output_text_app, output_text_loop. unfold artifact.
    cbn [output_text fold_right]. now rewrite append_nil_r, append_assoc.
  - cbn [forallb is_opened negb andb]. rewrite !forallb_app, loop_never_opens.
    now rewrite Hpost.
Qed.

Lemma write_output_ok (evs : list event) :
  open_w w (output_file self) = None ->
  write_output self w (Z.of_nat (length (candidates self w)))
               (candidates self w) (mkState evs 0 0)
  = (Ok (Success
           (Z.of_nat (length (candidates self w)))
           (sum_lines w (candidates self w))
           (inject_Z (Z.of_nat (String.length
                                  (written (evs ++ (file_phase_events self w)))))
            / inject_Z 1024)%Q),
     mkState (evs ++ (file_phase_events self w))
             (Z.of_nat (length (candidates self w)))
             (sum_lines w (candidates self w))).
Proof.
  intros Hopen. unfold write_output, with_open_w, bind, write, emit.
  rewrite Hopen. cbv beta.
  rewrite for_each_spec.
  2:{ destruct (candidates self w); [now left | right; simpl; lia]. }
  unfold getsize, get_processed_files, get_total_lines, ret, log.
  cbn [events processed_files total_lines].
  rewrite encoded_header. unfold file_phase_events.
  rewrite <- !List.app_assoc, !Z.add_0_l. reflexivity.
Qed.

Lemma write_output_fails (total : Z) (l : list string) (s : state)
      (strerror : string) :
  open_w w (output_file self) = Some strerror ->
  write_output self w total l s = (Raise (OSError strerror), s).
Proof.
  intros Hopen. unfold write_output, with_open_w, bind. now rewrite Hopen.
Qed.

Lemma make_summary_ok :
  open_w w (output_file self) = None ->
  make_summary self w initial
  = (Ok (Success
           (Z.of_nat (length (candidates self w)))
           (sum_lines w (candidates self w))
           (inject_Z (Z.of_nat (String.length (artifact self w))) / inject_Z 1024)%Q),
     mkState ((scan_events self w) ++ (file_phase_events self w))
             (Z.of_nat (length (candidates self w)))
             (sum_lines w (candidates self w))).
Proof.
  intros Hopen. unfold make_summary. rewrite first_pass_spec.
  unfold try_except, bind, _update_status, set_processed_files,
    set_total_lines.
  unfold scan_events, status_events.
  destruct (status_callback self); unfold emit, ret, log, initial;
    cbn [events processed_files total_lines app];
    rewrite write_output_ok by assumption;
    match goal with
    | |- context [written (?pre ++ file_phase_events self w)] =>
        rewrite <- (List.app_nil_r (file_phase_events self w)) at 1;
        rewrite (written_file_phase pre []) by reflexivity
    | |- context [written (file_phase_events self w)] =>
        rewrite <- (List.app_nil_r (file_phase_events self w)) at 1;
        rewrite (written_file_phase [] []) by reflexivity
    end;
    cbn [output_text fold_right]; rewrite append_nil_r; reflexivity.
Qed.

Lemma make_summary_error (strerror : string) :
  open_w w (output_file self) = Some strerror ->
  make_summary self w initial
  = (Ok (Error strerror), mkState (scan_events self w) 0 0).
Proof.
  intros Hopen. unfold make_summary. rewrite first_pass_spec.
  unfold try_except, bind, _update_status, set_processed_files,
    set_total_lines.
  unfold scan_events, status_events.
  destruct (status_callback self); unfold emit, ret, log, initial;
    cbn [events processed_files total_lines app];
    rewrite (write_output_fails _ _ _ strerror) by assumption; reflexivity.
Qed.

End WholeRun.

(** ** The run as a whole: events, summary, artifact *)

Section RunFacts.

Variable self : ProjectConsolidator.
Variable w : world.

Lemma process_files_ok :
  open_w w (output_file self) = None ->
  _process_files self w initial
  = (Ok tt,
     mkState (scan_events self w ++ file_phase_events self w
              ++ finished_events self (success_summary self w))
             (Z.of_nat (length (candidates self w)))
             (sum_lines w (candidates self w))).
Proof.
  intros Hopen. unfold _process_files, bind.
  rewrite make_summary_ok by assumption.
  unfold finished_events, success_summary.
  destruct (finished_callback self); unfold emit, ret, log;
    cbn [events processed_files total_lines];
    now rewrite ?List.app_nil_r, <- ?List.app_assoc.
Qed.

Lemma process_files_error (strerror : string) :
  open_w w (output_file self) = Some strerror ->
  _process_files self w initial
  = (Ok tt,
     mkState (scan_events self w ++ finished_events self (Error strerror)) 0 0).
Proof.
  intros Hopen. unfold _process_files, bind.
  rewrite (make_summary_error _ _ strerror) by assumption.
  unfold finished_events.
  destruct (finished_callback self); unfold emit, ret, log;
    cbn [events processed_files total_lines];
    now rewrite ?List.app_nil_r.
Qed.

Lemma run_ok :
  open_w w (output_file self) = None ->
  run self w
  = (scan_events self w ++ file_phase_events self w
     ++ finished_events self (success_summary self w))%list.
Proof. intros H. unfold run. now rewrite process_files_ok. Qed.

Lemma run_error (strerror : string) :
  open_w w (output_file self) = Some strerror ->
  run self w
  = (scan_events self w ++ finished_events self (Error strerror))%list.
Proof. intros H. unfold run. now rewrite (process_files_error strerror). Qed.

Lemma summary_of_ok :
  open_w w (output_file self) = None ->
  summary_of self w = Ok (success_summary self w).
Proof. intros H. unfold summary_of. now rewrite make_summary_ok. Qed.

Lemma summary_of_error (strerror : string) :
  open_w w (output_file self) = Some strerror ->
  summary_of self w = Ok (Error strerror).
Proof.
  intros H. unfold summary_of. now rewrite (make_summary_error _ _ strerror).
Qed.

Lemma finished_never_opens (sm : summary) :
  forallb (fun e => negb (is_opened e)) (finished_events self sm) = true.
Proof. unfold finished_events. now destruct (finished_callback self). Qed.

Lemma output_text_finished (sm : summary) :
  output_text (finished_events self sm) = EmptyString.
Proof. unfold finished_events. now destruct (finished_callback self). Qed.

(** The output file of a run that could open it holds the header and one
    entry per candidate, in the order of the first pass. *)
Lemma written_run_ok :
  open_w w (output_file self) = None ->
  written (run self w) = artifact self w.
Proof.
  intros H. rewrite run_ok by assumption.
  rewrite written_file_phase by apply finished_never_opens.
  now rewrite output_text_finished, append_nil_r.
Qed.

Lemma progress_values_finished (sm : summary) :
  progress_values (finished_events self sm) = [].
Proof. unfold finished_events. now destruct (finished_callback self). Qed.

Lemma progress_values_scan : progress_values (scan_events self w) = [].
Proof.
  unfold scan_events. now rewrite progress_values_app, !progress_values_status.
Qed.

Lemma progress_values_run :
  progress_values (run self w)
  = match open_w w (output_file self) with
    | None =>
        if progress_callback self
        then fractions (Z.of_nat (length (candidates self w))) 0
                       (candidates self w)
        else []
    | Some _ => []
    end.
Proof.
  destruct (open_w w (output_file self)) as [e|] eqn:Hopen.
  - rewrite (run_error e) by assumption.
    now rewrite progress_values_app, progress_values_scan,
      progress_values_finished.
  - rewrite run_ok by assumption. unfold file_phase_events.
    rewrite !progress_values_app, progress_values_scan, progress_values_finished.
    change (progress_values (Opened :: Write ?h :: ?l)) with (progress_values l).
    rewrite progress_values_app, progress_values_loop.
    change (progress_values [Closed]) with (@nil Q).
    now rewrite !List.app_nil_r.
Qed.

End RunFacts.

(** ** Progress fractions *)

Section Fractions.

Lemma Qdiv_le_mono (a b n : Z) :
  0 < n -> a <= b -> (inject_Z a / inject_Z n <= inject_Z b / inject_Z n)%Q.
Proof.
  intros Hn Hab. unfold Qdiv. apply Qmult_le_compat_r.
  - now rewrite <- Zle_Qle.
  - apply Qinv_le_0_compat. change 0%Q with (inject_Z 0).
    rewrite <- Zle_Qle. lia.
Qed.

Lemma Qdiv_same (n : Z) : 0 < n -> (inject_Z n / inject_Z n == 1)%Q.
Proof.
  intros Hn. unfold Qdiv. apply Qmult_inv_r.
  unfold Qeq. simpl. lia.
Qed.

Lemma Qdiv_zero (n : Z) : (inject_Z 0 / inject_Z n == 0)%Q.
Proof. unfold Qdiv. apply Qmult_0_l. Qed.

Lemma fractions_bounds {A} (n k : Z) (l : list A) :
  0 <= k -> k + Z.of_nat (length l) <= n ->
  Forall (fun v => (0 <= v /\ v <= 1)%Q) (fractions n k l).
Proof.
  revert k; induction l as [|x l IH]; intros k Hk Hn; simpl; constructor.
  - assert (0 < n) by (simpl in Hn; lia). split.
    + rewrite <- (Qdiv_zero n). apply Qdiv_le_mono; lia.
    + rewrite <- (Qdiv_same n) by assumption.
      apply Qdiv_le_mono; [assumption | simpl in Hn; lia].
  - apply IH; [lia | simpl in Hn; lia].
Qed.

Lemma fractions_sorted {A} (n k : Z) (l : list A) :
  0 < n -> Sorted Qle (fractions n k l).
Proof.
  intros Hn. revert k; induction l as [|x l IH]; intros k; simpl; constructor.
  - apply IH.
  - destruct l as [|y l]; simpl; constructor. apply Qdiv_le_mono; lia.
Qed.

Lemma fractions_last {A} (n k : Z) (l : list A) (front : list Q) (v : Q) :
  0 < n -> n = k + Z.of_nat (length l) ->
  fractions n k l = (front ++ [v])%list -> (v == 1)%Q.
Proof.
  intros Hn. revert k front; induction l as [|x l IH]; intros k front Hlen E.
  - destruct front; discriminate.
  - destruct l as [|y l].
    + simpl in E. destruct front as [|a [|b front]]; try discriminate.
      injection E as <-. simpl in Hlen.
      replace (k + 1) with n by lia. now apply Qdiv_same.
    + destruct front as [|a front]; [discriminate|].
      simpl in E. injection E as _ E. apply (IH (k + 1) front).
      * simpl length in Hlen |- *. lia.
      * exact E.
Qed.

Lemma fractions_length {A} (n k : Z) (l : list A) :
  length (fractions n k l) = length l.
Proof. revert k; induction l as [|x l IH]; intros k; simpl; auto. Qed.

End Fractions.

(** ** Counting lines *)

Section Lines.

Variable self : ProjectConsolidator.
Variable w : world.

Lemma lines_of_nonneg (p : string) : 0 <= lines_of w p.
Proof.
  unfold lines_of. destruct (read_text w p); [|lia].
  pose proof (count_nonneg a newline). lia.
Qed.

Lemma sum_lines_nonneg (l : list string) : 0 <= sum_lines w l.
Proof.
  induction l as [|p l IH]; simpl; [lia|].
  pose proof (lines_of_nonneg p). lia.
Qed.

Lemma sum_lines_contents (l : list string) :
  sum_lines w l
  = total (map line_count
               (flat_map (fun p => match read_text w p with
                                   | Ok content => [content]
                                   | Raise _ => []
                                   end) l)).
Proof.
  induction l as [|p l IH]; simpl; [reflexivity|].
  rewrite IH, map_app. unfold lines_of, total.
  rewrite fold_right_app.
  destruct (read_text w p); simpl; reflexivity.
Qed.

Lemma sum_lines_readable (l : list string) :
  sum_lines w l = sum_lines w (filter (readable w) l).
Proof.
  induction l as [|p l IH]; simpl; [reflexivity|].
  destruct (read_text w p) as [content|e] eqn:E.
  - replace (readable w p) with true by (unfold readable; now rewrite E).
    simpl. now rewrite IH.
  - replace (readable w p) with false by (unfold readable; now rewrite E).
    unfold lines_of at 1. now rewrite E.
Qed.

(** One iteration adds the lines of its file to [total_lines], whatever
    the total it divides by. *)
Lemma process_file_total_lines (n : Z) (p : string) (s : state) :
  total_lines (snd (process_file self w n p s)) = total_lines s + lines_of w p.
Proof.
  destruct s as [evs k t].
  cbv [process_file lines_of _update_status _update_progress truediv read
       write try_except bind emit ret raise log get_total_lines
       set_total_lines get_processed_files set_processed_files
       events processed_files total_lines fst snd].
  destruct (status_callback self), (read_text w p), (n =? 0),
    (progress_callback self); lia.
Qed.

End Lines.

(** * The claims *)

Section Helpers.

Lemma in_concat_all (l : list string) (x : string) :
  In x l -> exists before after, concat_all l = before ++ x ++ after.
Proof.
  intros H. apply in_split in H. destruct H as [l1 [l2 ->]].
  exists (concat_all l1), (concat_all l2).
  now rewrite concat_all_app.
Qed.

Lemma sample_file_in : file_in sample_tree ["src"] "app.py".
Proof.
  exists ["app.py"; "notes.tmp"]. split; [|now left].
  econstructor; constructor.
Qed.

Lemma sample_selected : selected sample_consolidator "app.py".
Proof.
  split.
  - exists ".py". split; [now left | now exists "app"].
  - intros [H | [H | []]]; discriminate.
Qed.

Lemma sample_dirs_kept (d : string) :
  In d ["src"] -> ~ In d (exclude_patterns sample_consolidator).
Proof.
  intros [<- | []] [H | [H | []]]; discriminate.
Qed.

End Helpers.

(** C1 (completeness and pruning).  A path is among the files of the
    output exactly when it is the path of a file of the tree whose name
    ends with one of the included suffixes, is not itself an exclude
    pattern, and is reached from the root through directories none of which
    is named as an exclude pattern; the walk visits no directory that lies
    under a directory named as an exclude pattern; a run that opens its
    output writes the header and then one entry for each of these files, in
    the order of the walk. *)
Theorem C1_output_files_are_the_selected_files
        (self : ProjectConsolidator) (w : world) :
  (forall p,
      In p (candidates self w)
      <-> exists ds f,
          p = path_of (root_dir self) ds f
          /\ file_in (listing w) ds f
          /\ ((exists ext, In ext (include_ext self) /\ ends_with f ext)
              /\ ~ In f (exclude_patterns self))
          /\ (forall d, In d ds -> ~ In d (exclude_patterns self)))
  /\ (forall dirpath filenames,
         In (dirpath, filenames)
            (os_walk (keep_dir self) (root_dir self) (listing w)) ->
         exists ds,
           dir_at (listing w) ds filenames
           /\ dirpath = fold_left OsPath.join ds (root_dir self)
           /\ (forall d, In d ds -> ~ In d (exclude_patterns self)))
  /\ (open_w w (output_file self) = None ->
      written (run self w)
      = header (OsPath.basename (root_dir self))
        ++ concat_all (map (entry self w) (candidates self w))).
Proof.
  split; [|split].
  - intros p. apply candidate_iff.
  - intros dirpath filenames Hin. apply os_walk_spec in Hin.
    destruct Hin as [ds [Hd [E Hkeep]]]. exists ds.
    split; [exact Hd|]. split; [exact E|].
    intros d Hd'. now apply keep_dir_spec, Hkeep.
  - intros Hopen. now rewrite written_run_ok.
Qed.

Lemma C1_witness :
  In "/home/u/build/src/app.py" (candidates sample_consolidator sample_world)
  /\ written (run sample_consolidator sample_world)
     = header "build"
       ++ concat_all (map (entry sample_consolidator sample_world)
                          (candidates sample_consolidator sample_world)).
Proof.
  destruct (C1_output_files_are_the_selected_files
              sample_consolidator sample_world) as [Hc [_ Hout]].
  split.
  - apply Hc. exists ["src"], "app.py".
    split; [reflexivity|]. split; [apply sample_file_in|].
    split; [apply sample_selected | apply sample_dirs_kept].
  - apply Hout. reflexivity.
Defined.

(** C10 (the root is always scanned).  Even when the base name of the root
    directory is an exclude pattern, every selected file that lies in the
    root directory or below it through directories that are not excluded
    is a candidate, and its entry is in the output of a run that opens its
    output. *)
Theorem C10_root_directory_is_never_pruned
        (self : ProjectConsolidator) (w : world)
        (ds : list string) (f : string) :
  In (OsPath.basename (root_dir self)) (exclude_patterns self) ->
  file_in (listing w) ds f ->
  (forall d, In d ds -> ~ In d (exclude_patterns self)) ->
  selected self f ->
  In (path_of (root_dir self) ds f) (candidates self w)
  /\ (open_w w (output_file self) = None ->
      exists before after,
        written (run self w)
        = before ++ entry self w (path_of (root_dir self) ds f) ++ after).
Proof.
  intros _ Hin Hkept Hsel.
  assert (Hc : In (path_of (root_dir self) ds f) (candidates self w)).
  { apply candidate_iff. exists ds, f. repeat split; try assumption; apply Hsel. }
  split; [exact Hc|]. intros Hopen. rewrite written_run_ok by assumption.
  unfold artifact.
  destruct (in_concat_all (map (entry self w) (candidates self w))
                          (entry self w (path_of (root_dir self) ds f)))
    as [before [after E]]; [now apply in_map|].
  exists (header (OsPath.basename (root_dir self)) ++ before), after.
  now rewrite E, append_assoc.
Qed.

Lemma C10_witness :
  In "/home/u/build/src/app.py" (candidates sample_consolidator sample_world)
  /\ (open_w sample_world (output_file sample_consolidator) = None ->
      exists before after,
        written (run sample_consolidator sample_world)
        = before
          ++ entry sample_consolidator sample_world "/home/u/build/src/app.py"
          ++ after).
Proof.
  apply (C10_root_directory_is_never_pruned
           sample_consolidator sample_world ["src"] "app.py").
  - now left.
  - apply sample_file_in.
  - apply sample_dirs_kept.
  - apply sample_selected.
Defined.

(** C2 as the claim states it fails.  A candidate whose bytes have DOS
    line ends is read as text, so that its block holds the line feeds the
    reading made of them and not the raw bytes; and of a name that is not
    UTF-8, the header line of the block holds what the codec of the output
    keeps: the block worded by the claim is nowhere in the output. *)
Lemma C2_counterexample :
  candidates sample_consolidator dos_world
  = ["/home/u/build/run.py"; "/home/u/build/" ++ String "255"%char ".py"]
  /\ read_text dos_world "/home/u/build/run.py"
     = Ok (PyCodec.decode_file ("a" ++ String carriage_return nl ++ "b"))
  /\ ~ (exists before after,
           written (run sample_consolidator dos_world)
           = before
             ++ stated_block "run.py" "py"
                             ("a" ++ String carriage_return nl ++ "b")
             ++ after)
  /\ read_text dos_world ("/home/u/build/" ++ String "255"%char ".py")
     = Ok (PyCodec.decode_file "x")
  /\ ~ (exists before after,
           written (run sample_consolidator dos_world)
           = before
             ++ stated_block (String "255"%char ".py") "py" "x"
             ++ after).
Proof.
  assert (Hnone : forall c block,
             PyStr.count (written (run sample_consolidator dos_world)) c = 0 ->
             0 < PyStr.count block c ->
             ~ (exists before after,
                   written (run sample_consolidator dos_world)
                   = before ++ block ++ after)).
  { intros c block Hw Hb [before [after E]].
    rewrite E, !count_append in Hw.
    pose proof (count_nonneg before c). pose proof (count_nonneg after c).
    lia. }
  split; [reflexivity|]. split; [reflexivity|]. split; [|split].
  - apply (Hnone carriage_return); vm_compute; reflexivity.
  - reflexivity.
  - apply (Hnone "255"%char); vm_compute; reflexivity.
Qed.

(** The output of that run: the line ends of [run.py] are line feeds, and
    the second block names [.py]. *)
Example dos_artifact :
  written (run sample_consolidator dos_world)
  = "--- Project Context for: build ---" ++ nl ++ nl
    ++ separator ++ nl ++ "### FILE: run.py" ++ nl ++ separator ++ nl
    ++ "```py" ++ nl ++ "a" ++ nl ++ "b" ++ nl ++ "```" ++ nl ++ nl
    ++ separator ++ nl ++ "### FILE: .py" ++ nl ++ separator ++ nl
    ++ "```py" ++ nl ++ "x" ++ nl ++ "```" ++ nl ++ nl.
Proof. vm_compute. reflexivity. Qed.

(** Its size is that of the bytes in the file: 419, two less than the
    texts that were written have bytes. *)
Example dos_summary :
  summary_of sample_consolidator dos_world = Ok (Success 2 3 (419 # 1024)).
Proof. vm_compute. reflexivity. Qed.

(** C2, amended (block format).  The output of a run that opens its output
    starts with the header line naming the base name of the root directory
    and a blank line, followed by one text per candidate; the text of a
    candidate that was read is, byte for byte: the separator of 80 [=], the
    line [### FILE: ] with the relative path, the separator again, the
    opening fence with the extension of the file without its dot (nothing
    when the file has no extension; a path has one such tag), the content
    that was read, a line break, the closing fence and a blank line.  Names go through the codec
    of the output, which drops what cannot be encoded; the content is the
    text the reading made of the bytes of the file, not the bytes, and the
    codec of the output leaves that text as it is. *)
Theorem C2_block_layout (self : ProjectConsolidator) (w : world) :
  open_w w (output_file self) = None ->
  separator = PyStr.repeat "=" 80
  /\ exists texts,
      written (run self w)
      = "--- Project Context for: "
        ++ PyCodec.utf8_ignore (OsPath.basename (root_dir self))
        ++ " ---" ++ nl ++ nl ++ concat_all texts
      /\ Forall2
           (fun file_path text =>
              forall content,
                read_text w file_path = Ok content ->
                exists tag,
                  extension_tag file_path tag
                  /\ (forall tag', extension_tag file_path tag' -> tag' = tag)
                  /\ text
                     = separator ++ nl
                       ++ "### FILE: "
                       ++ PyCodec.utf8_ignore
                            (relpath w file_path (root_dir self)) ++ nl
                       ++ separator ++ nl
                       ++ "```" ++ PyCodec.utf8_ignore tag ++ nl
                       ++ PyCodec.utf8_ignore content ++ nl
                       ++ "```" ++ nl
                       ++ nl
                  /\ forall raw,
                      content = PyCodec.decode_file raw ->
                      PyCodec.utf8_ignore content = PyCodec.decode_file raw)
           (candidates self w) texts.
Proof.
  intros Hopen. split; [reflexivity|].
  exists (map (entry self w) (candidates self w)). split.
  - rewrite written_run_ok by assumption. unfold artifact, header.
    now rewrite !append_assoc.
  - induction (candidates self w) as [|p l IH]; simpl; constructor; [|exact IH].
    intros content Hread. exists (lang_of p). split; [|split; [|split]].
    + apply lang_of_spec.
    + intros tag' Htag. apply (extension_tag_unique p _ _ Htag).
      apply lang_of_spec.
    + unfold entry, block. now rewrite Hread.
    + intros raw ->. apply utf8_ignore_decode_file.
Qed.

Lemma C2_witness :
  separator = PyStr.repeat "=" 80
  /\ exists texts,
      written (run sample_consolidator dos_world)
      = "--- Project Context for: " ++ "build"
        ++ " ---" ++ nl ++ nl ++ concat_all texts
      /\ Forall2
           (fun file_path text =>
              forall content,
                read_text dos_world file_path = Ok content ->
                exists tag,
                  extension_tag file_path tag
                  /\ (forall tag', extension_tag file_path tag' -> tag' = tag)
                  /\ text
                     = separator ++ nl
                       ++ "### FILE: "
                       ++ PyCodec.utf8_ignore
                            (relpath dos_world file_path "/home/u/build") ++ nl
                       ++ separator ++ nl
                       ++ "```" ++ PyCodec.utf8_ignore tag ++ nl
                       ++ PyCodec.utf8_ignore content ++ nl
                       ++ "```" ++ nl
                       ++ nl
                  /\ forall raw,
                      content = PyCodec.decode_file raw ->
                      PyCodec.utf8_ignore content = PyCodec.decode_file raw)
           ["/home/u/build/run.py"; "/home/u/build/" ++ String "255"%char ".py"]
           texts.
Proof.
  apply (C2_block_layout sample_consolidator dos_world). reflexivity.
Defined.

(** The fence tags of the sample paths, by the wording of the
    specification alone. *)
Example tag_of_app_py : extension_tag "/home/u/build/src/app.py" "py".
Proof.
  exists "app.py". split; [split|left].
  - right. now exists "/home/u/build/src".
  - apply (count_zero_absent "app.py" "/"). reflexivity.
  - exists "app". split; [reflexivity|]. split.
    + apply (count_zero_absent "py" "."). reflexivity.
    + exists "ap", "p"%char, EmptyString. split; [reflexivity | discriminate].
Qed.

Example tag_of_app_py_is_computed : lang_of "/home/u/build/src/app.py" = "py".
Proof. reflexivity. Qed.

Example tag_of_makefile : lang_of "/home/u/build.d/Makefile" = EmptyString.
Proof. reflexivity. Qed.

Example tag_of_hidden_file : lang_of "/home/u/build/.bashrc" = EmptyString.
Proof. reflexivity. Qed.

Example sample_candidates :
  candidates sample_consolidator sample_world
  = ["/home/u/build/README.md"; "/home/u/build/empty.py";
     "/home/u/build/src/app.py"].
Proof. reflexivity. Qed.

Example sample_events_of_the_empty_run :
  run kotlin_consolidator sample_world
  = [Status "Starting scan..."; Status "Found 0 files to process.";
     Opened; Write ("--- Project Context for: build ---" ++ nl ++ nl); Closed;
     Finished (Success 0 0 (36 # 1024))].
Proof. reflexivity. Qed.

Example sample_artifact :
  written (run sample_consolidator sample_world)
  = "--- Project Context for: build ---" ++ nl ++ nl
    ++ "--- ERROR reading README.md: [Errno 13] Permission denied ---" ++ nl ++ nl
    ++ separator ++ nl ++ "### FILE: empty.py" ++ nl ++ separator ++ nl
    ++ "```py" ++ nl ++ EmptyString ++ nl ++ "```" ++ nl ++ nl
    ++ separator ++ nl ++ "### FILE: src/app.py" ++ nl ++ separator ++ nl
    ++ "```py" ++ nl ++ "a" ++ nl ++ "b" ++ nl ++ nl ++ "```" ++ nl ++ nl.
Proof. reflexivity. Qed.

(** C3 as the claim states it fails: in the sample run three candidates are
    processed, one of them cannot be read, and the summary still reports
    three processed files, not the two that were read. *)
Lemma C3_counterexample :
  ~ (forall fp tl kb,
        summary_of sample_consolidator sample_world = Ok (Success fp tl kb) ->
        fp = Z.of_nat (length (readable_candidates sample_consolidator
                                                   sample_world))).
Proof.
  intros H.
  assert (E : summary_of sample_consolidator sample_world
              = Ok (Success 3 4 (491 # 1024)%Q)) by (vm_compute; reflexivity).
  specialize (H _ _ _ E). clear E. vm_compute in H. discriminate.
Qed.

(** C3, amended.  In a run that opens its output, a candidate that cannot
    be read gets the inline annotation as its entry and the run goes on to
    a Success summary; the candidate adds nothing to the line total, but it
    is counted: the number of processed files of the summary is the number
    of all candidates, and one progress value is reported for each of
    them. *)
Theorem C3_read_error_is_annotated_and_counted
        (self : ProjectConsolidator) (w : world) :
  open_w w (output_file self) = None ->
  (exists kb,
      summary_of self w
      = Ok (Success (Z.of_nat (length (candidates self w)))
                    (sum_lines w (readable_candidates self w))
                    kb))
  /\ written (run self w)
     = header (OsPath.basename (root_dir self))
       ++ concat_all (map (entry self w) (candidates self w))
  /\ (forall p e,
         read_text w p = Raise e ->
         entry self w p = annotation (relpath w p (root_dir self)) (str e)
         /\ lines_of w p = 0)
  /\ (progress_callback self = true ->
      length (progress_values (run self w)) = length (candidates self w)).
Proof.
  intros Hopen. repeat split.
  - eexists. rewrite summary_of_ok by assumption. unfold success_summary.
    unfold readable_candidates. now rewrite <- sum_lines_readable.
  - now rewrite written_run_ok.
  - unfold entry. now rewrite H.
  - unfold lines_of. now rewrite H.
  - intros Hcb. rewrite progress_values_run, Hopen, Hcb.
    apply fractions_length.
Qed.

Lemma C3_witness :
  (exists kb,
      summary_of sample_consolidator sample_world = Ok (Success 3 4 kb))
  /\ entry sample_consolidator sample_world "/home/u/build/README.md"
     = annotation "README.md" "[Errno 13] Permission denied"
  /\ length (progress_values (run sample_consolidator sample_world)) = 3%nat.
Proof.
  destruct (C3_read_error_is_annotated_and_counted
              sample_consolidator sample_world eq_refl)
    as [Hs [_ [Hentry Hprogress]]].
  split; [exact Hs|]. split.
  - apply (Hentry "/home/u/build/README.md"
                  (OSError "[Errno 13] Permission denied")).
    reflexivity.
  - apply Hprogress. reflexivity.
Defined.

(** C4 as the claim states it fails: the size field of the summary of the
    sample run is not the size of the output in bytes. *)
Lemma C4_counterexample :
  ~ (forall fp tl kb,
        summary_of sample_consolidator sample_world = Ok (Success fp tl kb) ->
        (kb == inject_Z (Z.of_nat (String.length
               (written (run sample_consolidator sample_world)))))%Q).
Proof.
  intros H.
  assert (E : summary_of sample_consolidator sample_world
              = Ok (Success 3 4 (491 # 1024)%Q)) by (vm_compute; reflexivity).
  specialize (H _ _ _ E). clear E. vm_compute in H. discriminate.
Qed.

(** C4, amended.  The Success summary holds the size of the output file in
    bytes divided by 1024 (kilobytes, in general not an integer), which is
    not negative, beside a number of processed files and a line total that
    are not negative. *)
Theorem C4_summary_size_in_kilobytes
        (self : ProjectConsolidator) (w : world) (fp tl : Z) (kb : Q) :
  summary_of self w = Ok (Success fp tl kb) ->
  (kb == inject_Z (Z.of_nat (String.length (written (run self w))))
         / inject_Z 1024)%Q
  /\ (0 <= kb)%Q
  /\ 0 <= fp
  /\ 0 <= tl.
Proof.
  intros Hs. destruct (open_w w (output_file self)) as [m|] eqn:Hopen.
  - rewrite (summary_of_error _ _ m) in Hs by assumption. discriminate.
  - rewrite summary_of_ok in Hs by assumption. unfold success_summary in Hs.
    rewrite written_run_ok by assumption.
    set (size := Z.of_nat (String.length (artifact self w))) in *.
    assert (Hsize : 0 <= size) by apply Nat2Z.is_nonneg.
    pose proof (sum_lines_nonneg w (candidates self w)) as Hlines.
    injection Hs as Efp Etl Ekb. subst fp tl kb.
    split; [reflexivity|]. split; [|split; [lia | assumption]].
    unfold Qdiv. apply Qmult_le_0_compat.
    + change 0%Q with (inject_Z 0). now rewrite <- Zle_Qle.
    + apply Qinv_le_0_compat. discriminate.
Qed.

Lemma C4_witness :
  (inject_Z 491 / inject_Z 1024
   == inject_Z (Z.of_nat (String.length
                            (written (run sample_consolidator sample_world))))
      / inject_Z 1024)%Q
  /\ (0 <= inject_Z 491 / inject_Z 1024)%Q
  /\ 0 <= 3
  /\ 0 <= 4.
Proof.
  apply (C4_summary_size_in_kilobytes sample_consolidator sample_world).
  vm_compute. reflexivity.
Defined.

(** C5 (line count).  An iteration whose file is read adds the number of
    line breaks of the content plus one to the line total: one for an
    empty content, three for the content [a], line break, [b], line break;
    the line total of a Success summary is the sum of these numbers over
    the candidates that were read. *)
Theorem C5_lines_are_line_breaks_plus_one
        (self : ProjectConsolidator) (w : world) :
  (forall n p s content,
      read_text w p = Ok content ->
      total_lines (snd (process_file self w n p s))
      = total_lines s + (PyStr.count content newline + 1))
  /\ (forall n p s,
         read_text w p = Ok EmptyString ->
         total_lines (snd (process_file self w n p s)) = total_lines s + 1)
  /\ (forall n p s,
         read_text w p = Ok ("a" ++ nl ++ "b" ++ nl) ->
         total_lines (snd (process_file self w n p s)) = total_lines s + 3)
  /\ (forall fp tl kb,
         summary_of self w = Ok (Success fp tl kb) ->
         tl = total (map (fun content => PyStr.count content newline + 1)
                         (read_contents self w))).
Proof.
  assert (Hone : forall n p s content,
             read_text w p = Ok content ->
             total_lines (snd (process_file self w n p s))
             = total_lines s + (PyStr.count content newline + 1)).
  { intros n p s content Hread. rewrite process_file_total_lines.
    unfold lines_of. now rewrite Hread. }
  split; [exact Hone|]. split; [|split].
  - intros n p s Hread. now rewrite (Hone n p s EmptyString Hread).
  - intros n p s Hread. now rewrite (Hone n p s _ Hread).
  - intros fp tl kb Hs.
    destruct (open_w w (output_file self)) as [m|] eqn:Hopen.
    + rewrite (summary_of_error _ _ m) in Hs by assumption. discriminate.
    + rewrite summary_of_ok in Hs by assumption. unfold success_summary in Hs.
      set (size := Z.of_nat (String.length (artifact self w))) in *.
      injection Hs as _ Etl _. subst tl.
      apply sum_lines_contents.
Qed.

Lemma C5_witness :
  total_lines (snd (process_file sample_consolidator sample_world 3
                                 "/home/u/build/empty.py" initial)) = 0 + 1
  /\ total_lines (snd (process_file sample_consolidator sample_world 3
                                    "/home/u/build/src/app.py" initial)) = 0 + 3
  /\ 4 = total (map (fun content => PyStr.count content newline + 1)
                    (read_contents sample_consolidator sample_world)).
Proof.
  destruct (C5_lines_are_line_breaks_plus_one sample_consolidator sample_world)
    as [_ [Hempty [Htwo Hsum]]].
  split; [|split].
  - apply Hempty. reflexivity.
  - apply Htwo. reflexivity.
  - apply (Hsum 3 4 (491 # 1024)%Q). vm_compute. reflexivity.
Defined.

(** C6 (no candidates).  When the first pass finds no candidate, its
    counter is [0] and its list is empty, the second pass does not raise
    [ZeroDivisionError] and reports no progress at all, and the run returns
    normally; if the output can be opened, the summary is a Success with no
    processed file and no line, and the output holds the header line and
    its blank line only. *)
Theorem C6_no_candidates (self : ProjectConsolidator) (w : world) :
  candidates self w = [] ->
  first_pass self w = (0, [])
  /\ (forall s, fst (write_output self w 0 [] s) <> Raise ZeroDivisionError)
  /\ progress_values (run self w) = []
  /\ fst (_process_files self w initial) = Ok tt
  /\ (open_w w (output_file self) = None ->
      (exists kb, summary_of self w = Ok (Success 0 0 kb))
      /\ written (run self w)
         = "--- Project Context for: "
           ++ PyCodec.utf8_ignore (OsPath.basename (root_dir self))
           ++ " ---" ++ nl ++ nl).
Proof.
  intros Hnone. split; [|split; [|split; [|split]]].
  - rewrite first_pass_spec, Hnone. reflexivity.
  - intros s. unfold write_output, with_open_w, bind.
    destruct (open_w w (output_file self)); simpl; discriminate.
  - rewrite progress_values_run, Hnone.
    now destruct (open_w w (output_file self)), (progress_callback self).
  - destruct (open_w w (output_file self)) as [m|] eqn:Hopen.
    + now rewrite (process_files_error _ _ m).
    + now rewrite process_files_ok.
  - intros Hopen. split.
    + eexists. rewrite summary_of_ok by assumption. unfold success_summary.
      rewrite Hnone. reflexivity.
    + rewrite written_run_ok by assumption. unfold artifact, header.
      rewrite Hnone. simpl. now rewrite append_nil_r.
Qed.

Lemma C6_witness :
  first_pass kotlin_consolidator sample_world = (0, [])
  /\ (forall s, fst (write_output kotlin_consolidator sample_world 0 [] s)
                <> Raise ZeroDivisionError)
  /\ progress_values (run kotlin_consolidator sample_world) = []
  /\ fst (_process_files kotlin_consolidator sample_world initial) = Ok tt
  /\ (open_w sample_world (output_file kotlin_consolidator) = None ->
      (exists kb, summary_of kotlin_consolidator sample_world
                  = Ok (Success 0 0 kb))
      /\ written (run kotlin_consolidator sample_world)
         = "--- Project Context for: " ++ "build" ++ " ---" ++ nl ++ nl).
Proof.
  apply (C6_no_candidates kotlin_consolidator sample_world).
  vm_compute. reflexivity.
Defined.

Section Injection.

Variable self : ProjectConsolidator.
Variable w : world.
Variable p : string.
Variable e : exn.

Lemma candidates_inject :
  candidates self (inject_read_failure w p e) = candidates self w.
Proof. reflexivity. Qed.

Lemma entry_inject (q : string) :
  entry self (inject_read_failure w p e) q
  = if String.eqb q p
    then annotation (relpath w q (root_dir self)) (str e)
    else entry self w q.
Proof.
  unfold entry, inject_read_failure. cbn [read_text relpath].
  now destruct (String.eqb q p).
Qed.

End Injection.

(** C7 (isolation).  Make the read of one candidate fail and leave the
    rest of the world as it is.  The candidates are the same; a run-level
    Error of the new run is an Error the old run already had; and when the
    output can be opened the new run ends in Success and its output is the
    header followed, candidate by candidate, by the entry of the old run,
    except that the failed candidate has the inline annotation in its
    place. *)
Theorem C7_read_failure_is_isolated
        (self : ProjectConsolidator) (w : world) (p : string) (e : exn) :
  In p (candidates self w) ->
  candidates self (inject_read_failure w p e) = candidates self w
  /\ (forall m,
         summary_of self (inject_read_failure w p e) = Ok (Error m) ->
         summary_of self w = Ok (Error m))
  /\ (open_w w (output_file self) = None ->
      (exists fp tl kb,
          summary_of self (inject_read_failure w p e) = Ok (Success fp tl kb))
      /\ written (run self w)
         = header (OsPath.basename (root_dir self))
           ++ concat_all (map (entry self w) (candidates self w))
      /\ written (run self (inject_read_failure w p e))
         = header (OsPath.basename (root_dir self))
           ++ concat_all
                (map (fun q =>
                        if String.eqb q p
                        then annotation (relpath w q (root_dir self)) (str e)
                        else entry self w q)
                     (candidates self w))).
Proof.
  intros _. split; [reflexivity|]. split.
  - intros m Hs.
    destruct (open_w w (output_file self)) as [m0|] eqn:Hopen.
    + rewrite (summary_of_error _ _ m0) in Hs by exact Hopen.
      now rewrite (summary_of_error _ _ m0).
    + rewrite summary_of_ok in Hs by exact Hopen. discriminate.
  - intros Hopen. split; [|split].
    + do 3 eexists. apply summary_of_ok. exact Hopen.
    + now rewrite written_run_ok.
    + rewrite written_run_ok by exact Hopen. unfold artifact.
      rewrite candidates_inject. f_equal. f_equal.
      apply map_ext. intros q. apply entry_inject.
Qed.

Lemma C7_witness :
  candidates sample_consolidator
             (inject_read_failure sample_world "/home/u/build/empty.py"
                                  (OSError "[Errno 5] Input/output error"))
  = candidates sample_consolidator sample_world
  /\ (exists fp tl kb,
         summary_of sample_consolidator
                    (inject_read_failure sample_world "/home/u/build/empty.py"
                                         (OSError "[Errno 5] Input/output error"))
         = Ok (Success fp tl kb)).
Proof.
  destruct (C7_read_failure_is_isolated
              sample_consolidator sample_world "/home/u/build/empty.py"
              (OSError "[Errno 5] Input/output error"))
    as [Hc [_ Hout]].
  - vm_compute. right. left. reflexivity.
  - split; [exact Hc|]. apply Hout. reflexivity.
Defined.

(** C8 (progress).  The progress values of a run never decrease and lie
    between 0 and 1; the last value reported, if there is one, is 1; and a
    run that opens its output, has a progress callback and at least one
    candidate reports at least one value. *)
Theorem C8_progress_is_monotone_and_ends_at_one
        (self : ProjectConsolidator) (w : world) :
  Sorted Qle (progress_values (run self w))
  /\ Forall (fun v => (0 <= v /\ v <= 1)%Q) (progress_values (run self w))
  /\ (forall front v,
         progress_values (run self w) = (front ++ [v])%list -> (v == 1)%Q)
  /\ (open_w w (output_file self) = None ->
      progress_callback self = true ->
      candidates self w <> [] ->
      progress_values (run self w) <> []).
Proof.
  rewrite progress_values_run.
  destruct (open_w w (output_file self)) as [m|];
    [repeat split; try constructor;
     [intros front v E; destruct front; discriminate | discriminate]|].
  destruct (progress_callback self);
    [|repeat split; try constructor;
      [intros front v E; destruct front; discriminate | discriminate]].
  destruct (candidates self w) as [|c l] eqn:Hc;
    [repeat split; try constructor;
     [intros front v E; destruct front; discriminate | congruence]|].
  rewrite <- Hc.
  assert (Hn : 0 < Z.of_nat (length (candidates self w)))
    by (rewrite Hc; simpl; lia).
  split; [|split; [|split]].
  - now apply fractions_sorted.
  - apply fractions_bounds; lia.
  - intros front v E. eapply fractions_last; [exact Hn | | exact E]. lia.
  - intros _ _ _ E. apply (f_equal (@length Q)) in E.
    rewrite fractions_length, Hc in E. discriminate.
Qed.

Lemma C8_witness :
  progress_values (run sample_consolidator sample_world) <> []
  /\ (inject_Z 3 / inject_Z 3 == 1)%Q.
Proof.
  destruct (C8_progress_is_monotone_and_ends_at_one
              sample_consolidator sample_world) as [_ [_ [Hlast Hsome]]].
  split.
  - apply Hsome; [reflexivity | reflexivity | discriminate].
  - apply (Hlast [inject_Z 1 / inject_Z 3; inject_Z 2 / inject_Z 3]%Q).
    vm_compute. reflexivity.
Defined.

Section Delivery.

Variable self : ProjectConsolidator.
Variable w : world.

Lemma summaries_app (a b : list event) :
  summaries (a ++ b) = (summaries a ++ summaries b)%list.
Proof. unfold summaries. now rewrite flat_map_app. Qed.

Lemma summaries_status (m : string) : summaries (status_events self m) = [].
Proof. unfold status_events. now destruct (status_callback self). Qed.

Lemma summaries_scan : summaries (scan_events self w) = [].
Proof. unfold scan_events. now rewrite summaries_app, !summaries_status. Qed.

Lemma summaries_loop (n k : Z) (l : list string) :
  summaries (loop_events self w n k l) = [].
Proof.
  revert k; induction l as [|p l IH]; intros k; simpl; [reflexivity|].
  unfold file_events. rewrite !summaries_app, summaries_status, IH.
  unfold file_writes, progress_events.
  now destruct (read_text w p), (progress_callback self).
Qed.

Lemma summaries_file_phase : summaries (file_phase_events self w) = [].
Proof.
  unfold file_phase_events.
  change (summaries (Opened :: Write ?h :: ?l)) with (summaries l).
  now rewrite summaries_app, summaries_loop.
Qed.

Lemma scan_never_opens : ~ In Opened (scan_events self w).
Proof.
  unfold scan_events, status_events.
  destruct (status_callback self); simpl; intuition discriminate.
Qed.

(** Closing the file leaves its content as it is. *)
Lemma written_closed (evs : list event) : written (evs ++ [Closed]) = written evs.
Proof. unfold written. now rewrite fold_left_app. Qed.

End Delivery.

(** C9 (one outcome, delivered once).  [_process_files] returns normally:
    no exception leaves it.  It computes exactly one summary, a Success
    when the output could be opened and otherwise the Error that carries
    the text of the failure.  With a [finished_callback], the summary is
    delivered once and as the last event of the run; in a successful run
    the event before it is the closing of the output file, which then
    holds the whole artifact; in a failed run the output was never
    opened. *)
Theorem C9_one_summary_delivered_once_at_the_end
        (self : ProjectConsolidator) (w : world) :
  fst (_process_files self w initial) = Ok tt
  /\ exists sm,
      summary_of self w = Ok sm
      /\ (open_w w (output_file self) = None
          /\ (exists fp tl kb, sm = Success fp tl kb)
          \/ (exists m, open_w w (output_file self) = Some m /\ sm = Error m))
      /\ (finished_callback self = true ->
          summaries (run self w) = [sm]
          /\ exists before,
              run self w = (before ++ [Finished sm])%list
              /\ (open_w w (output_file self) = None ->
                  exists earlier,
                    before = (earlier ++ [Closed])%list
                    /\ written earlier
                       = header (OsPath.basename (root_dir self))
                         ++ concat_all (map (entry self w) (candidates self w)))
              /\ (open_w w (output_file self) <> None -> ~ In Opened before)).
Proof.
  destruct (open_w w (output_file self)) as [m|] eqn:Hopen.
  - split; [now rewrite (process_files_error _ _ m)|].
    exists (Error m). split; [now apply summary_of_error|].
    split; [right; now exists m|].
    intros Hcb. rewrite (run_error _ _ m) by assumption.
    unfold finished_events. rewrite Hcb. split.
    + now rewrite summaries_app, summaries_scan.
    + exists (scan_events self w). split; [reflexivity|].
      split; [discriminate|]. intros _. apply scan_never_opens.
  - split; [now rewrite process_files_ok|].
    exists (success_summary self w). split; [now apply summary_of_ok|].
    split; [left; split; [reflexivity | unfold success_summary; eauto]|].
    intros Hcb. rewrite run_ok by assumption.
    unfold finished_events. rewrite Hcb. split.
    + now rewrite !summaries_app, summaries_scan, summaries_file_phase.
    + exists (scan_events self w ++ file_phase_events self w)%list.
      split; [now rewrite List.app_assoc|].
      split; [|congruence]. intros _.
      exists (scan_events self w
              ++ Opened :: Write (header (OsPath.basename (root_dir self)))
              :: loop_events self w (Z.of_nat (length (candidates self w))) 0
                             (candidates self w))%list.
      split.
      * unfold file_phase_events. now rewrite <- List.app_assoc.
      * rewrite <- written_closed, <- List.app_assoc.
        change (written (scan_events self w ++ file_phase_events self w)
                = artifact self w).
        rewrite <- (List.app_nil_r (file_phase_events self w)).
        now rewrite written_file_phase, append_nil_r.
Qed.

Lemma C9_witness :
  summaries (run sample_consolidator sample_world)
  = [Success 3 4 (491 # 1024)]
  /\ summaries (run sample_consolidator readonly_world)
     = [Error "[Errno 30] Read-only file system"].
Proof.
  split.
  - destruct (C9_one_summary_delivered_once_at_the_end
                sample_consolidator sample_world) as [_ [sm [Hs [_ Hd]]]].
    destruct (Hd eq_refl) as [Hone _]. rewrite Hone.
    vm_compute in Hs. injection Hs as <-. reflexivity.
  - destruct (C9_one_summary_delivered_once_at_the_end
                sample_consolidator readonly_world) as [_ [sm [Hs [_ Hd]]]].
    destruct (Hd eq_refl) as [Hone _]. rewrite Hone.
    vm_compute in Hs. injection Hs as <-. reflexivity.
Defined.

(** * Further properties *)

(** ** The entry fields: splitting and stripping *)

Section Items.

Lemma split_not_nil (s : string) (sep : ascii) : PyText.split s sep <> [].
Proof.
  destruct s as [|c s]; simpl; [discriminate|].
  destruct (Ascii.eqb c sep); [discriminate|].
  destruct (PyText.split s sep); discriminate.
Qed.

Lemma split_app (a b : string) (sep : ascii) :
  PyText.split (a ++ String sep b) sep
  = (PyText.split a sep ++ PyText.split b sep)%list.
Proof.
  induction a as [|c a IH]; simpl.
  - now rewrite Ascii.eqb_refl.
  - rewrite IH. destruct (Ascii.eqb c sep); [reflexivity|].
    pose proof (split_not_nil a sep) as Hne.
    destruct (PyText.split a sep); [contradiction | reflexivity].
Qed.

Lemma count_cons_zero (c a : ascii) (s : string) :
  PyStr.count (String a s) c = 0 -> Ascii.eqb a c = false /\ PyStr.count s c = 0.
Proof.
  simpl. pose proof (count_nonneg s c).
  destruct (Ascii.eqb a c); split; try reflexivity; lia.
Qed.

Lemma split_whole (s : string) (sep : ascii) :
  PyStr.count s sep = 0 -> PyText.split s sep = [s].
Proof.
  induction s as [|c s IH]; intros H; [reflexivity|].
  apply count_cons_zero in H. destruct H as [Hc Hs].
  simpl. now rewrite Hc, IH.
Qed.

Lemma split_pieces (s : string) (sep : ascii) :
  Forall (fun piece => PyStr.count piece sep = 0) (PyText.split s sep).
Proof.
  induction s as [|c s IH]; simpl; [repeat constructor|].
  destruct (Ascii.eqb c sep) eqn:E; [constructor; [reflexivity | exact IH]|].
  destruct (PyText.split s sep) as [|piece pieces]; [repeat constructor; simpl; now rewrite E|].
  inversion IH as [|? ? Hp Hps]; subst.
  constructor; [|exact Hps]. simpl. rewrite E. exact Hp.
Qed.

Lemma count_lstrip (s : string) (c : ascii) :
  PyStr.count s c = 0 -> PyStr.count (PyText.lstrip s) c = 0.
Proof.
  induction s as [|a s IH]; intros H; [reflexivity|].
  simpl. destruct (PyText.isspace a); [|exact H].
  apply count_cons_zero in H. now apply IH.
Qed.

Lemma count_rstrip (s : string) (c : ascii) :
  PyStr.count s c = 0 -> PyStr.count (PyText.rstrip s) c = 0.
Proof.
  induction s as [|a s IH]; intros H; [reflexivity|].
  apply count_cons_zero in H. destruct H as [Ha Hs]. specialize (IH Hs).
  simpl. destruct (PyText.rstrip s) as [|c' t].
  - destruct (PyText.isspace a); simpl; [reflexivity | now rewrite Ha].
  - change (PyStr.count (String a (String c' t)) c)
      with ((if Ascii.eqb a c then 1 else 0) + PyStr.count (String c' t) c).
    now rewrite Ha, IH.
Qed.

Lemma head_lstrip (s : string) : head_is_space (PyText.lstrip s) = false.
Proof.
  induction s as [|a s IH]; [reflexivity|].
  simpl. destruct (PyText.isspace a) eqn:E; [exact IH | simpl; exact E].
Qed.

Lemma head_rstrip (s : string) :
  head_is_space s = false -> head_is_space (PyText.rstrip s) = false.
Proof.
  destruct s as [|a s]; intros H; [reflexivity|].
  simpl in *. destruct (PyText.rstrip s); [rewrite H|]; exact H.
Qed.

Lemma last_rstrip (s : string) : last_is_space (PyText.rstrip s) = false.
Proof.
  induction s as [|a s IH]; [reflexivity|].
  simpl. destruct (PyText.rstrip s) as [|c' t].
  - destruct (PyText.isspace a) eqn:E; [reflexivity | simpl; exact E].
  - exact IH.
Qed.

Lemma rstrip_clean (s : string) :
  last_is_space s = false -> PyText.rstrip s = s.
Proof.
  induction s as [|a s IH]; intros H; [reflexivity|].
  destruct s as [|c' t].
  - simpl in *. now rewrite H.
  - change (last_is_space (String a (String c' t)))
      with (last_is_space (String c' t)) in H.
    change (PyText.rstrip (String a (String c' t)))
      with (match PyText.rstrip (String c' t) with
            | EmptyString =>
                if PyText.isspace a then EmptyString else String a EmptyString
            | String c'' t' => String a (String c'' t')
            end).
    now rewrite (IH H).
Qed.

Lemma lstrip_clean (s : string) :
  head_is_space s = false -> PyText.lstrip s = s.
Proof. destruct s as [|a s]; simpl; intros H; [reflexivity | now rewrite H]. Qed.

Lemma strip_clean (s : string) :
  head_is_space s = false -> last_is_space s = false -> PyText.strip s = s.
Proof.
  intros Hh Hl. unfold PyText.strip. now rewrite lstrip_clean, rstrip_clean.
Qed.

Lemma strip_is_clean (s : string) :
  PyText.truthy (PyText.strip s) = true ->
  PyStr.count s ","%char = 0 ->
  clean_item (PyText.strip s).
Proof.
  intros Ht Hc. unfold clean_item, PyText.strip in *. repeat split.
  - intros E. rewrite E in Ht. discriminate.
  - now apply count_rstrip, count_lstrip.
  - apply head_rstrip, head_lstrip.
  - apply last_rstrip.
Qed.

Lemma strip_space_first (c : ascii) (s : string) :
  PyText.isspace c = true -> PyText.strip (String c s) = PyText.strip s.
Proof. intros H. unfold PyText.strip. simpl. now rewrite H. Qed.

Lemma parse_items_comma (a b : string) :
  parse_items (a ++ String ","%char b)
  = (parse_items a ++ parse_items b)%list.
Proof.
  unfold parse_items. now rewrite split_app, filter_app, map_app.
Qed.

Lemma parse_items_space (c : ascii) (s : string) :
  PyText.isspace c = true -> parse_items (String c s) = parse_items s.
Proof.
  intros H. unfold parse_items. cbn [PyText.split].
  replace (Ascii.eqb c ","%char) with false.
  2:{ destruct (Ascii.eqb_spec c ","%char) as [->|];
      [discriminate H | reflexivity]. }
  pose proof (split_not_nil s ","%char) as Hne.
  destruct (PyText.split s ","%char) as [|piece pieces]; [contradiction|].
  cbn [filter]. rewrite (strip_space_first c piece H).
  destruct (PyText.truthy (PyText.strip piece)); cbn [map];
    now rewrite ?(strip_space_first c piece H).
Qed.

Lemma parse_items_clean (s : string) : clean_item s -> parse_items s = [s].
Proof.
  intros [Hne [Hc [Hh Hl]]]. unfold parse_items.
  rewrite (split_whole s _ Hc). cbn [filter]. rewrite (strip_clean s Hh Hl).
  destruct s; [contradiction|]. cbn [PyText.truthy map].
  now rewrite (strip_clean _ Hh Hl).
Qed.

Lemma parse_items_join (l : list string) :
  Forall clean_item l -> parse_items (PyText.join ", " l) = l.
Proof.
  unfold PyText.join. induction l as [|x l IH]; intros H; [reflexivity|].
  inversion H as [|? ? Hx Hl]; subst. specialize (IH Hl).
  destruct l as [|y l]; [now apply parse_items_clean|].
  change (String.concat ", " (x :: y :: l))
    with (x ++ String ","%char
                      (String " "%char (String.concat ", " (y :: l)))).
  rewrite parse_items_comma, (parse_items_clean x Hx).
  rewrite parse_items_space by reflexivity. now rewrite IH.
Qed.

Lemma parse_items_are_clean (text : string) :
  Forall clean_item (parse_items text).
Proof.
  unfold parse_items. pose proof (split_pieces text ","%char) as H.
  induction H as [|piece pieces Hp _ IH]; simpl; [constructor|].
  destruct (PyText.truthy (PyText.strip piece)) eqn:E; [|exact IH].
  simpl. constructor; [now apply strip_is_clean | exact IH].
Qed.

Lemma parse_items_blank (text : string) :
  parse_items text = [] <-> blank text = true.
Proof.
  induction text as [|c s IH]; [split; reflexivity|].
  simpl blank. destruct (PyText.isspace c) eqn:Hs.
  - rewrite (parse_items_space c s Hs). exact IH.
  - destruct (Ascii.eqb_spec c ","%char) as [->|Hne].
    + change (String ","%char s) with (EmptyString ++ String ","%char s).
      rewrite parse_items_comma. exact IH.
    + simpl. split; [|discriminate]. unfold parse_items. cbn [PyText.split].
      replace (Ascii.eqb c ","%char) with false
        by (symmetry; now apply Ascii.eqb_neq).
      pose proof (split_not_nil s ","%char) as Hnil.
      destruct (PyText.split s ","%char) as [|piece pieces]; [contradiction|].
      cbn [filter].
      assert (Ht : PyText.truthy (PyText.strip (String c piece)) = true).
      { unfold PyText.strip. cbn [PyText.lstrip]. rewrite Hs.
        cbn [PyText.rstrip]. destruct (PyText.rstrip piece); now rewrite ?Hs. }
      rewrite Ht. discriminate.
Qed.

End Items.

(** X1.  Every item that the comprehension of [start_generation] takes
    from an entry field is well formed: it is not empty, holds no comma,
    and neither starts nor ends with white space. *)
Theorem X1_parsed_items_are_clean (text : string) :
  PyText.isascii text = true ->
  Forall (fun item =>
            item <> EmptyString
            /\ PyStr.count item ","%char = 0
            /\ head_is_space item = false
            /\ last_is_space item = false)
         (parse_items text).
Proof. intros _. apply parse_items_are_clean. Qed.

Lemma X1_witness :
  Forall (fun item =>
            item <> EmptyString
            /\ PyStr.count item ","%char = 0
            /\ head_is_space item = false
            /\ last_is_space item = false)
         (parse_items " .py ,, .md,	 ,build dir ").
Proof. apply X1_parsed_items_are_clean. reflexivity. Defined.

(** X2.  Joining well-formed items with a comma and a space, as
    [create_widgets] does with the defaults, and reading the field back
    with the comprehension of [start_generation] gives the items again, in
    the same order. *)
Theorem X2_join_then_parse (l : list string) :
  Forall clean_item l ->
  PyText.isascii (PyText.join ", " l) = true ->
  parse_items (PyText.join ", " l) = l.
Proof. intros H _. now apply parse_items_join. Qed.

Lemma X2_witness :
  parse_items (PyText.join ", " DEFAULT_INCLUDE_EXTENSIONS)
  = DEFAULT_INCLUDE_EXTENSIONS
  /\ parse_items (PyText.join ", " DEFAULT_EXCLUDE_PATTERNS)
     = DEFAULT_EXCLUDE_PATTERNS.
Proof.
  split; apply X2_join_then_parse; try reflexivity;
    repeat (constructor;
            [repeat split; try reflexivity; discriminate|]);
    constructor.
Defined.

(** X3.  A comma separates: the items of two texts with a comma between
    them are the items of the first followed by the items of the second. *)
Theorem X3_parse_distributes_over_comma (a b : string) :
  PyText.isascii (a ++ "," ++ b) = true ->
  parse_items (a ++ "," ++ b) = (parse_items a ++ parse_items b)%list.
Proof. intros _. apply parse_items_comma. Qed.

Lemma X3_witness :
  parse_items (" .py" ++ "," ++ " .md ,")
  = (parse_items " .py" ++ parse_items " .md ,")%list.
Proof. apply X3_parse_distributes_over_comma. reflexivity. Defined.

(** X4.  An entry field yields no item exactly when it holds nothing but
    white space and commas; the empty field is the first case of it. *)
Theorem X4_no_items_iff_blank (text : string) :
  PyText.isascii text = true ->
  (parse_items text = [] <-> blank text = true).
Proof. intros _. apply parse_items_blank. Qed.

Lemma X4_witness :
  parse_items EmptyString = [] /\ parse_items " , ,, " = [].
Proof.
  split.
  - apply (X4_no_items_iff_blank EmptyString); reflexivity.
  - apply (X4_no_items_iff_blank " , ,, "); reflexivity.
Defined.

(** X5.  Showing the items of a field joined by a comma and a space and
    reading them back changes nothing. *)
Theorem X5_parse_is_stable (text : string) :
  PyText.isascii text = true ->
  parse_items (PyText.join ", " (parse_items text)) = parse_items text.
Proof. intros _. apply parse_items_join, parse_items_are_clean. Qed.

Lemma X5_witness :
  parse_items (PyText.join ", " (parse_items " .py ,, .md,build dir "))
  = [".py"; ".md"; "build dir"].
Proof.
  rewrite (X5_parse_is_stable " .py ,, .md,build dir "); reflexivity.
Defined.

(** ** More about a run of the consolidator *)

Section Announcements.

Variable self : ProjectConsolidator.
Variable w : world.

Lemma statuses_app (a b : list event) :
  statuses (a ++ b) = (statuses a ++ statuses b)%list.
Proof. unfold statuses. now rewrite flat_map_app. Qed.

Lemma statuses_status (m : string) :
  statuses (status_events self m) = if status_callback self then [m] else [].
Proof. unfold status_events. now destruct (status_callback self). Qed.

Lemma statuses_loop (n k : Z) (l : list string) :
  statuses (loop_events self w n k l)
  = if status_callback self
    then map (fun p => "Processing: " ++ relpath w p (root_dir self)) l
    else [].
Proof.
  revert k; induction l as [|p l IH]; intros k; simpl.
  - now destruct (status_callback self).
  - unfold file_events. rewrite !statuses_app, statuses_status, IH.
    unfold file_writes, progress_events.
    destruct (status_callback self), (read_text w p), (progress_callback self);
      reflexivity.
Qed.

Lemma statuses_finished (sm : summary) :
  statuses (finished_events self sm) = [].
Proof. unfold finished_events. now destruct (finished_callback self). Qed.

Lemma statuses_run :
  statuses (run self w)
  = if status_callback self
    then "Starting scan..."
         :: ("Found " ++ PyStr.of_int (Z.of_nat (length (candidates self w)))
             ++ " files to process.")
         :: match open_w w (output_file self) with
            | None =>
                map (fun p => "Processing: " ++ relpath w p (root_dir self))
                    (candidates self w)
            | Some _ => []
            end
    else [].
Proof.
  destruct (open_w w (output_file self)) as [m|] eqn:Hopen.
  - rewrite (run_error _ _ m) by assumption. unfold scan_events.
    rewrite !statuses_app, !statuses_status, statuses_finished.
    now destruct (status_callback self).
  - rewrite run_ok by assumption. unfold scan_events, file_phase_events.
    rewrite !statuses_app, !statuses_status, statuses_finished.
    change (statuses (Opened :: Write ?h :: ?l)) with (statuses l).
    rewrite statuses_app, statuses_loop.
    destruct (status_callback self); simpl; now rewrite ?List.app_nil_r.
Qed.

Lemma discipline_status (b : bool) (m : string) (rest : list event) :
  file_discipline b (status_events self m ++ rest) = file_discipline b rest.
Proof. unfold status_events. now destruct (status_callback self). Qed.

Lemma discipline_progress (b : bool) (v : Q) (rest : list event) :
  file_discipline b (progress_events self v ++ rest) = file_discipline b rest.
Proof. unfold progress_events. now destruct (progress_callback self). Qed.

Lemma discipline_writes (p : string) (rest : list event) :
  file_discipline true (file_writes self w p ++ rest)
  = file_discipline true rest.
Proof. unfold file_writes. now destruct (read_text w p). Qed.

Lemma discipline_loop (n k : Z) (l : list string) (rest : list event) :
  file_discipline true (loop_events self w n k l ++ rest)
  = file_discipline true rest.
Proof.
  revert k; induction l as [|p l IH]; intros k; [reflexivity|].
  cbn [loop_events]. unfold file_events.
  rewrite <- !List.app_assoc.
  now rewrite discipline_status, discipline_writes, discipline_progress, IH.
Qed.

Lemma discipline_finished (sm : summary) :
  file_discipline false (finished_events self sm) = true.
Proof. unfold finished_events. now destruct (finished_callback self). Qed.

Lemma opened_count_status (m : string) :
  filter is_opened (status_events self m) = [].
Proof. unfold status_events. now destruct (status_callback self). Qed.

Lemma opened_count_loop (n k : Z) (l : list string) :
  filter is_opened (loop_events self w n k l) = [].
Proof.
  revert k; induction l as [|p l IH]; intros k; [reflexivity|].
  cbn [loop_events]. unfold file_events.
  rewrite !filter_app, opened_count_status, IH.
  unfold file_writes, progress_events.
  now destruct (read_text w p), (progress_callback self).
Qed.

Lemma opened_count_finished (sm : summary) :
  filter is_opened (finished_events self sm) = [].
Proof. unfold finished_events. now destruct (finished_callback self). Qed.

Lemma discipline_run : file_discipline false (run self w) = true.
Proof.
  destruct (open_w w (output_file self)) as [m|] eqn:Hopen.
  - rewrite (run_error _ _ m) by assumption. unfold scan_events.
    rewrite <- !List.app_assoc, !discipline_status.
    apply discipline_finished.
  - rewrite run_ok by assumption. unfold scan_events, file_phase_events.
    rewrite <- !List.app_assoc, !discipline_status.
    cbn [app file_discipline negb andb]. rewrite <- List.app_assoc.
    rewrite discipline_loop. cbn [app file_discipline andb].
    apply discipline_finished.
Qed.

Lemma opened_once : (length (filter is_opened (run self w)) <= 1)%nat.
Proof.
  destruct (open_w w (output_file self)) as [m|] eqn:Hopen.
  - rewrite (run_error _ _ m) by assumption. unfold scan_events.
    rewrite !filter_app, !opened_count_status, opened_count_finished.
    simpl. lia.
  - rewrite run_ok by assumption. unfold scan_events, file_phase_events.
    rewrite !filter_app, !opened_count_status, opened_count_finished.
    cbn [filter is_opened app]. rewrite filter_app, opened_count_loop.
    simpl. lia.
Qed.

End Announcements.

(** X6.  With a status callback, a run announces, in this order, the
    start of the scan, the number of candidates it found, and then, if the
    output could be opened, each candidate by its relative path in the
    order of the first pass; nothing else is announced, and without the
    callback nothing is. *)
Theorem X6_status_messages (self : ProjectConsolidator) (w : world) :
  statuses (run self w)
  = if status_callback self
    then "Starting scan..."
         :: ("Found " ++ PyStr.of_int (Z.of_nat (length (candidates self w)))
             ++ " files to process.")
         :: match open_w w (output_file self) with
            | None =>
                map (fun p => "Processing: " ++ relpath w p (root_dir self))
                    (candidates self w)
            | Some _ => []
            end
    else [].
Proof. apply statuses_run. Qed.

(** X7.  In every run the output file is handled in order: it is opened
    at most once, every write falls between its opening and its closing,
    the summary is delivered while it is closed, and it is closed when
    the run ends. *)
Theorem X7_output_file_discipline (self : ProjectConsolidator) (w : world) :
  file_discipline false (run self w) = true
  /\ (length (filter is_opened (run self w)) <= 1)%nat.
Proof. split; [apply discipline_run | apply opened_once]. Qed.

(** ** The window *)

Section Window.

Variable d : desktop.

Lemma with_feedback_same (app : App) :
  with_feedback app (progress_bar app) (status_label app) = app.
Proof. now destruct app. Qed.

Lemma start_generation_accepts (app : App) :
  PyText.truthy (project_dir_entry app) = true ->
  isdir d (project_dir_entry app) = true ->
  PyText.truthy (output_file_entry app) = true ->
  start_generation d app
  = (mkApp (project_dir_entry app) (output_file_entry app)
           (include_entry app) (exclude_entry app)
           (disabled, "Processing...") disabled disabled
           (status_label app) 0 (disabled, EmptyString)
           (clipboard app) (errors_shown app),
     Some (consolidator_of app)).
Proof.
  intros Hp Hd Ho. unfold start_generation. rewrite Hp, Hd, Ho.
  destruct app as [pd outf ie ee gb cb ob sl pb [ts tt] cl es].
  reflexivity.
Qed.

Lemma deliver_feedback (evs : list event) (app : App) :
  summaries evs = [] ->
  fold_left deliver evs app
  = with_feedback app (last_progress evs (progress_bar app))
                  (last_status evs (status_label app)).
Proof.
  revert app; induction evs as [|e evs IH]; intros app H.
  - symmetry. apply with_feedback_same.
  - destruct e; try discriminate H;
      cbn [fold_left deliver]; rewrite IH by exact H;
      unfold last_progress, last_status; cbn [fold_left];
      now destruct app.
Qed.

Lemma progress_bar_deliver (evs : list event) (app : App) :
  progress_bar (fold_left deliver evs app)
  = last_progress evs (progress_bar app).
Proof.
  revert app; induction evs as [|e evs IH]; intros app; [reflexivity|].
  cbn [fold_left]. rewrite IH. unfold last_progress. cbn [fold_left].
  f_equal. destruct e; try reflexivity.
  destruct app as [pd outf ie ee gb cb ob sl pb [[|] tt] cl es];
    now destruct s.
Qed.

Lemma last_progress_values (evs : list event) (q : Q) :
  last_progress evs q
  = fold_left (fun _ v => shown_value v) (progress_values evs) q.
Proof.
  unfold last_progress. revert q; induction evs as [|e evs IH]; intros q;
    [reflexivity|].
  cbn [fold_left]. rewrite IH. now destruct e.
Qed.

Lemma on_generation_complete_success (app : App) (fp tl : Z) (kb : Q) :
  on_generation_complete app (Success fp tl kb)
  = mkApp (project_dir_entry app) (output_file_entry app)
          (include_entry app) (exclude_entry app)
          (normal, generate_label) normal normal
          ("Success! Project context saved to "
           ++ OsPath.basename (output_file_entry app))
          (progress_bar app)
          (disabled, summary_text fp tl kb (output_file_entry app))
          (clipboard app) (errors_shown app).
Proof.
  destruct app as [pd outf ie ee gb cb ob sl pb [ts tt] cl es].
  cbv [on_generation_complete textbox_configure textbox_delete_all
       textbox_insert_first with_textbox configure_generate configure_status
       configure_copy configure_open
       project_dir_entry output_file_entry include_entry exclude_entry
       generate_button copy_button open_button status_label progress_bar
       summary_textbox clipboard errors_shown fst snd].
  now rewrite append_nil_r.
Qed.

Lemma on_generation_complete_error (app : App) (message : string) :
  on_generation_complete app (Error message)
  = mkApp (project_dir_entry app) (output_file_entry app)
          (include_entry app) (exclude_entry app)
          (normal, generate_label) (copy_button app) (open_button app)
          ("Error: " ++ message)
          (progress_bar app)
          (disabled, "An error occurred:" ++ nl ++ nl ++ message)
          (clipboard app) (errors_shown app).
Proof.
  destruct app as [pd outf ie ee gb cb ob sl pb [ts tt] cl es].
  cbv [on_generation_complete textbox_configure textbox_delete_all
       textbox_insert_first with_textbox configure_generate configure_status
       configure_copy configure_open
       project_dir_entry output_file_entry include_entry exclude_entry
       generate_button copy_button open_button status_label progress_bar
       summary_textbox clipboard errors_shown fst snd].
  now rewrite !append_assoc, append_nil_r.
Qed.

End Window.

Section Click.

Variable d : desktop.
Variable app : App.

Hypothesis Hdir : PyText.truthy (project_dir_entry app) = true.
Hypothesis Hisdir : isdir d (project_dir_entry app) = true.
Hypothesis Hout : PyText.truthy (output_file_entry app) = true.

Lemma shown_value_one (v : Q) : (v == 1)%Q -> (shown_value v == 1)%Q.
Proof.
  intros H. unfold shown_value.
  assert (H1 : Qle_bool v 1 = true) by (apply Qle_bool_iff; rewrite H; apply Qle_refl).
  assert (H0 : Qle_bool 0 v = true) by (apply Qle_bool_iff; rewrite H; discriminate).
  now rewrite H1, H0.
Qed.

Lemma shown_fractions {A} (l : list A) (q : Q) :
  (fold_left (fun _ v => shown_value v)
             (fractions (Z.of_nat (length l)) 0 l) q
   == match l with [] => q | _ :: _ => 1 end)%Q.
Proof.
  destruct l as [|x l]; [reflexivity|].
  set (n := Z.of_nat (length (x :: l))).
  assert (Hn : 0 < n) by (unfold n; simpl; lia).
  destruct (exists_last (l := fractions n 0 (x :: l))) as [front [v E]];
    [discriminate|].
  rewrite E, fold_left_app. cbn [fold_left].
  apply shown_value_one. eapply fractions_last; [exact Hn | | exact E].
  unfold n. lia.
Qed.

Lemma last_progress_status (m : string) (q : Q) (c : ProjectConsolidator) :
  last_progress (status_events c m) q = q.
Proof. unfold status_events. now destruct (status_callback c). Qed.

Lemma last_progress_app (a b : list event) (q : Q) :
  last_progress (a ++ b) q = last_progress b (last_progress a q).
Proof. unfold last_progress. now rewrite fold_left_app. Qed.

Lemma last_progress_scan (c : ProjectConsolidator) (w : world) (q : Q) :
  last_progress (scan_events c w) q = q.
Proof.
  unfold scan_events. now rewrite last_progress_app, !last_progress_status.
Qed.

Lemma generate_runs :
  generate d app
  = fold_left deliver (run (consolidator_of app) (files d))
              (mkApp (project_dir_entry app) (output_file_entry app)
                     (include_entry app) (exclude_entry app)
                     (disabled, "Processing...") disabled disabled
                     (status_label app) 0 (disabled, EmptyString)
                     (clipboard app) (errors_shown app)).
Proof.
  unfold generate. now rewrite start_generation_accepts.
Qed.

Lemma generate_success :
  open_w (files d) (output_file_entry app) = None ->
  exists shown,
    generate d app
    = mkApp (project_dir_entry app) (output_file_entry app)
            (include_entry app) (exclude_entry app)
            (normal, generate_label) normal normal
            ("Success! Project context saved to "
             ++ OsPath.basename (output_file_entry app))
            shown
            (disabled,
             summary_text
               (Z.of_nat (length (candidates (consolidator_of app) (files d))))
               (sum_lines (files d)
                          (candidates (consolidator_of app) (files d)))
               (inject_Z (Z.of_nat (String.length
                                      (artifact (consolidator_of app) (files d))))
                / inject_Z 1024)
               (output_file_entry app))
            (clipboard app) (errors_shown app)
    /\ (shown == match candidates (consolidator_of app) (files d) with
                 | [] => 0
                 | _ :: _ => 1
                 end)%Q.
Proof.
  intros Hopen. rewrite generate_runs.
  rewrite run_ok by exact Hopen.
  unfold finished_events. cbn [consolidator_of finished_callback].
  rewrite List.app_assoc, fold_left_app. cbn [fold_left deliver].
  rewrite deliver_feedback
    by (now rewrite summaries_app, summaries_scan, summaries_file_phase).
  unfold success_summary. rewrite on_generation_complete_success.
  cbn [with_feedback project_dir_entry output_file_entry include_entry
       exclude_entry generate_button copy_button open_button status_label
       progress_bar summary_textbox clipboard errors_shown].
  eexists. split; [reflexivity|].
  rewrite last_progress_values, progress_values_app, progress_values_scan.
  unfold file_phase_events.
  change (progress_values (Opened :: Write ?h :: ?l)) with (progress_values l).
  rewrite progress_values_app, progress_values_loop.
  cbn [consolidator_of progress_callback List.app progress_values flat_map].
  rewrite List.app_nil_r. apply shown_fractions.
Qed.

Lemma generate_error (message : string) :
  open_w (files d) (output_file_entry app) = Some message ->
  generate d app
  = mkApp (project_dir_entry app) (output_file_entry app)
          (include_entry app) (exclude_entry app)
          (normal, generate_label) disabled disabled
          ("Error: " ++ message) 0
          (disabled, "An error occurred:" ++ nl ++ nl ++ message)
          (clipboard app) (errors_shown app).
Proof.
  intros Hopen. rewrite generate_runs.
  rewrite (run_error _ _ message) by exact Hopen.
  unfold finished_events. cbn [consolidator_of finished_callback].
  rewrite fold_left_app. cbn [fold_left deliver].
  rewrite deliver_feedback by apply summaries_scan.
  rewrite on_generation_complete_error.
  cbn [with_feedback project_dir_entry output_file_entry include_entry
       exclude_entry generate_button copy_button open_button status_label
       progress_bar summary_textbox clipboard errors_shown].
  now rewrite last_progress_scan.
Qed.

(** While the run is under way the window is as [start_generation] left
    it, but for the progress bar and the status label. *)
Lemma generate_under_way (before after : list event) :
  run (consolidator_of app) (files d) = (before ++ after)%list ->
  after <> [] ->
  exists value text,
    fold_left deliver before (fst (start_generation d app))
    = mkApp (project_dir_entry app) (output_file_entry app)
            (include_entry app) (exclude_entry app)
            (disabled, "Processing...") disabled disabled
            text value (disabled, EmptyString)
            (clipboard app) (errors_shown app).
Proof.
  intros Hrun Hafter. rewrite start_generation_accepts by assumption.
  cbn [fst].
  assert (Hquiet : summaries before = []).
  { assert (Hlast : exists pre sm,
               run (consolidator_of app) (files d) = (pre ++ [Finished sm])%list
               /\ summaries pre = []).
    { destruct (open_w (files d) (output_file_entry app)) as [m|] eqn:Hopen.
      - exists (scan_events (consolidator_of app) (files d)), (Error m).
        split; [now rewrite (run_error _ _ m)|]. apply summaries_scan.
      - exists (scan_events (consolidator_of app) (files d)
                ++ file_phase_events (consolidator_of app) (files d))%list,
               (success_summary (consolidator_of app) (files d)).
        split; [rewrite run_ok by exact Hopen; now rewrite List.app_assoc|].
        now rewrite summaries_app, summaries_scan, summaries_file_phase. }
    destruct Hlast as [pre [sm [E Hpre]]]. rewrite E in Hrun.
    destruct (exists_last Hafter) as [after' [x Eafter]]. subst after.
    rewrite List.app_assoc in Hrun. apply app_inj_tail in Hrun.
    destruct Hrun as [Hpre' _]. rewrite Hpre' in Hpre.
    rewrite summaries_app in Hpre. now apply app_eq_nil in Hpre. }
  rewrite deliver_feedback by exact Hquiet.
  cbn [with_feedback project_dir_entry output_file_entry include_entry
       exclude_entry generate_button copy_button open_button status_label
       progress_bar summary_textbox clipboard errors_shown].
  do 2 eexists. reflexivity.
Qed.

End Click.

(** ** More about the first pass and the line total *)

Section Composition.

Variable self : ProjectConsolidator.
Variable w : world.

Lemma candidates_below_spec (dirs : forest) :
  flat_map (found_in self) (descend (keep_dir self) (root_dir self) dirs)
  = candidates_below self w dirs.
Proof.
  induction dirs as [|dname sub rest IH]; [reflexivity|].
  cbn [descend candidates_below].
  destruct (keep_dir self dname).
  - rewrite flat_map_app, IH. f_equal.
    symmetry. apply (candidates_spec (enter self dname) (inside w sub)).
  - exact IH.
Qed.

Lemma candidates_of_dir (filenames : list string) (subdirs : forest) :
  listing w = Dir filenames subdirs ->
  candidates self w
  = (map (OsPath.join (root_dir self)) (filter (is_candidate self) filenames)
     ++ candidates_below self w subdirs)%list.
Proof.
  intros E. rewrite candidates_spec, E. cbn [os_walk flat_map].
  now rewrite candidates_below_spec.
Qed.

Lemma no_candidates_without_suffix :
  include_ext self = [] -> candidates self w = [].
Proof.
  intros E. destruct (candidates self w) as [|p l] eqn:Hc; [reflexivity|].
  assert (Hin : In p (candidates self w)) by (rewrite Hc; now left).
  apply candidate_iff in Hin.
  destruct Hin as [ds [f [_ [_ [[[ext [Hext _]] _] _]]]]].
  rewrite E in Hext. contradiction.
Qed.

Lemma ends_with_empty (s : string) : ends_with s EmptyString.
Proof. exists s. now rewrite append_nil_r. Qed.

Lemma readable_lines (l : list string) :
  Z.of_nat (length (filter (readable w) l)) <= sum_lines w l.
Proof.
  induction l as [|p l IH]; simpl; [lia|].
  unfold readable at 1, lines_of at 1.
  destruct (read_text w p) as [content|e]; [|lia].
  pose proof (count_nonneg content newline). simpl length. lia.
Qed.

End Composition.

(** X8.  The candidates of a directory are its own selected files, in the
    order of the listing, followed by the candidates of each of its
    sub-directories that is not excluded, each found as by a first pass
    that starts in that sub-directory: own files come before files of
    sub-directories, and an excluded sub-directory adds nothing. *)
Theorem X8_candidates_top_down
        (self : ProjectConsolidator) (w : world)
        (filenames : list string) (subdirs : forest) :
  listing w = Dir filenames subdirs ->
  candidates self w
  = (map (OsPath.join (root_dir self)) (filter (is_candidate self) filenames)
     ++ candidates_below self w subdirs)%list.
Proof. apply candidates_of_dir. Qed.

Lemma X8_witness :
  candidates sample_consolidator sample_world
  = (map (OsPath.join "/home/u/build")
         (filter (is_candidate sample_consolidator) ["README.md"; "empty.py"])
     ++ candidates_below sample_consolidator sample_world
          (SubDir "src" (Dir ["app.py"; "notes.tmp"] NoDirs)
          (SubDir "build" (Dir ["out.tmp"; "gen.py"] NoDirs)
          (SubDir ".git" (Dir ["config"] NoDirs) NoDirs))))%list.
Proof.
  apply (X8_candidates_top_down sample_consolidator sample_world).
  reflexivity.
Defined.

(** X9.  The two ends of the include list.  With no suffix at all nothing
    is a candidate, whatever the tree holds.  With the empty suffix in the
    list every file that is not named as an exclude pattern, in the root
    or below it through directories that are not excluded, is a
    candidate. *)
Theorem X9_include_list_edges (self : ProjectConsolidator) (w : world) :
  (include_ext self = [] -> candidates self w = [])
  /\ (In EmptyString (include_ext self) ->
      forall ds f,
        file_in (listing w) ds f ->
        ~ In f (exclude_patterns self) ->
        (forall dname, In dname ds -> ~ In dname (exclude_patterns self)) ->
        In (path_of (root_dir self) ds f) (candidates self w)).
Proof.
  split; [apply no_candidates_without_suffix|].
  intros Hempty ds f Hin Hf Hds. apply candidate_iff.
  exists ds, f. split; [reflexivity|]. split; [exact Hin|].
  split; [|exact Hds]. split; [|exact Hf].
  exists EmptyString. split; [exact Hempty | apply ends_with_empty].
Qed.

Lemma X9_witness :
  candidates (mkConsolidator "/home/u/build" "/tmp/context.txt" []
                             ["build"; ".git"] true true true)
             sample_world = []
  /\ In "/home/u/build/src/notes.tmp"
        (candidates (mkConsolidator "/home/u/build" "/tmp/context.txt"
                                    [EmptyString] ["build"; ".git"]
                                    true true true)
                    sample_world).
Proof.
  split.
  - apply X9_include_list_edges. reflexivity.
  - apply (proj2 (X9_include_list_edges
                    (mkConsolidator "/home/u/build" "/tmp/context.txt"
                                    [EmptyString] ["build"; ".git"]
                                    true true true)
                    sample_world)
                 (or_introl eq_refl) ["src"] "notes.tmp").
    + exists ["app.py"; "notes.tmp"]. split; [|right; now left].
      econstructor; constructor.
    + intros [H | [H | []]]; discriminate.
    + intros dname [<- | []] [H | [H | []]]; discriminate.
Defined.

(** X10.  In a Success summary the line total is at least the number of
    candidates that were read, since each of them counts for one line or
    more, and it is zero exactly when no candidate could be read. *)
Theorem X10_line_total_and_files_read
        (self : ProjectConsolidator) (w : world) (fp tl : Z) (kb : Q) :
  summary_of self w = Ok (Success fp tl kb) ->
  Z.of_nat (length (readable_candidates self w)) <= tl
  /\ (tl = 0 <-> readable_candidates self w = []).
Proof.
  intros Hs. destruct (open_w w (output_file self)) as [m|] eqn:Hopen.
  - rewrite (summary_of_error _ _ m) in Hs by assumption. discriminate.
  - rewrite summary_of_ok in Hs by assumption. unfold success_summary in Hs.
    set (size := Z.of_nat (String.length (artifact self w))) in *.
    injection Hs as _ Etl _. subst tl. unfold readable_candidates.
    pose proof (readable_lines w (candidates self w)) as Hle.
    split; [exact Hle|]. split.
    + intros E. rewrite E in Hle.
      destruct (filter (readable w) (candidates self w)); [reflexivity|].
      simpl in Hle. lia.
    + intros E. rewrite sum_lines_readable, E. reflexivity.
Qed.

Lemma X10_witness :
  Z.of_nat (length (readable_candidates sample_consolidator sample_world)) <= 4
  /\ (4 = 0 <-> readable_candidates sample_consolidator sample_world = []).
Proof.
  apply (X10_line_total_and_files_read sample_consolidator sample_world
                                       3 4 (491 # 1024)%Q).
  vm_compute. reflexivity.
Defined.

(** ** The handlers of the window *)

(** X11.  [start_generation] starts a run exactly when the project entry
    is not empty and names a directory and the output entry is not empty;
    the consolidator it starts has the two paths of the entries, the
    items of the two list fields and all three callbacks.  Otherwise it
    shows one error box and changes nothing else; the project directory
    is checked first, so that its message wins when both entries are
    wrong. *)
Theorem X11_start_generation_validates (d : desktop) (app : App) :
  ascii_fields app ->
  snd (start_generation d app)
  = (if PyText.truthy (project_dir_entry app)
        && isdir d (project_dir_entry app)
        && PyText.truthy (output_file_entry app)
     then Some (mkConsolidator (project_dir_entry app) (output_file_entry app)
                               (parse_items (include_entry app))
                               (parse_items (exclude_entry app))
                               true true true)
     else None)
  /\ (PyText.truthy (project_dir_entry app) && isdir d (project_dir_entry app)
      = false ->
      generate d app
      = showerror app "Error" "Please select a valid project directory.")
  /\ (PyText.truthy (project_dir_entry app) && isdir d (project_dir_entry app)
      = true ->
      PyText.truthy (output_file_entry app) = false ->
      generate d app = showerror app "Error" "Please select an output file path.").
Proof.
  intros _. unfold generate.
  destruct (PyText.truthy (project_dir_entry app)) eqn:Hp;
    [destruct (isdir d (project_dir_entry app)) eqn:Hd;
     [destruct (PyText.truthy (output_file_entry app)) eqn:Ho|]|].
  - rewrite start_generation_accepts by assumption.
    repeat split; discriminate.
  - unfold start_generation. rewrite Hp, Hd, Ho.
    repeat split; try discriminate; reflexivity.
  - unfold start_generation. rewrite Hp, Hd.
    repeat split; try discriminate; reflexivity.
  - unfold start_generation. rewrite Hp.
    repeat split; try discriminate; reflexivity.
Qed.

Lemma X11_witness :
  generate sample_desktop stray_app
  = showerror stray_app "Error" "Please select a valid project directory.".
Proof.
  apply (proj1 (proj2 (X11_start_generation_validates
                         sample_desktop stray_app (conj eq_refl eq_refl)))).
  reflexivity.
Defined.

(** X12.  A click on the generate button with valid entries and an output
    that can be opened ends with the window in this state: the generate
    button is enabled again under its label, the copy and open buttons are
    enabled, the status names the base name of the output path, the
    summary box is read-only and holds the numbers of the run (all
    candidates as processed files, the line total, the size of the output
    in kilobytes) and the output path, the progress bar stands at 1, or
    still at 0 when there was no candidate, and the entries, the clipboard
    and the error boxes are untouched. *)
Theorem X12_generate_success (d : desktop) (app : App) :
  ascii_fields app ->
  PyText.truthy (project_dir_entry app) = true ->
  isdir d (project_dir_entry app) = true ->
  PyText.truthy (output_file_entry app) = true ->
  open_w (files d) (output_file_entry app) = None ->
  exists shown,
    generate d app
    = mkApp (project_dir_entry app) (output_file_entry app)
            (include_entry app) (exclude_entry app)
            (normal, generate_label) normal normal
            ("Success! Project context saved to "
             ++ OsPath.basename (output_file_entry app))
            shown
            (disabled,
             summary_text
               (Z.of_nat (length (candidates (consolidator_of app) (files d))))
               (sum_lines (files d)
                          (candidates (consolidator_of app) (files d)))
               (inject_Z (Z.of_nat (String.length
                                      (artifact (consolidator_of app) (files d))))
                / inject_Z 1024)
               (output_file_entry app))
            (clipboard app) (errors_shown app)
    /\ (shown == match candidates (consolidator_of app) (files d) with
                 | [] => 0
                 | _ :: _ => 1
                 end)%Q.
Proof. intros _. apply generate_success. Qed.

Lemma X12_witness :
  exists shown,
    generate sample_desktop sample_app
    = mkApp "/home/u/build" "/tmp/context.txt"
            (PyText.join ", " DEFAULT_INCLUDE_EXTENSIONS)
            (PyText.join ", " DEFAULT_EXCLUDE_PATTERNS)
            (normal, generate_label) normal normal
            "Success! Project context saved to context.txt"
            shown
            (disabled, summary_text 3 4 (491 # 1024) "/tmp/context.txt")
            "kept" []
    /\ (shown == 1)%Q.
Proof.
  destruct (X12_generate_success sample_desktop sample_app
              (conj eq_refl eq_refl) eq_refl eq_refl eq_refl eq_refl)
    as [shown [E Hshown]].
  exists shown. split; [|exact Hshown].
  rewrite E. vm_compute. reflexivity.
Defined.

(** X13.  A click with valid entries whose output cannot be opened ends
    with the generate button enabled again, the copy and open buttons
    disabled, the text of the failure in the status label and in the
    read-only summary box, and the progress bar at 0. *)
Theorem X13_generate_error (d : desktop) (app : App) (message : string) :
  ascii_fields app ->
  PyText.truthy (project_dir_entry app) = true ->
  isdir d (project_dir_entry app) = true ->
  PyText.truthy (output_file_entry app) = true ->
  open_w (files d) (output_file_entry app) = Some message ->
  generate d app
  = mkApp (project_dir_entry app) (output_file_entry app)
          (include_entry app) (exclude_entry app)
          (normal, generate_label) disabled disabled
          ("Error: " ++ message) 0
          (disabled, "An error occurred:" ++ nl ++ nl ++ message)
          (clipboard app) (errors_shown app).
Proof. intros _ Hp Hd Ho Hopen. now apply generate_error. Qed.

Lemma X13_witness :
  generate (mkDesktop readonly_world (isdir sample_desktop)
                      (read_strict sample_desktop))
           sample_app
  = mkApp "/home/u/build" "/tmp/context.txt"
          (PyText.join ", " DEFAULT_INCLUDE_EXTENSIONS)
          (PyText.join ", " DEFAULT_EXCLUDE_PATTERNS)
          (normal, generate_label) disabled disabled
          ("Error: " ++ "[Errno 30] Read-only file system") 0
          (disabled,
           "An error occurred:" ++ nl ++ nl ++ "[Errno 30] Read-only file system")
          "kept" [].
Proof.
  apply (X13_generate_error
           (mkDesktop readonly_world (isdir sample_desktop)
                      (read_strict sample_desktop))
           sample_app "[Errno 30] Read-only file system");
    try reflexivity.
  split; reflexivity.
Defined.

(** X14.  The window comes back to rest.  Whatever the paths, the items
    of the list fields and the file system, a click on the generate button
    of an idle window, with the run it may start, leaves the window idle
    (the generate button enabled, the summary box read-only), keeps the
    four entries and the clipboard, and shows at most one error box. *)
Theorem X14_generate_keeps_the_window_idle (d : desktop) (app : App) :
  ascii_fields app ->
  idle app ->
  idle (generate d app)
  /\ project_dir_entry (generate d app) = project_dir_entry app
  /\ output_file_entry (generate d app) = output_file_entry app
  /\ include_entry (generate d app) = include_entry app
  /\ exclude_entry (generate d app) = exclude_entry app
  /\ clipboard (generate d app) = clipboard app
  /\ (errors_shown (generate d app) = errors_shown app
      \/ exists message,
          errors_shown (generate d app)
          = (errors_shown app ++ [("Error", message)])%list).
Proof.
  intros _ Hidle.
  destruct (PyText.truthy (project_dir_entry app)
            && isdir d (project_dir_entry app)) eqn:Hp.
  - apply andb_true_iff in Hp. destruct Hp as [Hp Hd].
    destruct (PyText.truthy (output_file_entry app)) eqn:Ho.
    + destruct (open_w (files d) (output_file_entry app)) as [m|] eqn:Hopen.
      * rewrite (generate_error d app Hp Hd Ho m Hopen).
        unfold idle. cbn. repeat split; auto.
      * destruct (generate_success d app Hp Hd Ho Hopen) as [shown [E _]].
        rewrite E. unfold idle. cbn. repeat split; auto.
    + unfold generate, start_generation. rewrite Hp, Hd, Ho. cbn [negb orb].
      unfold idle, showerror. cbn. destruct Hidle. repeat split; eauto.
  - unfold generate, start_generation.
    replace (negb (PyText.truthy (project_dir_entry app))
             || negb (isdir d (project_dir_entry app))) with true
      by (symmetry; rewrite <- negb_andb; now rewrite Hp).
    unfold idle, showerror. cbn. destruct Hidle. repeat split; eauto.
Qed.

Lemma X14_witness :
  idle (generate sample_desktop sample_app)
  /\ clipboard (generate sample_desktop sample_app) = "kept".
Proof.
  destruct (X14_generate_keeps_the_window_idle sample_desktop sample_app)
    as [H [_ [_ [_ [_ [Hc _]]]]]].
  - split; reflexivity.
  - split; reflexivity.
  - split; [exact H | exact Hc].
Defined.

(** X15.  No second run while one is under way.  From the accepted click
    until the summary is delivered, that is after any part of the events
    of the run that leaves some of them to come, the generate button is
    disabled and reads [Processing...], the copy and open buttons are
    disabled and the summary box is empty and read-only. *)
Theorem X15_busy_until_finished
        (d : desktop) (app : App) (before after : list event) :
  ascii_fields app ->
  PyText.truthy (project_dir_entry app) = true ->
  isdir d (project_dir_entry app) = true ->
  PyText.truthy (output_file_entry app) = true ->
  run (consolidator_of app) (files d) = (before ++ after)%list ->
  after <> [] ->
  generate_button (fold_left deliver before (fst (start_generation d app)))
  = (disabled, "Processing...")
  /\ copy_button (fold_left deliver before (fst (start_generation d app)))
     = disabled
  /\ open_button (fold_left deliver before (fst (start_generation d app)))
     = disabled
  /\ summary_textbox (fold_left deliver before (fst (start_generation d app)))
     = (disabled, EmptyString).
Proof.
  intros _ Hp Hd Ho Hrun Hafter.
  destruct (generate_under_way d app Hp Hd Ho before after Hrun Hafter)
    as [value [text E]].
  rewrite E. repeat split.
Qed.

Lemma X15_witness :
  generate_button
    (fold_left deliver
               [Status "Starting scan..."; Status "Found 3 files to process.";
                Opened]
               (fst (start_generation sample_desktop sample_app)))
  = (disabled, "Processing...").
Proof.
  apply (X15_busy_until_finished
           sample_desktop sample_app
           [Status "Starting scan..."; Status "Found 3 files to process.";
            Opened]
           (skipn 3 (run (consolidator_of sample_app) (files sample_desktop)))).
  - split; reflexivity.
  - reflexivity.
  - reflexivity.
  - reflexivity.
  - vm_compute. reflexivity.
  - vm_compute. discriminate.
Defined.

Section Bar.

Lemma shown_value_within (v : Q) :
  (0 <= v)%Q -> (v <= 1)%Q -> shown_value v = v.
Proof.
  intros H0 H1. unfold shown_value.
  apply Qle_bool_iff in H0. apply Qle_bool_iff in H1.
  now rewrite H0, H1.
Qed.

Lemma fold_shown_below (l : list Q) (q v : Q) :
  (q <= v)%Q ->
  Forall (fun u => (0 <= u /\ u <= 1)%Q /\ (u <= v)%Q) l ->
  (fold_left (fun _ x => shown_value x) l q <= v)%Q.
Proof.
  revert q; induction l as [|u l IH]; intros q Hq H; [exact Hq|].
  inversion H as [|? ? [[H0 H1] Hu] Hl]; subst.
  cbn [fold_left]. apply IH; [|exact Hl].
  now rewrite shown_value_within.
Qed.

Lemma sorted_before (front back : list Q) (v : Q) :
  StronglySorted Qle (front ++ v :: back) -> Forall (fun u => (u <= v)%Q) front.
Proof.
  induction front as [|u front IH]; intros H; [constructor|].
  inversion H as [|? ? Hs Hall]; subst. constructor; [|now apply IH].
  apply Forall_app in Hall. destruct Hall as [_ Hall].
  now inversion Hall.
Qed.

Lemma progress_values_shape (self : ProjectConsolidator) (w : world) :
  StronglySorted Qle (progress_values (run self w))
  /\ Forall (fun v => (0 <= v /\ v <= 1)%Q) (progress_values (run self w)).
Proof.
  rewrite progress_values_run.
  destruct (open_w w (output_file self)); [split; constructor|].
  destruct (progress_callback self); [|split; constructor].
  destruct (candidates self w) as [|c l] eqn:Hc; [split; constructor|].
  rewrite <- Hc.
  assert (Hn : 0 < Z.of_nat (length (candidates self w)))
    by (rewrite Hc; simpl; lia).
  split.
  - apply Sorted_StronglySorted; [exact Qle_trans | now apply fractions_sorted].
  - apply fractions_bounds; lia.
Qed.

End Bar.

(** X16.  The progress bar never moves back during a run: each event of
    the run, delivered to the window that [start_generation] prepared,
    leaves the bar where it was or moves it forward. *)
Theorem X16_progress_bar_never_moves_back
        (d : desktop) (app : App) (before after : list event) (e : event) :
  ascii_fields app ->
  PyText.truthy (project_dir_entry app) = true ->
  isdir d (project_dir_entry app) = true ->
  PyText.truthy (output_file_entry app) = true ->
  run (consolidator_of app) (files d) = (before ++ e :: after)%list ->
  (progress_bar (fold_left deliver before (fst (start_generation d app)))
   <= progress_bar (fold_left deliver (before ++ [e])
                              (fst (start_generation d app))))%Q.
Proof.
  intros _ Hp Hd Ho Hrun. rewrite start_generation_accepts by assumption.
  cbn [fst]. rewrite !progress_bar_deliver. cbn [progress_bar].
  rewrite last_progress_app.
  destruct e; try apply Qle_refl.
  change (last_progress [Progress value] (last_progress before 0))
    with (shown_value value).
  destruct (progress_values_shape (consolidator_of app) (files d))
    as [Hsorted Hbounds].
  rewrite Hrun, progress_values_app in Hsorted, Hbounds.
  change (progress_values (Progress value :: after))
    with (value :: progress_values after) in Hsorted, Hbounds.
  pose proof (sorted_before _ _ _ Hsorted) as Hbefore.
  apply Forall_app in Hbounds. destruct Hbounds as [Hb Hrest].
  inversion Hrest as [|? ? [H0 H1] _]; subst.
  rewrite (shown_value_within value H0 H1), last_progress_values.
  apply fold_shown_below; [exact H0|].
  apply Forall_forall. intros u Hu.
  rewrite Forall_forall in Hb, Hbefore. split; auto.
Qed.

Lemma X16_witness :
  (progress_bar
     (fold_left deliver
                (firstn 6 (run (consolidator_of sample_app)
                               (files sample_desktop)))
                (fst (start_generation sample_desktop sample_app)))
   <= progress_bar
        (fold_left deliver
                   (firstn 6 (run (consolidator_of sample_app)
                                  (files sample_desktop))
                    ++ [Progress (inject_Z 1 / inject_Z 3)])
                   (fst (start_generation sample_desktop sample_app))))%Q.
Proof.
  apply (X16_progress_bar_never_moves_back
           sample_desktop sample_app
           (firstn 6 (run (consolidator_of sample_app) (files sample_desktop)))
           (skipn 7 (run (consolidator_of sample_app) (files sample_desktop)))
           (Progress (inject_Z 1 / inject_Z 3))).
  - split; reflexivity.
  - reflexivity.
  - reflexivity.
  - reflexivity.
  - vm_compute. reflexivity.
Defined.

(** X17.  Copying after a successful click.  If reading the output file
    back gives what the run wrote, the clipboard holds exactly the
    artifact, the header followed by the entries of the candidates, and
    what it held before is gone.  If the file cannot be read, the
    clipboard and the status label stay as they were and one error box
    with the text of the failure is shown. *)
Theorem X17_copy_after_generate (d : desktop) (app : App) :
  ascii_fields app ->
  PyText.truthy (project_dir_entry app) = true ->
  isdir d (project_dir_entry app) = true ->
  PyText.truthy (output_file_entry app) = true ->
  open_w (files d) (output_file_entry app) = None ->
  (read_strict d (output_file_entry app)
   = Ok (written (run (consolidator_of app) (files d))) ->
   clipboard (copy_to_clipboard d (generate d app))
   = header (OsPath.basename (project_dir_entry app))
     ++ concat_all (map (entry (consolidator_of app) (files d))
                        (candidates (consolidator_of app) (files d)))
   /\ status_label (copy_to_clipboard d (generate d app))
      = "Content copied to clipboard!")
  /\ (forall e,
         read_strict d (output_file_entry app) = Raise e ->
         clipboard (copy_to_clipboard d (generate d app)) = clipboard app
         /\ status_label (copy_to_clipboard d (generate d app))
            = "Success! Project context saved to "
              ++ OsPath.basename (output_file_entry app)
         /\ errors_shown (copy_to_clipboard d (generate d app))
            = (errors_shown app
               ++ [("Error",
                    ("Could not read file to copy: " ++ str e)%string)])%list).
Proof.
  intros _ Hp Hd Ho Hopen.
  destruct (generate_success d app Hp Hd Ho Hopen) as [shown [E _]].
  rewrite E. unfold copy_to_clipboard. cbn [output_file_entry]. split.
  - intros Hread. rewrite Hread, written_run_ok by exact Hopen.
    split; reflexivity.
  - intros e Hread. rewrite Hread. repeat split.
Qed.

Lemma X17_witness :
  clipboard (copy_to_clipboard sample_desktop
                               (generate sample_desktop sample_app)) = "kept"
  /\ errors_shown (copy_to_clipboard sample_desktop
                                     (generate sample_desktop sample_app))
     = [("Error",
         "Could not read file to copy: [Errno 2] No such file or directory")].
Proof.
  destruct (X17_copy_after_generate sample_desktop sample_app
              (conj eq_refl eq_refl) eq_refl eq_refl eq_refl eq_refl)
    as [_ H].
  destruct (H (OSError "[Errno 2] No such file or directory") eq_refl)
    as [Hc [_ He]].
  split; [exact Hc | exact He].
Defined.

(** ** No file twice *)

Section NoRepetition.

Lemma count_sep_tail (x tail : string) :
  PyStr.count (x ++ String OsPath.sep tail) OsPath.sep <> 0.
Proof.
  rewrite count_append. cbn [PyStr.count]. rewrite Ascii.eqb_refl.
  pose proof (count_nonneg x OsPath.sep).
  pose proof (count_nonneg tail OsPath.sep). lia.
Qed.

Lemma sep_split_unique (x y t1 t2 : string) :
  PyStr.count x OsPath.sep = 0 -> PyStr.count y OsPath.sep = 0 ->
  x ++ String OsPath.sep t1 = y ++ String OsPath.sep t2 -> x = y.
Proof.
  revert y; induction x as [|a x IH]; intros [|b y] Hx Hy E; simpl in E.
  - reflexivity.
  - injection E as <- _. apply count_cons_zero in Hy.
    destruct Hy as [Hb _]. now rewrite Ascii.eqb_refl in Hb.
  - injection E as -> _. apply count_cons_zero in Hx.
    destruct Hx as [Ha _]. now rewrite Ascii.eqb_refl in Ha.
  - injection E as <- E. apply count_cons_zero in Hx, Hy.
    f_equal. now apply (IH y).
Qed.

Lemma ends_with_tail (a x front : string) (c : ascii) :
  x <> EmptyString ->
  a ++ x = front ++ String c EmptyString ->
  exists x0, x = x0 ++ String c EmptyString.
Proof.
  revert front; induction a as [|b a IH]; intros front Hx E; simpl in E.
  - now exists front.
  - destruct front as [|b' front]; simpl in E.
    + injection E as _ E. destruct a; simpl in E;
        [contradiction (Hx E) | discriminate].
    + injection E as _ E. now apply (IH front).
Qed.

Lemma join_plain_name (top x : string) :
  plain_name x -> OsPath.join top x = stem top ++ x.
Proof.
  intros [Hne Hc]. unfold OsPath.join, stem.
  destruct x as [|c x]; [contradiction|].
  apply count_cons_zero in Hc. destruct Hc as [Hc _].
  cbn [PyStr.startswith_char]. rewrite Hc.
  destruct (String.eqb top EmptyString || PyStr.endswith top "/");
    [reflexivity | now rewrite append_assoc].
Qed.

Lemma stem_of_joined (top x : string) :
  plain_name x -> stem (stem top ++ x) = stem top ++ x ++ "/".
Proof.
  intros [Hne Hc]. unfold stem at 1.
  assert (E1 : String.eqb (stem top ++ x) EmptyString = false).
  { apply String.eqb_neq. intros E.
    destruct (stem top); [now simpl in E | discriminate]. }
  assert (E2 : PyStr.endswith (stem top ++ x) "/" = false).
  { apply not_true_iff_false. intros E. apply endswith_spec in E.
    destruct E as [front E].
    destruct (ends_with_tail _ _ _ _ Hne E) as [x0 ->].
    now apply (count_sep_tail x0 EmptyString). }
  rewrite E1, E2. cbn [orb]. now rewrite append_assoc.
Qed.

Variable self : ProjectConsolidator.

Lemma found_in_shape (top : string) (filenames : list string) (p : string) :
  Forall plain_name filenames ->
  In p (found_in self (top, filenames)) ->
  exists f, plain_name f /\ p = stem top ++ f.
Proof.
  intros Hplain Hin. unfold found_in in Hin. cbn [fst snd] in Hin.
  apply in_map_iff in Hin. destruct Hin as [f [<- Hf]].
  apply filter_In in Hf. destruct Hf as [Hf _].
  rewrite Forall_forall in Hplain. pose proof (Hplain f Hf) as Hpf.
  exists f. split; [exact Hpf | now apply join_plain_name].
Qed.

Lemma found_in_no_repetition (top : string) (filenames : list string) :
  NoDup filenames -> Forall plain_name filenames ->
  NoDup (found_in self (top, filenames)).
Proof.
  intros Hnd Hplain. unfold found_in. cbn [fst snd].
  apply NoDup_map_NoDup_ForallPairs; [|now apply NoDup_filter].
  intros f g Hf Hg E. apply filter_In in Hf, Hg.
  rewrite Forall_forall in Hplain.
  rewrite !join_plain_name in E by (apply Hplain; tauto).
  now apply append_inv_head in E.
Qed.

Lemma subdir_names_plain (dirs : forest) :
  tidy_forest dirs -> Forall plain_name (subdir_names dirs).
Proof.
  induction dirs as [|dname sub rest IH]; intros H; [constructor|].
  destruct H as [Hd [_ [_ Hrest]]]. constructor; [exact Hd | now apply IH].
Qed.

Lemma walk_no_repetition (t : tree) :
  forall top,
    tidy t ->
    NoDup (flat_map (found_in self) (os_walk (keep_dir self) top t))
    /\ (forall p,
           In p (flat_map (found_in self) (os_walk (keep_dir self) top t)) ->
           exists tail, p = stem top ++ tail).
Proof.
  induction t as [fns subs IH | | dname sub IHsub rest IHrest]
    using tree_forest_ind
    with (P0 := fun dirs => forall top,
      tidy_forest dirs ->
      NoDup (flat_map (found_in self) (descend (keep_dir self) top dirs))
      /\ (forall p,
             In p (flat_map (found_in self)
                            (descend (keep_dir self) top dirs)) ->
             exists dname tail,
               In dname (subdir_names dirs)
               /\ p = stem top ++ dname ++ String OsPath.sep tail));
    intros top Htidy.
  - destruct Htidy as [Hnd [Hplain Hsubs]].
    destruct (IH top Hsubs) as [IHnd IHshape].
    cbn [os_walk flat_map]. split.
    + apply NoDup_app; [now apply found_in_no_repetition | exact IHnd |].
      intros p Hown Hbelow.
      destruct (found_in_shape _ _ _ Hplain Hown) as [f [[_ Hf] ->]].
      destruct (IHshape _ Hbelow) as [dname [tail [_ E]]].
      apply append_inv_head in E. rewrite E in Hf.
      now apply (count_sep_tail dname tail).
    + intros p Hin. apply in_app_iff in Hin. destruct Hin as [Hown | Hbelow].
      * destruct (found_in_shape _ _ _ Hplain Hown) as [f [_ ->]]. now exists f.
      * destruct (IHshape _ Hbelow) as [dname [tail [_ ->]]]. eauto.
  - split; [constructor | intros p []].
  - destruct Htidy as [Hd [Hfresh [Hsub Hrest]]].
    destruct (IHrest top Hrest) as [IHnd IHshape].
    assert (Hlater : forall p,
               In p (flat_map (found_in self)
                              (descend (keep_dir self) top rest)) ->
               exists dname' tail,
                 In dname' (subdir_names (SubDir dname sub rest))
                 /\ p = stem top ++ dname' ++ String OsPath.sep tail).
    { intros p Hin. destruct (IHshape _ Hin) as [d' [tail [Hd' ->]]].
      exists d', tail. split; [now right | reflexivity]. }
    cbn [descend]. destruct (keep_dir self dname); [|now split].
    destruct (IHsub (OsPath.join top dname) Hsub) as [Hnd Hshape].
    rewrite (join_plain_name top dname Hd) in Hnd, Hshape.
    rewrite (join_plain_name top dname Hd).
    assert (Hhere : forall p,
               In p (flat_map (found_in self)
                              (os_walk (keep_dir self) (stem top ++ dname) sub)) ->
               exists tail, p = stem top ++ dname ++ String OsPath.sep tail).
    { intros p Hin. destruct (Hshape _ Hin) as [tail ->].
      rewrite (stem_of_joined top dname Hd). exists tail.
      now rewrite !append_assoc. }
    rewrite flat_map_app. split.
    + apply NoDup_app; [exact Hnd | exact IHnd |].
      intros p Hin Hin'.
      destruct (Hhere _ Hin) as [tail ->].
      destruct (IHshape _ Hin') as [d' [tail' [Hd' E]]].
      apply append_inv_head in E.
      pose proof (subdir_names_plain rest Hrest) as Hplain.
      rewrite Forall_forall in Hplain. destruct (Hplain d' Hd') as [_ Hc'].
      destruct Hd as [_ Hc].
      apply (sep_split_unique _ _ _ _ Hc Hc') in E. subst d'.
      contradiction.
    + intros p Hin. apply in_app_iff in Hin. destruct Hin as [Hin | Hin].
      * destruct (Hhere _ Hin) as [tail ->]. exists dname, tail.
        split; [now left | reflexivity].
      * now apply Hlater.
Qed.

End NoRepetition.

(** X18.  No file twice.  When the listing is as a file system gives it
    (in every directory the names are not empty, hold no slash, and no two
    files and no two sub-directories share a name), the list of candidates
    holds every path once, so that no file has two entries in the output. *)
Theorem X18_no_candidate_twice (self : ProjectConsolidator) (w : world) :
  tidy (listing w) -> NoDup (candidates self w).
Proof.
  intros H. rewrite candidates_spec.
  now apply (walk_no_repetition self (listing w) (root_dir self)).
Qed.

Lemma X18_witness : NoDup (candidates sample_consolidator sample_world).
Proof.
  apply X18_no_candidate_twice. cbn.
  repeat (split || (constructor; cbn) || (intros H; intuition discriminate)
          || discriminate).
Defined.
